(** * Collaborative coding room engine: a shallow embedding of the server

    The server (the Socket.IO gateway, the [TerminalManager] class and the
    global room tables of the backend entry point) is embedded as a state
    machine: one [step] per event the Node.js event loop can dispatch (a
    client message, a file-watcher callback, PTY output, a timer, a
    [setImmediate] callback).  Handlers run to completion, as JavaScript
    callbacks do.

    Conventions of the embedding:
    - JavaScript strings are Rocq strings (sequences of 8-bit characters);
      a payload field that is absent, [undefined] or the empty string is the
      empty string (all three are falsy and the handlers only test
      truthiness);
    - a plain object used as a dictionary is an insertion-ordered association
      list with unique keys ([Obj]); enumeration order is insertion order
      (keys that spell array indices, which JavaScript enumerates first, are
      outside the model, and so are names inherited from [Object.prototype],
      except where a handler hands the looked-up value itself to the client,
      in get-files);
    - [Map] and [Set] instances that are never enumerated in a way that
      matters are finite maps and sets of stdpp;
    - everything the handlers do to the outside world is recorded, in order,
      as a list of [Effect]s; an exception that escapes a handler ends it and
      is recorded as [Uncaught]. *)

From Stdlib Require Import Ascii String.
From stdpp Require Import base strings list gmap sorting.

(** ** JavaScript strings *)

Module Js.

Definition chr (n : nat) : string := String (ascii_of_nat n) "".

Definition ESC : string := chr 27.
Definition CR : string := chr 13.
Definition LF : string := chr 10.
Definition DQ : string := chr 34.
Definition ETX : string := chr 3.

(** [!!s] *)
Definition truthy (s : string) : bool :=
  match s with "" => false | String _ _ => true end.

(** [s || d] *)
Definition or_else (s d : string) : string := if truthy s then s else d.

(** [s.split(c)] for a one-character separator. *)
Fixpoint split (c : ascii) (s : string) : list string :=
  match s with
  | "" => [""]
  | String a t =>
      if decide (a = c) then "" :: split c t
      else match split c t with
           | h :: r => String a h :: r
           | [] => [String a ""]
           end
  end.

(** [l.pop()] of a non-empty array of strings. *)
Definition pop (l : list string) : string := List.last l "".

(** [l.join(c)] *)
Fixpoint join (c : string) (l : list string) : string :=
  match l with
  | [] => ""
  | [x] => x
  | x :: r => x +:+ c +:+ join c r
  end.

(** [s.startsWith(p)] *)
Definition startsWith (s p : string) : bool := String.prefix p s.

(** [s.substring(n)] *)
Fixpoint substring_from (n : nat) (s : string) : string :=
  match n, s with
  | O, _ => s
  | S n', String _ t => substring_from n' t
  | S _, "" => ""
  end.

Definition endsWith (s p : string) : bool :=
  String.prefix (String.rev p) (String.rev s).

Definition lower_char (a : ascii) : ascii :=
  let n := nat_of_ascii a in
  if (65 <=? n)%nat && (n <=? 90)%nat then ascii_of_nat (n + 32) else a.

(** [s.toLowerCase()] on the ASCII range. *)
Fixpoint toLowerCase (s : string) : string :=
  match s with
  | "" => ""
  | String a t => String (lower_char a) (toLowerCase t)
  end.

(** [l.includes(x)] *)
Definition includes (l : list string) (x : string) : bool :=
  bool_decide (x ∈ l).

(** [l.sort()]: the default order compares code units. *)
Definition sort (l : list string) : list string :=
  merge_sort String.le l.

(** The property names every plain object inherits from [Object.prototype]:
    a lookup [o[name]] on an object that has no own property of that name
    yields the inherited value (a built-in function, or the prototype object
    for [__proto__]), which is truthy. *)
Definition prototype_names : list string :=
  ["constructor"; "__defineGetter__"; "__defineSetter__"; "hasOwnProperty";
   "__lookupGetter__"; "__lookupSetter__"; "isPrototypeOf";
   "propertyIsEnumerable"; "toString"; "valueOf"; "__proto__";
   "toLocaleString"].

Definition inherited (name : string) : bool :=
  bool_decide (name ∈ prototype_names).

End Js.

(** ** Insertion-ordered objects *)

Module Obj.

Section Ops.
Context {V : Type}.

Definition t : Type := list (string * V).

(** [o[k]] ([None] is [undefined]) *)
Fixpoint get (o : list (string * V)) (k : string) : option V :=
  match o with
  | [] => None
  | (k', v) :: r => if decide (k' = k) then Some v else get r k
  end.

(** [o[k] = v]: an existing key keeps its position, a new one is
    appended. *)
Fixpoint set (k : string) (v : V) (o : list (string * V)) : list (string * V) :=
  match o with
  | [] => [(k, v)]
  | (k', v') :: r =>
      if decide (k' = k) then (k, v) :: r else (k', v') :: set k v r
  end.

(** [delete o[k]] *)
Definition delete (k : string) (o : list (string * V)) : list (string * V) :=
  List.filter (λ e, negb (bool_decide (e.1 = k))) o.

(** [Object.keys(o)] *)
Definition keys (o : list (string * V)) : list string := o.*1.

Definition has (o : list (string * V)) (k : string) : bool :=
  match get o k with Some _ => true | None => false end.

(** Keys of an object are unique. *)
Definition wf (o : list (string * V)) : Prop := NoDup (keys o).
End Ops.

End Obj.

(** ** Node's [path] module (POSIX flavour) *)

Module Path.

Definition strip_trailing_slashes (p : string) : string :=
  let fix go (s : string) : string :=
    match s with
    | String "/" t => go t
    | _ => s
    end in
  String.rev (go (String.rev p)).

(** The part after the last ['/'], trailing slashes ignored. *)
Definition leaf (p : string) : string :=
  Js.pop (Js.split "/" (strip_trailing_slashes p)).

(** [path.extname(p)]: from the last ['.'] of the leaf to its end; empty
    when the leaf has no dot, starts with its only dot, or is [".."]. *)
Definition extname (p : string) : string :=
  let l := leaf p in
  match Js.split "." l with
  | [] | [_] => ""
  | [""; e] => ""
  | parts =>
      if decide (l = "..") then "" else "." +:+ Js.pop parts
  end.

(** [path.basename(p, ext)] *)
Definition basename (p ext : string) : string :=
  let l := leaf p in
  if Js.endsWith l ext && negb (bool_decide (l = ext))
  then String.rev (Js.substring_from (String.length ext) (String.rev l))
  else l.

(** [path.dirname(p)] *)
Definition dirname (p : string) : string :=
  match p with
  | "" => "."
  | String c _ =>
      let hasRoot := bool_decide (c = "/"%char) in
      let fix skip_leaf (s : string) : string :=
        match s with
        | "" => ""
        | String "/" t => s
        | String _ t => skip_leaf t
        end in
      (* reversed path: drop trailing slashes, the leaf, and one slash *)
      match skip_leaf (String.rev (strip_trailing_slashes p)) with
      | "" => if hasRoot then "/" else "."
      | String _ "" => if hasRoot then "/" else "."
      | String _ "/" => if hasRoot then "//" else "/"
      | String _ t => String.rev t
      end
  end.

Fixpoint normalize_parts (isAbs : bool) (acc parts : list string) : list string :=
  match parts with
  | [] => rev acc
  | "" :: r | "." :: r => normalize_parts isAbs acc r
  | ".." :: r =>
      match acc with
      | [] => normalize_parts isAbs (if isAbs then [] else [".."]) r
      | ".." :: _ => normalize_parts isAbs (".." :: acc) r
      | _ :: acc' => normalize_parts isAbs acc' r
      end
  | c :: r => normalize_parts isAbs (c :: acc) r
  end.

(** [path.normalize(p)] *)
Definition normalize (p : string) : string :=
  match p with
  | "" => "."
  | String c _ =>
      let isAbs := bool_decide (c = "/"%char) in
      let trailing := Js.endsWith p "/" in
      let res := Js.join "/" (normalize_parts isAbs [] (Js.split "/" p)) in
      let res := if Js.truthy res then (if trailing then res +:+ "/" else res)
                 else (if isAbs then "" else if trailing then "./" else ".") in
      if isAbs then "/" +:+ res else res
  end.

(** [path.join(a, b)] *)
Definition join (a b : string) : string :=
  match Js.truthy a, Js.truthy b with
  | true, true => normalize (a +:+ "/" +:+ b)
  | true, false => normalize a
  | false, true => normalize b
  | false, false => "."
  end.

End Path.

(** ** Data model *)

(** A node of a room's file tree ([type: 'file'] or [type: 'folder']). *)
Inductive FileNode : Type :=
| FileN (content extension : string) (isExpanded : bool)
| FolderN (isExpanded : bool).

Definition node_type (n : FileNode) : string :=
  match n with FileN _ _ _ => "file" | FolderN _ => "folder" end.

Definition is_file (n : FileNode) : bool :=
  match n with FileN _ _ _ => true | FolderN _ => false end.

Definition is_folder (n : FileNode) : bool :=
  match n with FileN _ _ _ => false | FolderN _ => true end.

(** [n.content] ([None] is [undefined]) *)
Definition node_content (n : FileNode) : option string :=
  match n with FileN c _ _ => Some c | FolderN _ => None end.

(** [n.isExpanded] *)
Definition node_expanded (n : FileNode) : bool :=
  match n with FileN _ _ x => x | FolderN x => x end.

Abbreviation Files := (list (string * FileNode)).

(** [Object.keys(files).filter(key => files[key].type === 'file')] *)
Definition file_keys (files : Files) : list string :=
  List.filter
    (λ k, match Obj.get files k with Some n => is_file n | None => false end)
    (Obj.keys files).

(** [getDefaultFiles()] *)
Definition getDefaultFiles : Files :=
  [("main.js", FileN "// start typing..." "js" false)].

(** The working directories live on a disk of files and directories, keyed
    by absolute path. *)
Inductive DiskEntry : Type :=
| DFile (content : string)
| DDir.

Abbreviation Disk := (gmap string DiskEntry).

(** What the server remembers of a connected socket: [socket.roomCode],
    [socket.username], and the Socket.IO channels it has joined besides the
    one named by its own id. *)
Record Socket : Type := {
  s_roomCode : string;
  s_username : string;
  s_joined : list string
}.

(** The fields of [class TerminalManager] ([fileWriteQueue] is never read or
    written after construction and is left out). *)
Record TerminalManager : Type := {
  terminals : list (string * string);
  sharedWorkingDirectories : list (string * string);
  fileWatchers : gset string;
  userRooms : list (string * string);
  fileSyncInProgress : gset string
}.

(** Callbacks handed to [setTimeout]. *)
Inductive Timer : Type :=
| TClearSync (syncKey : string)
| TSyncRoomFiles (roomCode : string)
| TRespawn (roomCode userId : string).

(** The server: the terminal manager, the global room tables, and the parts
    of the platform it acts on (sockets, disk, rooms collection, pending
    timers and [setImmediate] callbacks). *)
Record State : Type := {
  tm : TerminalManager;
  rooms : list (string * list string);
  roomFiles : list (string * Files);
  userActiveFiles : list (string * string);
  userSession : list (string * (string * string));
  sockets : list (string * Socket);
  disk : Disk;
  db : list (string * string);
  timers : list Timer;
  immediates : list (string * string * string)
}.

(** Events sent to clients. *)
Inductive Msg : Type :=
| RoomCreated (roomCode : string)
| FilesUpdate (files : Files)
| FileContentUpdate (fileName content : string)
| ActiveFileChanged (fileName : string)
| FileCreated (fileName : string)
| FolderCreated (folderPath : string)
| FileSynced (fileName content : string)
| ItemDeleted (itemPath type : string)
| ItemRenamed (oldPath newPath type : string)
| ItemMoved (sourcePath targetPath itemType : string)
| FolderToggled (folderPath : string) (isExpanded : bool)
| FileError (message : string)
| TerminalOutput (data : string)
| UserJoined (username userId : string)
| UserLeft (username userId : string)
| CodeUpdate (code fileName fromUser : string).

(** Arguments of reply callbacks.  [ReplyInherited name] is the reply
    [{ files: v }] of get-files where [v] is the value an object inherits
    under [name] from [Object.prototype], not the tree of a room. *)
Inductive Reply : Type :=
| ReplyRoomCreated (roomCode : string)
| ReplyFailure (error : string)
| ReplyJoinedAlready
| ReplyJoined (message : string) (files : Files) (activeFile : option string)
| ReplyFiles (files : Files)
| ReplyInherited (name : string)
| ReplyContent (content : string)
| ReplyWorkingDirectory (workingDirectory : option string).

(** Addressing: [socket.emit], [io.to(name).emit], [socket.to(name).emit]. *)
Inductive Target : Type :=
| ToSocket (sid : string)
| ToChannel (name : string)
| ToChannelExcept (name sid : string).

Inductive Exn : Type :=
| TypeError (what : string)
| FsError (what : string)
| SpawnError
| DbError.

Inductive Effect : Type :=
| Emit (to : Target) (m : Msg)
| Callback (sid : string) (r : Reply)
| PtySpawn (userId roomCode cwd : string)
| PtyWrite (userId data : string)
| PtyKill (userId : string)
| PtyResize (userId : string) (cols rows : nat)
| WatcherStart (roomCode workDir : string)
| WatcherClose (roomCode : string)
| Uncaught (e : Exn).

(** Functions of the platform the server calls and that are not part of it:
    bcrypt and whether the operating system grants a new PTY. *)
Class Platform : Type := {
  bcrypt_hash : string → string;
  bcrypt_compare : string → string → bool;
  pty_spawn_ok : string → string → bool
}.

(** *** Field updates *)

Definition upd_terminals (f : list (string * string) → list (string * string))
    (t : TerminalManager) : TerminalManager :=
  {| terminals := f (terminals t);
     sharedWorkingDirectories := sharedWorkingDirectories t;
     fileWatchers := fileWatchers t; userRooms := userRooms t;
     fileSyncInProgress := fileSyncInProgress t |}.

Definition upd_sharedWorkingDirectories
    (f : list (string * string) → list (string * string))
    (t : TerminalManager) : TerminalManager :=
  {| terminals := terminals t;
     sharedWorkingDirectories := f (sharedWorkingDirectories t);
     fileWatchers := fileWatchers t; userRooms := userRooms t;
     fileSyncInProgress := fileSyncInProgress t |}.

Definition upd_fileWatchers (f : gset string → gset string)
    (t : TerminalManager) : TerminalManager :=
  {| terminals := terminals t;
     sharedWorkingDirectories := sharedWorkingDirectories t;
     fileWatchers := f (fileWatchers t); userRooms := userRooms t;
     fileSyncInProgress := fileSyncInProgress t |}.

Definition upd_userRooms (f : list (string * string) → list (string * string))
    (t : TerminalManager) : TerminalManager :=
  {| terminals := terminals t;
     sharedWorkingDirectories := sharedWorkingDirectories t;
     fileWatchers := fileWatchers t; userRooms := f (userRooms t);
     fileSyncInProgress := fileSyncInProgress t |}.

Definition upd_fileSyncInProgress (f : gset string → gset string)
    (t : TerminalManager) : TerminalManager :=
  {| terminals := terminals t;
     sharedWorkingDirectories := sharedWorkingDirectories t;
     fileWatchers := fileWatchers t; userRooms := userRooms t;
     fileSyncInProgress := f (fileSyncInProgress t) |}.

Definition upd_tm (f : TerminalManager → TerminalManager) (st : State) : State :=
  {| tm := f (tm st); rooms := rooms st; roomFiles := roomFiles st;
     userActiveFiles := userActiveFiles st; userSession := userSession st;
     sockets := sockets st; disk := disk st; db := db st;
     timers := timers st; immediates := immediates st |}.

Definition upd_rooms (f : list (string * list string) → list (string * list string))
    (st : State) : State :=
  {| tm := tm st; rooms := f (rooms st); roomFiles := roomFiles st;
     userActiveFiles := userActiveFiles st; userSession := userSession st;
     sockets := sockets st; disk := disk st; db := db st;
     timers := timers st; immediates := immediates st |}.

Definition upd_roomFiles (f : list (string * Files) → list (string * Files))
    (st : State) : State :=
  {| tm := tm st; rooms := rooms st; roomFiles := f (roomFiles st);
     userActiveFiles := userActiveFiles st; userSession := userSession st;
     sockets := sockets st; disk := disk st; db := db st;
     timers := timers st; immediates := immediates st |}.

Definition upd_userActiveFiles (f : list (string * string) → list (string * string))
    (st : State) : State :=
  {| tm := tm st; rooms := rooms st; roomFiles := roomFiles st;
     userActiveFiles := f (userActiveFiles st); userSession := userSession st;
     sockets := sockets st; disk := disk st; db := db st;
     timers := timers st; immediates := immediates st |}.

Definition upd_userSession
    (f : list (string * (string * string)) → list (string * (string * string)))
    (st : State) : State :=
  {| tm := tm st; rooms := rooms st; roomFiles := roomFiles st;
     userActiveFiles := userActiveFiles st; userSession := f (userSession st);
     sockets := sockets st; disk := disk st; db := db st;
     timers := timers st; immediates := immediates st |}.

Definition upd_sockets (f : list (string * Socket) → list (string * Socket))
    (st : State) : State :=
  {| tm := tm st; rooms := rooms st; roomFiles := roomFiles st;
     userActiveFiles := userActiveFiles st; userSession := userSession st;
     sockets := f (sockets st); disk := disk st; db := db st;
     timers := timers st; immediates := immediates st |}.

Definition upd_disk (f : Disk → Disk) (st : State) : State :=
  {| tm := tm st; rooms := rooms st; roomFiles := roomFiles st;
     userActiveFiles := userActiveFiles st; userSession := userSession st;
     sockets := sockets st; disk := f (disk st); db := db st;
     timers := timers st; immediates := immediates st |}.

Definition upd_db (f : list (string * string) → list (string * string))
    (st : State) : State :=
  {| tm := tm st; rooms := rooms st; roomFiles := roomFiles st;
     userActiveFiles := userActiveFiles st; userSession := userSession st;
     sockets := sockets st; disk := disk st; db := f (db st);
     timers := timers st; immediates := immediates st |}.

Definition upd_timers (f : list Timer → list Timer) (st : State) : State :=
  {| tm := tm st; rooms := rooms st; roomFiles := roomFiles st;
     userActiveFiles := userActiveFiles st; userSession := userSession st;
     sockets := sockets st; disk := disk st; db := db st;
     timers := f (timers st); immediates := immediates st |}.

Definition upd_immediates
    (f : list (string * string * string) → list (string * string * string))
    (st : State) : State :=
  {| tm := tm st; rooms := rooms st; roomFiles := roomFiles st;
     userActiveFiles := userActiveFiles st; userSession := userSession st;
     sockets := sockets st; disk := disk st; db := db st;
     timers := timers st; immediates := f (immediates st) |}.

(** ** Handlers as computations

    A handler reads and writes the server state, records effects, and may
    throw. *)

Inductive Outcome (A : Type) : Type :=
| Done (a : A)
| Raise (e : Exn).
Arguments Done {A} a.
Arguments Raise {A} e.

Definition M (A : Type) : Type := State → Outcome A * State * list Effect.

Definition ret {A} (a : A) : M A := λ st, (Done a, st, []).

Definition bind {A B} (m : M A) (k : A → M B) : M B :=
  λ st,
    match m st with
    | (Done a, st1, e1) =>
        match k a st1 with
        | (r, st2, e2) => (r, st2, e1 ++ e2)
        end
    | (Raise x, st1, e1) => (Raise x, st1, e1)
    end.

#[export] Instance M_ret : MRet M := @ret.
#[export] Instance M_bind : MBind M := λ A B k m, bind m k.

Definition throw {A} (x : Exn) : M A := λ st, (Raise x, st, []).

Definition gets {A} (f : State → A) : M A := λ st, (Done (f st), st, []).

Definition modify (f : State → State) : M unit := λ st, (Done (), f st, []).

Definition effect (e : Effect) : M unit := λ st, (Done (), st, [e]).

Definition emit (to : Target) (m : Msg) : M unit := effect (Emit to m).

(** [try { body } catch (e) { handler }] *)
Definition try_catch {A} (body : M A) (handler : Exn → M A) : M A :=
  λ st,
    match body st with
    | (Done a, st1, e1) => (Done a, st1, e1)
    | (Raise x, st1, e1) =>
        match handler x st1 with
        | (r, st2, e2) => (r, st2, e1 ++ e2)
        end
    end.

(** [try { body } finally { cleanup }] *)
Definition try_finally {A} (body : M A) (cleanup : M unit) : M A :=
  λ st,
    match body st with
    | (r, st1, e1) =>
        match cleanup st1 with
        | (Done _, st2, e2) => (r, st2, e1 ++ e2)
        | (Raise x, st2, e2) => (Raise x, st2, e1 ++ e2)
        end
    end.

(** [l.forEach(f)] *)
Fixpoint forEach {A} (l : list A) (f : A → M unit) : M unit :=
  match l with
  | [] => ret ()
  | x :: r => bind (f x) (λ _, forEach r f)
  end.

Definition when (b : bool) (m : M unit) : M unit := if b then m else ret ().

(** [setTimeout(cb, ms)] *)
Definition setTimeout (t : Timer) : M unit :=
  modify (upd_timers (λ l, l ++ [t])).

(** ** The file system

    Node's synchronous [fs] calls on the disk of the state.  A call that
    throws ([None]) leaves the disk as it was. *)

Module Fs.

(** [os.tmpdir()] *)
Definition tmpdir : string := "/tmp".

(** The root and the temporary directory exist without being listed. *)
Definition lookup (d : Disk) (p : string) : option DiskEntry :=
  let q := Path.strip_trailing_slashes p in
  if bool_decide (q = "") || bool_decide (q = tmpdir) then Some DDir
  else match d !! q with
       | Some (DFile c) => if Js.endsWith p "/" then None else Some (DFile c)
       | r => r
       end.

Definition is_dir (d : Disk) (p : string) : bool :=
  match lookup d p with Some DDir => true | _ => false end.

(** [fs.existsSync(p)] *)
Definition existsSync (d : Disk) (p : string) : bool :=
  match lookup d p with Some _ => true | None => false end.

Fixpoint prefixes (sofar : string) (parts : list string) : list string :=
  match parts with
  | [] => []
  | c :: r => let q := sofar +:+ "/" +:+ c in q :: prefixes q r
  end.

(** The ancestors of a path and the path itself, shortest first. *)
Definition chain (p : string) : list string :=
  let q := Path.strip_trailing_slashes p in
  let parts := List.filter Js.truthy (Js.split "/" q) in
  match q with
  | String "/" _ => prefixes "" parts
  | _ => match parts with [] => [] | c :: r => c :: prefixes c r end
  end.

(** [fs.mkdirSync(p, { recursive: true })] *)
Definition mkdirSync (d : Disk) (p : string) : option Disk :=
  let c := chain p in
  if forallb (λ q, match lookup d q with Some (DFile _) => false | _ => true end) c
  then Some (foldl (λ acc q, match lookup acc q with
                             | None => <[q := DDir]> acc
                             | Some _ => acc
                             end) d c)
  else None.

(** [fs.readFileSync(p, 'utf8')] *)
Definition readFileSync (d : Disk) (p : string) : option string :=
  match lookup d p with Some (DFile c) => Some c | _ => None end.

(** [fs.writeFileSync(p, content)] *)
Definition writeFileSync (d : Disk) (p content : string) : option Disk :=
  if Js.endsWith p "/" then None
  else if is_dir d (Path.dirname p) then
    match lookup d p with
    | Some DDir => None
    | _ => Some (<[p := DFile content]> d)
    end
  else None.

Definition under (dir k : string) : bool := Js.startsWith k (dir +:+ "/").

(** [fs.statSync(p).isDirectory()] *)
Definition isDirectory (d : Disk) (p : string) : option bool :=
  match lookup d p with
  | Some DDir => Some true
  | Some (DFile _) => Some false
  | None => None
  end.

(** [fs.unlinkSync(p)] *)
Definition unlinkSync (d : Disk) (p : string) : option Disk :=
  match lookup d p with
  | Some (DFile _) => Some (delete p d)
  | _ => None
  end.

(** [fs.rmSync(p, { recursive: true, force: true })] *)
Definition rmSync (d : Disk) (p : string) : Disk :=
  let q := Path.strip_trailing_slashes p in
  filter (λ kv, kv.1 ≠ q ∧ under q kv.1 = false) d.

Definition rekey (o n : string) (d : Disk) : Disk :=
  list_to_map
    ((λ kv : string * DiskEntry,
        (if bool_decide (kv.1 = o) then n
         else if under o kv.1
              then n +:+ Js.substring_from (String.length o) kv.1
              else kv.1, kv.2)) <$> map_to_list d).

Definition dir_empty (d : Disk) (n : string) : bool :=
  bool_decide (map_Forall (λ k _, under n k = false) d).

(** [fs.renameSync(old, new)] *)
Definition renameSync (d : Disk) (old new : string) : option Disk :=
  let o := Path.strip_trailing_slashes old in
  let n := Path.strip_trailing_slashes new in
  match d !! o, lookup d old with
  | Some e, Some _ =>
      if bool_decide (o = n) then Some d
      else if negb (is_dir d (Path.dirname n)) then None
      else match e with
           | DFile c =>
               if Js.endsWith new "/" then None else
               match lookup d n with
               | Some DDir => None
               | _ => Some (<[n := DFile c]> (delete o d))
               end
           | DDir =>
               if under o n then None else
               match d !! n, lookup d n with
               | _, Some (DFile _) => None
               | Some DDir, _ =>
                   if dir_empty d n then Some (rekey o n (delete n d)) else None
               | None, None => Some (rekey o n d)
               | _, _ => None
               end
           end
  | _, _ => None
  end.

End Fs.

(** ** The terminal manager *)

Definition fs_read {A} (f : Disk → option A) (what : string) : M A :=
  λ st, match f (disk st) with
        | Some a => (Done a, st, [])
        | None => (Raise (FsError what), st, [])
        end.

Definition fs_write (f : Disk → option Disk) (what : string) : M unit :=
  λ st, match f (disk st) with
        | Some d => (Done (), upd_disk (λ _, d) st, [])
        | None => (Raise (FsError what), st, [])
        end.

Definition existsSync (p : string) : M bool :=
  gets (λ st, Fs.existsSync (disk st) p).

(** [roomFiles[roomCode]?.[path]] *)
Definition room_node (st : State) (roomCode path : string) : option FileNode :=
  match Obj.get (roomFiles st) roomCode with
  | Some files => Obj.get files path
  | None => None
  end.

(** [roomFiles[roomCode]], an empty object when the room has none. *)
Definition room_files (st : State) (roomCode : string) : Files :=
  default [] (Obj.get (roomFiles st) roomCode).

(** An update of [roomFiles[roomCode]] in place. *)
Definition upd_room_files (roomCode : string) (f : Files → Files) : M unit :=
  modify (upd_roomFiles (λ rf,
    match Obj.get rf roomCode with
    | Some files => Obj.set roomCode (f files) rf
    | None => rf
    end)).

(** [if (!roomFiles[roomCode]) roomFiles[roomCode] = {}] *)
Definition ensure_room_files (roomCode : string) : M unit :=
  modify (upd_roomFiles (λ rf,
    match Obj.get rf roomCode with
    | Some _ => rf
    | None => Obj.set roomCode [] rf
    end)).

(** [rooms[roomCode]], as the receiver of a method call: a [TypeError] when
    it is [undefined]. *)
Definition room_members (roomCode : string) : M (list string) :=
  λ st, match Obj.get (rooms st) roomCode with
        | Some l => (Done l, st, [])
        | None => (Raise (TypeError "rooms[roomCode] is undefined"), st, [])
        end.

Definition active_file (st : State) (userId : string) : option string :=
  Obj.get (userActiveFiles st) userId.

(** [key === path || key.startsWith(path + '/')] *)
Definition at_or_under (path key : string) : bool :=
  bool_decide (key = path) || Js.startsWith key (path +:+ "/").

Definition sync_key (origin roomCode path : string) : string :=
  origin +:+ "-" +:+ roomCode +:+ "-" +:+ path.

Definition banner_red (text : string) : string :=
  Js.ESC +:+ "[31m" +:+ text +:+ Js.ESC +:+ "[0m" +:+ Js.CR +:+ Js.LF.

Definition banner_green (text : string) : string :=
  Js.ESC +:+ "[32m" +:+ text +:+ Js.ESC +:+ "[0m" +:+ Js.CR +:+ Js.LF.

Section Server.

Context `{Platform}.

(** [setupFileWatcher(roomCode, workDir)] *)
Definition setupFileWatcher (roomCode workDir : string) : M unit :=
  has ← gets (λ st, bool_decide (roomCode ∈ fileWatchers (tm st)));
  if has : bool then mret ()
  else
    effect (WatcherStart roomCode workDir);;
    modify (upd_tm (upd_fileWatchers (λ s, {[roomCode]} ∪ s))).

(** [createFolderInWorkingDir(roomCode, folderPath)] *)
Definition createFolderInWorkingDir (roomCode folderPath : string) : M bool :=
  wd ← gets (λ st, Obj.get (sharedWorkingDirectories (tm st)) roomCode);
  match wd with
  | Some (String _ _ as workDir) =>
      try_catch
        (let fullPath := Path.join workDir folderPath in
         ex ← existsSync fullPath;
         (if ex : bool then mret ()
          else fs_write (λ d, Fs.mkdirSync d fullPath) "mkdir");;
         mret true)
        (λ _, mret false)
  | _ => mret false
  end.

(** The [try] block of [writeFileToWorkingDir] and its [catch]: the file
    is written only when the disk does not hold the content already. *)
Definition write_if_changed (workDir fileName content : string) : M bool :=
  try_catch
    (let filePath := Path.join workDir fileName in
     let fileDir := Path.dirname filePath in
     ex ← existsSync fileDir;
     (if ex : bool then mret ()
      else fs_write (λ d, Fs.mkdirSync d fileDir) "mkdir");;
     ex' ← existsSync filePath;
     shouldWrite ←
       (if ex' : bool then
          currentContent ← fs_read (λ d, Fs.readFileSync d filePath) "read";
          mret (negb (bool_decide (currentContent = content)))
        else mret true);
     (if shouldWrite : bool then
        fs_write (λ d, Fs.writeFileSync d filePath content) "write"
      else mret ());;
     mret true)
    (λ _, mret false).

(** [writeFileToWorkingDir(roomCode, fileName, content)] *)
Definition writeFileToWorkingDir (roomCode fileName content : string) : M bool :=
  let syncKey := sync_key "editor" roomCode fileName in
  busy ← gets (λ st, bool_decide (syncKey ∈ fileSyncInProgress (tm st)));
  if busy : bool then mret true
  else
    modify (upd_tm (upd_fileSyncInProgress (λ s, {[syncKey]} ∪ s)));;
    wd ← gets (λ st, Obj.get (sharedWorkingDirectories (tm st)) roomCode);
    match wd with
    | Some (String _ _ as workDir) =>
        try_finally
          (write_if_changed workDir fileName content)
          (setTimeout (TClearSync syncKey))
    | _ =>
        modify (upd_tm (upd_fileSyncInProgress (λ s, s ∖ {[syncKey]})));;
        mret false
    end.

(** [syncRoomFilesToWorkingDir(roomCode)] *)
Definition syncRoomFilesToWorkingDir (roomCode : string) : M unit :=
  wd ← gets (λ st, Obj.get (sharedWorkingDirectories (tm st)) roomCode);
  rf ← gets (λ st, Obj.get (roomFiles st) roomCode);
  match wd, rf with
  | Some (String _ _), Some files =>
      forEach (Obj.keys files) (λ itemPath,
        itemData ← gets (λ st, room_node st roomCode itemPath);
        match itemData with
        | Some (FileN content _ _) =>
            writeFileToWorkingDir roomCode itemPath content;; mret ()
        | Some (FolderN _) =>
            createFolderInWorkingDir roomCode itemPath;; mret ()
        | None => throw (TypeError "itemData is undefined")
        end)
  | _, _ => mret ()
  end.

(** [initializeTerminal(roomCode, userId)]; the [onData] and [onExit]
    callbacks it registers are the [PtyData] and [PtyExit] inputs. *)
Definition initializeTerminal (roomCode userId : string) : M unit :=
  has ← gets (λ st, Obj.has (terminals (tm st)) userId);
  if has : bool then mret ()
  else
    wd ← gets (λ st, Obj.get (sharedWorkingDirectories (tm st)) roomCode);
    workDir ←
      match wd with
      | Some (String _ _ as workDir) => mret workDir
      | _ =>
          let workDir := Path.join Fs.tmpdir ("compiler_" +:+ roomCode) in
          ex ← existsSync workDir;
          (if ex : bool then mret ()
           else fs_write (λ d, Fs.mkdirSync d workDir) "mkdir");;
          modify (upd_tm (upd_sharedWorkingDirectories (Obj.set roomCode workDir)));;
          setupFileWatcher roomCode workDir;;
          mret workDir
      end;
    modify (upd_tm (upd_userRooms (Obj.set userId roomCode)));;
    try_catch
      ((if pty_spawn_ok userId workDir then mret ()
        else throw SpawnError);;
       effect (PtySpawn userId roomCode workDir);;
       modify (upd_tm (upd_terminals (Obj.set userId roomCode)));;
       emit (ToChannel userId)
         (TerminalOutput
            (banner_green ("✓ Terminal initialized for room: " +:+ roomCode)));;
       setTimeout (TSyncRoomFiles roomCode))
      (λ _, emit (ToChannel userId)
              (TerminalOutput (banner_red "Error: Failed to initialize terminal"))).

(** [syncFileFromTerminalToRoom(roomCode, fileName, filePath)] *)
Definition syncFileFromTerminalToRoom (roomCode fileName filePath : string) : M unit :=
  let syncKey := sync_key "terminal" roomCode fileName in
  busy ← gets (λ st, bool_decide (syncKey ∈ fileSyncInProgress (tm st)));
  if busy : bool then mret ()
  else
    modify (upd_tm (upd_fileSyncInProgress (λ s, {[syncKey]} ∪ s)));;
    try_finally
      (try_catch
         (content ← fs_read (λ d, Fs.readFileSync d filePath) "read";
          let extension :=
            Js.or_else (Js.substring_from 1 (Path.extname fileName)) "txt" in
          ensure_room_files roomCode;;
          node ← gets (λ st, room_node st roomCode fileName);
          let currentContent := default "" (node ≫= node_content) in
          if bool_decide (currentContent = content) then mret ()
          else
            upd_room_files roomCode
              (Obj.set fileName (FileN content extension false));;
            files ← gets (λ st, room_files st roomCode);
            emit (ToChannel roomCode) (FilesUpdate files);;
            emit (ToChannel roomCode) (FileSynced fileName content))
         (λ _, mret ()))
      (setTimeout (TClearSync syncKey)).

(** [syncFolderFromTerminalToRoom(roomCode, folderPath)] *)
Definition syncFolderFromTerminalToRoom (roomCode folderPath : string) : M unit :=
  let syncKey := sync_key "terminal-folder" roomCode folderPath in
  busy ← gets (λ st, bool_decide (syncKey ∈ fileSyncInProgress (tm st)));
  if busy : bool then mret ()
  else
    modify (upd_tm (upd_fileSyncInProgress (λ s, {[syncKey]} ∪ s)));;
    try_finally
      (try_catch
         (ensure_room_files roomCode;;
          node ← gets (λ st, room_node st roomCode folderPath);
          match node with
          | Some _ => mret ()
          | None =>
              upd_room_files roomCode (Obj.set folderPath (FolderN false));;
              files ← gets (λ st, room_files st roomCode);
              emit (ToChannel roomCode) (FilesUpdate files);;
              emit (ToChannel roomCode) (FolderCreated folderPath)
          end)
         (λ _, mret ()))
      (setTimeout (TClearSync syncKey)).

(** The reassignment of active files after a deletion: every member whose
    active file satisfies [gone] is moved to [newActiveFile]. *)
Definition reassign_active (roomCode newActiveFile : string)
    (gone : option string → bool) : M unit :=
  members ← room_members roomCode;
  forEach members (λ userId,
    cur ← gets (λ st, active_file st userId);
    if gone cur then
      modify (upd_userActiveFiles (Obj.set userId newActiveFile));;
      node ← gets (λ st, room_node st roomCode newActiveFile);
      emit (ToChannel userId)
        (FileContentUpdate newActiveFile (default "" (node ≫= node_content)));;
      emit (ToChannel userId) (ActiveFileChanged newActiveFile)
    else mret ()).

(** [removeFileFromRoomFiles(roomCode, fileName)] *)
Definition removeFileFromRoomFiles (roomCode fileName : string) : M unit :=
  node ← gets (λ st, room_node st roomCode fileName);
  match node with
  | None => mret ()
  | Some _ =>
      upd_room_files roomCode (Obj.delete fileName);;
      files ← gets (λ st, room_files st roomCode);
      match file_keys files with
      | newActiveFile :: _ =>
          reassign_active roomCode newActiveFile
            (λ cur, bool_decide (cur = Some fileName))
      | [] => mret ()
      end;;
      files ← gets (λ st, room_files st roomCode);
      emit (ToChannel roomCode) (FilesUpdate files);;
      emit (ToChannel roomCode) (ItemDeleted fileName "file")
  end.

(** [removeFolderFromRoomFiles(roomCode, folderPath)] *)
Definition removeFolderFromRoomFiles (roomCode folderPath : string) : M unit :=
  rf ← gets (λ st, Obj.get (roomFiles st) roomCode);
  match rf with
  | None => mret ()
  | Some files =>
      let keysToDelete := List.filter (at_or_under folderPath) (Obj.keys files) in
      forEach keysToDelete (λ key, upd_room_files roomCode (Obj.delete key));;
      files ← gets (λ st, room_files st roomCode);
      emit (ToChannel roomCode) (FilesUpdate files);;
      emit (ToChannel roomCode) (ItemDeleted folderPath "folder")
  end.

(** [handleInput(userId, input)] *)
Definition handleInput (userId input : string) : M unit :=
  has ← gets (λ st, Obj.has (terminals (tm st)) userId);
  if has : bool then effect (PtyWrite userId input)
  else emit (ToChannel userId)
         (TerminalOutput (banner_red "Error: Terminal not initialized")).

(** [handleResize(userId, cols, rows)] *)
Definition handleResize (userId : string) (cols rows : nat) : M unit :=
  has ← gets (λ st, Obj.has (terminals (tm st)) userId);
  if has : bool then effect (PtyResize userId cols rows) else mret ().

(** [executeCommand(userId, command)] *)
Definition executeCommand (userId command : string) : M unit :=
  has ← gets (λ st, Obj.has (terminals (tm st)) userId);
  if has : bool then effect (PtyWrite userId (command +:+ Js.CR))
  else emit (ToChannel userId)
         (TerminalOutput (banner_red "Error: Terminal not initialized")).

(** The [runCommands] table of [runFile]. *)
Definition runCommands (fileName ext : string) : option string :=
  let base e := Path.basename fileName e in
  if bool_decide (ext = ".js") then Some ("node " +:+ fileName)
  else if bool_decide (ext = ".py") then Some ("python " +:+ fileName)
  else if bool_decide (ext = ".java") then
    Some ("javac " +:+ fileName +:+ " && java " +:+ base ".java")
  else if bool_decide (ext = ".cpp") then
    Some ("g++ " +:+ fileName +:+ " -o " +:+ base ".cpp" +:+ " && ./" +:+ base ".cpp")
  else if bool_decide (ext = ".c") then
    Some ("gcc " +:+ fileName +:+ " -o " +:+ base ".c" +:+ " && ./" +:+ base ".c")
  else if bool_decide (ext = ".go") then Some ("go run " +:+ fileName)
  else if bool_decide (ext = ".rs") then
    Some ("rustc " +:+ fileName +:+ " && ./" +:+ base ".rs")
  else if bool_decide (ext = ".php") then Some ("php " +:+ fileName)
  else if bool_decide (ext = ".rb") then Some ("ruby " +:+ fileName)
  else if bool_decide (ext = ".sh") then Some ("bash " +:+ fileName)
  else if bool_decide (ext = ".ps1") then Some ("powershell " +:+ fileName)
  else None.

(** [runFile(userId, fileName)] *)
Definition runFile (userId fileName : string) : M unit :=
  workDir ← gets (λ st,
    match Obj.get (userRooms (tm st)) userId with
    | Some roomCode => Obj.get (sharedWorkingDirectories (tm st)) roomCode
    | None => None
    end);
  match workDir with
  | Some (String _ _) =>
      let ext := Js.toLowerCase (Path.extname fileName) in
      match runCommands fileName ext with
      | Some (String _ _ as command) => executeCommand userId command
      | _ => emit (ToChannel userId)
               (TerminalOutput (banner_red ("Unsupported file type: " +:+ ext)))
      end
  | _ => emit (ToChannel userId)
           (TerminalOutput (banner_red "Error: Working directory not found"))
  end.

(** [cleanupUser(userId)] *)
Definition cleanupUser (userId : string) : M unit :=
  has ← gets (λ st, Obj.has (terminals (tm st)) userId);
  (if has : bool then
     effect (PtyKill userId);;
     modify (upd_tm (upd_terminals (Obj.delete userId)))
   else mret ());;
  modify (upd_tm (upd_userRooms (Obj.delete userId))).

(** [cleanupRoom(roomCode)] *)
Definition cleanupRoom (roomCode : string) : M unit :=
  has ← gets (λ st, bool_decide (roomCode ∈ fileWatchers (tm st)));
  (if has : bool then
     effect (WatcherClose roomCode);;
     modify (upd_tm (upd_fileWatchers (λ s, s ∖ {[roomCode]})))
   else mret ());;
  wd ← gets (λ st, Obj.get (sharedWorkingDirectories (tm st)) roomCode);
  match wd with
  | Some (String _ _ as workDir) =>
      ex ← existsSync workDir;
      if ex : bool then modify (upd_disk (λ d, Fs.rmSync d workDir)) else mret ()
  | _ => mret ()
  end;;
  modify (upd_tm (upd_sharedWorkingDirectories (Obj.delete roomCode)));;
  users ← gets (λ st, userRooms (tm st));
  forEach users (λ entry,
    if bool_decide (entry.2 = roomCode) then cleanupUser entry.1 else mret ()).

(** [getWorkingDirectory(roomCode)] *)
Definition getWorkingDirectory (roomCode : string) : M (option string) :=
  gets (λ st, Obj.get (sharedWorkingDirectories (tm st)) roomCode).

(** ** The gateway: one handler per client event *)

(** [getDefaultContent(extension)] *)
Definition getDefaultContent (extension : string) : string :=
  let q := Js.DQ in
  let n := Js.LF in
  let template : option string :=
    if bool_decide (extension = "js") then
      Some ("// JavaScript file" +:+ n +:+ "console.log(" +:+ q +:+ "Hello, World!" +:+ q +:+ ");")
    else if bool_decide (extension = "jsx") then
      Some ("import React from " +:+ q +:+ "react" +:+ q +:+ ";" +:+ n +:+ n +:+
            "function Component() {" +:+ n +:+
            "  return <div>Hello, World!</div>;" +:+ n +:+ "}" +:+ n +:+ n +:+
            "export default Component;")
    else if bool_decide (extension = "ts") then
      Some ("// TypeScript file" +:+ n +:+ "const message: string = " +:+ q +:+
            "Hello, World!" +:+ q +:+ ";" +:+ n +:+ "console.log(message);")
    else if bool_decide (extension = "tsx") then
      Some ("import React from " +:+ q +:+ "react" +:+ q +:+ ";" +:+ n +:+ n +:+
            "interface Props {}" +:+ n +:+ n +:+
            "const Component: React.FC<Props> = () => {" +:+ n +:+
            "  return <div>Hello, World!</div>;" +:+ n +:+ "};" +:+ n +:+ n +:+
            "export default Component;")
    else if bool_decide (extension = "py") then
      Some ("# Python file" +:+ n +:+ "print(" +:+ q +:+ "Hello, World!" +:+ q +:+ ")")
    else if bool_decide (extension = "html") then
      Some ("<!DOCTYPE html>" +:+ n +:+ "<html>" +:+ n +:+ "<head>" +:+ n +:+
            "    <title>Document</title>" +:+ n +:+ "</head>" +:+ n +:+ "<body>" +:+ n +:+
            "    <h1>Hello, World!</h1>" +:+ n +:+ "</body>" +:+ n +:+ "</html>")
    else if bool_decide (extension = "css") then
      Some ("/* CSS file */" +:+ n +:+ "body {" +:+ n +:+ "    margin: 0;" +:+ n +:+
            "    padding: 0;" +:+ n +:+ "    font-family: Arial, sans-serif;" +:+ n +:+ "}")
    else if bool_decide (extension = "json") then
      Some ("{" +:+ n +:+ "  " +:+ q +:+ "name" +:+ q +:+ ": " +:+ q +:+ "example" +:+ q +:+ "," +:+ n +:+
            "  " +:+ q +:+ "version" +:+ q +:+ ": " +:+ q +:+ "1.0.0" +:+ q +:+ n +:+ "}")
    else if bool_decide (extension = "md") then
      Some ("# Markdown File" +:+ n +:+ n +:+ "Hello, World!")
    else if bool_decide (extension = "txt") then Some "Hello, World!"
    else None in
  match template with
  | Some (String _ _ as t) => t
  | _ => "// New file" +:+ n
  end.

(** [socket.join(roomCode)] *)
Definition socket_join (sid roomCode : string) : M unit :=
  modify (upd_sockets (λ ss,
    match Obj.get ss sid with
    | Some sk =>
        Obj.set sid
          {| s_roomCode := s_roomCode sk; s_username := s_username sk;
             s_joined := if Js.includes (s_joined sk) roomCode then s_joined sk
                         else s_joined sk ++ [roomCode] |} ss
    | None =>
        Obj.set sid {| s_roomCode := ""; s_username := ""; s_joined := [roomCode] |} ss
    end)).

(** [socket.roomCode = roomCode; socket.username = username] *)
Definition socket_identify (sid roomCode username : string) : M unit :=
  modify (upd_sockets (λ ss,
    match Obj.get ss sid with
    | Some sk =>
        Obj.set sid
          {| s_roomCode := roomCode; s_username := username;
             s_joined := s_joined sk |} ss
    | None =>
        Obj.set sid {| s_roomCode := roomCode; s_username := username; s_joined := [] |} ss
    end)).

(** [Object.keys(roomFiles[roomCode])...]: a [TypeError] when the room has
    no file object. *)
Definition room_files_strict (roomCode : string) : M Files :=
  λ st, match Obj.get (roomFiles st) roomCode with
        | Some files => (Done files, st, [])
        | None => (Raise (TypeError "roomFiles[roomCode] is undefined"), st, [])
        end.

(** [userActiveFiles[userId] = v], where [v] may be [undefined]. *)
Definition set_active (userId : string) (v : option string) : M unit :=
  modify (upd_userActiveFiles
    (match v with
     | Some f => Obj.set userId f
     | None => Obj.delete userId
     end)).

(** [socket.on('create-room', ...)]; [random] is the code drawn from
    [Math.random]. *)
Definition on_create_room (sid username password random : string) : M unit :=
  try_catch
    (let roomCode := random in
     let hashedPassword := bcrypt_hash password in
     taken ← gets (λ st, Obj.has (db st) roomCode);
     (if taken : bool then throw DbError
      else modify (upd_db (Obj.set roomCode hashedPassword)));;
     modify (upd_rooms (Obj.set roomCode [sid]));;
     modify (upd_roomFiles (Obj.set roomCode getDefaultFiles));;
     set_active sid (Some "main.js");;
     socket_join sid roomCode;;
     socket_identify sid roomCode username;;
     emit (ToSocket sid) (RoomCreated roomCode);;
     files ← room_files_strict roomCode;
     emit (ToSocket sid) (FilesUpdate files);;
     node ← gets (λ st, room_node st roomCode "main.js");
     emit (ToSocket sid)
       (FileContentUpdate "main.js" (default "" (node ≫= node_content)));;
     emit (ToSocket sid) (ActiveFileChanged "main.js");;
     initializeTerminal roomCode sid;;
     effect (Callback sid (ReplyRoomCreated roomCode)))
    (λ _, effect (Callback sid (ReplyFailure "Failed to create room"))).

(** [socket.on('join-room', ...)] *)
Definition on_join_room (sid username roomCode password : string) : M unit :=
  try_catch
    (room ← gets (λ st, Obj.get (db st) roomCode);
     match room with
     | None =>
         effect (Callback sid
                   (ReplyFailure "Room not found. Please check the room code."))
     | Some hash =>
         if negb (bcrypt_compare password hash) then
           effect (Callback sid
                     (ReplyFailure "Invalid password. Please try again."))
         else
           modify (upd_userSession (Obj.set sid (roomCode, username)));;
           inMemory ← gets (λ st, Obj.has (rooms st) roomCode);
           (if inMemory : bool then mret ()
            else
              modify (upd_rooms (Obj.set roomCode []));;
              modify (upd_roomFiles (Obj.set roomCode getDefaultFiles)));;
           members ← room_members roomCode;
           if Js.includes members sid then
             effect (Callback sid ReplyJoinedAlready)
           else
             modify (upd_rooms (Obj.set roomCode (members ++ [sid])));;
             socket_join sid roomCode;;
             socket_identify sid roomCode username;;
             files ← room_files_strict roomCode;
             let firstFile := head (file_keys files) in
             set_active sid firstFile;;
             initializeTerminal roomCode sid;;
             emit (ToChannelExcept roomCode sid) (UserJoined username sid);;
             files ← room_files_strict roomCode;
             effect (Callback sid
                       (ReplyJoined ("Successfully joined room " +:+ roomCode)
                          files firstFile))
     end)
    (λ _, effect (Callback sid
                    (ReplyFailure "Server error occurred while joining room."))).

(** [socket.on('get-files', ...)]: [roomFiles[roomCode] || {}] is the own
    property when there is one, else the value inherited under that name,
    else the empty object. *)
Definition on_get_files (sid roomCode : string) : M unit :=
  own ← gets (λ st, Obj.get (roomFiles st) roomCode);
  match own with
  | Some files => effect (Callback sid (ReplyFiles files))
  | None =>
      if Js.inherited roomCode then effect (Callback sid (ReplyInherited roomCode))
      else effect (Callback sid (ReplyFiles []))
  end.

(** [socket.on('get-file-content', ...)] *)
Definition on_get_file_content (sid roomCode fileName : string) : M unit :=
  fileEntry ← gets (λ st, room_node st roomCode fileName);
  let content :=
    match fileEntry with
    | Some (FileN c _ _) => c
    | _ => ""
    end in
  effect (Callback sid (ReplyContent content)).

(** [socket.on('run-file', ...)] *)
Definition on_run_file (sid roomCode fileName : string) : M unit :=
  node ← gets (λ st, room_node st roomCode fileName);
  match node with
  | Some (FileN content _ _) =>
      writeFileToWorkingDir roomCode fileName content;;
      runFile sid fileName
  | _ =>
      emit (ToChannel sid)
        (TerminalOutput (banner_red ("Error: File " +:+ fileName +:+ " not found")))
  end.

(** [socket.on('save-and-run', ...)] *)
Definition on_save_and_run (sid roomCode fileName : string) : M unit :=
  active ← gets (λ st, active_file st sid);
  let targetFileName := if Js.truthy fileName then fileName else default "" active in
  if Js.truthy targetFileName then
    node ← gets (λ st, room_node st roomCode targetFileName);
    match node with
    | Some (FileN content _ _) =>
        writeFileToWorkingDir roomCode targetFileName content;;
        runFile sid targetFileName
    | _ => mret ()
    end
  else mret ().

(** [socket.on('kill-process', ...)] *)
Definition on_kill_process (sid : string) : M unit :=
  has ← gets (λ st, Obj.has (terminals (tm st)) sid);
  if has : bool then effect (PtyWrite sid Js.ETX) else mret ().

(** [socket.on('get-working-directory', ...)] *)
Definition on_get_working_directory (sid roomCode : string) : M unit :=
  workDir ← getWorkingDirectory roomCode;
  effect (Callback sid (ReplyWorkingDirectory workDir)).

(** [socket.on('create-file', ...)] *)
Definition on_create_file (sid roomCode fileName parentFolder : string) : M unit :=
  ensure_room_files roomCode;;
  let fullPath :=
    if Js.truthy parentFolder then parentFolder +:+ "/" +:+ fileName else fileName in
  node ← gets (λ st, room_node st roomCode fullPath);
  match node with
  | Some _ => emit (ToSocket sid) (FileError "File already exists")
  | None =>
      let extension := Js.or_else (Js.pop (Js.split "." fileName)) "txt" in
      let content := getDefaultContent extension in
      upd_room_files roomCode (Obj.set fullPath (FileN content extension false));;
      writeFileToWorkingDir roomCode fullPath content;;
      files ← gets (λ st, room_files st roomCode);
      emit (ToChannel roomCode) (FilesUpdate files);;
      emit (ToChannel roomCode) (FileCreated fullPath)
  end.

(** [socket.on('create-folder', ...)] *)
Definition on_create_folder (sid roomCode folderName parentFolder : string) : M unit :=
  ensure_room_files roomCode;;
  let fullPath :=
    if Js.truthy parentFolder then parentFolder +:+ "/" +:+ folderName
    else folderName in
  node ← gets (λ st, room_node st roomCode fullPath);
  match node with
  | Some _ => emit (ToSocket sid) (FileError "Folder already exists")
  | None =>
      upd_room_files roomCode (Obj.set fullPath (FolderN false));;
      createFolderInWorkingDir roomCode fullPath;;
      files ← gets (λ st, room_files st roomCode);
      emit (ToChannel roomCode) (FilesUpdate files);;
      emit (ToChannel roomCode) (FolderCreated fullPath)
  end.

(** The disk part of [delete-item]: each item is removed from the working
    directory, errors are logged and ignored. *)
Definition delete_from_workdir (workDir : string) (items : list string) : M unit :=
  forEach items (λ item,
    let fullPath := Path.join workDir item in
    try_catch
      (ex ← existsSync fullPath;
       if ex : bool then
         isDir ← fs_read (λ d, Fs.isDirectory d fullPath) "stat";
         if isDir : bool then modify (upd_disk (λ d, Fs.rmSync d fullPath))
         else fs_write (λ d, Fs.unlinkSync d fullPath) "unlink"
       else mret ())
      (λ _, mret ())).

(** [socket.on('delete-item', ...)] *)
Definition on_delete_item (sid roomCode itemPath : string) : M unit :=
  node ← gets (λ st, room_node st roomCode itemPath);
  match node with
  | None => emit (ToSocket sid) (FileError "Item not found")
  | Some n =>
      let itemType := node_type n in
      files ← gets (λ st, room_files st roomCode);
      if is_file n && (length (file_keys files) <=? 1)%nat then
        emit (ToSocket sid) (FileError "Cannot delete the last file")
      else
        let itemsToDelete :=
          if is_folder n then List.filter (at_or_under itemPath) (Obj.keys files)
          else [itemPath] in
        workDir ← getWorkingDirectory roomCode;
        match workDir with
        | Some (String _ _ as workDir) => delete_from_workdir workDir itemsToDelete
        | _ => mret ()
        end;;
        forEach itemsToDelete (λ item, upd_room_files roomCode (Obj.delete item));;
        own ← gets (λ st, active_file st sid);
        let gone (cur : option string) : bool :=
          match cur with
          | Some f => Js.includes itemsToDelete f
          | None => false
          end in
        (if is_file n || gone own then
           files ← gets (λ st, room_files st roomCode);
           match file_keys files with
           | newActiveFile :: _ => reassign_active roomCode newActiveFile gone
           | [] => mret ()
           end
         else mret ());;
        files ← gets (λ st, room_files st roomCode);
        emit (ToChannel roomCode) (FilesUpdate files);;
        emit (ToChannel roomCode) (ItemDeleted itemPath itemType)
  end.

(** The disk part of [rename-item] and [move-item]: [true] when the
    handler goes on, [false] when it has reported the failure and
    returns. *)
Definition rename_in_workdir (sid roomCode oldPath newPath failure : string) : M bool :=
  workDir ← getWorkingDirectory roomCode;
  match workDir with
  | Some (String _ _ as workDir) =>
      let oldFullPath := Path.join workDir oldPath in
      let newFullPath := Path.join workDir newPath in
      try_catch
        (ex ← existsSync oldFullPath;
         (if ex : bool then
            let newDir := Path.dirname newFullPath in
            ex' ← existsSync newDir;
            (if ex' : bool then mret ()
             else fs_write (λ d, Fs.mkdirSync d newDir) "mkdir");;
            fs_write (λ d, Fs.renameSync d oldFullPath newFullPath) "rename"
          else mret ());;
         mret true)
        (λ _, emit (ToSocket sid) (FileError failure);; mret false)
  | _ => mret true
  end.

(** Where a key at or under [oldPath] goes when [oldPath] becomes
    [newPath]. *)
Definition rekeyed (oldPath newPath itemPath : string) : string :=
  let relativePath :=
    if bool_decide (itemPath = oldPath) then ""
    else Js.substring_from (String.length oldPath + 1) itemPath in
  if Js.truthy relativePath then newPath +:+ "/" +:+ relativePath else newPath.

(** [roomFiles[roomCode][newItemPath] = { ...roomFiles[roomCode][itemPath] }].
    The copied entry exists whenever the handlers run this (the keys come
    from [Object.keys] and nothing is deleted before the copy). *)
Definition copy_node (itemPath newItemPath : string) (files : Files) : Files :=
  match Obj.get files itemPath with
  | Some n => Obj.set newItemPath n files
  | None => files
  end.

(** The active file of every member showing [itemPath] follows it. *)
Definition follow_active (roomCode itemPath newItemPath : string) : M unit :=
  members ← room_members roomCode;
  forEach members (λ userId,
    cur ← gets (λ st, active_file st userId);
    if bool_decide (cur = Some itemPath) then
      modify (upd_userActiveFiles (Obj.set userId newItemPath));;
      emit (ToChannel userId) (ActiveFileChanged newItemPath)
    else mret ()).

(** The folder branch of [rename-item] and [move-item]. *)
Definition rekey_folder (roomCode oldPath newPath : string) : M unit :=
  files ← gets (λ st, room_files st roomCode);
  let items := Js.sort (List.filter (at_or_under oldPath) (Obj.keys files)) in
  forEach items (λ itemPath,
    let newItemPath := rekeyed oldPath newPath itemPath in
    upd_room_files roomCode (copy_node itemPath newItemPath);;
    follow_active roomCode itemPath newItemPath);;
  forEach items (λ itemPath, upd_room_files roomCode (Obj.delete itemPath)).

(** [newPath.split('.').pop() || 'txt'] *)
Definition rename_extension (newPath : string) : string :=
  Js.or_else (Js.pop (Js.split "." newPath)) "txt".

Definition with_extension (e : string) (n : FileNode) : FileNode :=
  match n with
  | FileN c _ x => FileN c e x
  | FolderN x => FolderN x
  end.

(** [socket.on('rename-item', ...)] *)
Definition on_rename_item (sid roomCode oldPath newPath : string) : M unit :=
  node ← gets (λ st, room_node st roomCode oldPath);
  match node with
  | None => emit (ToSocket sid) (FileError "Item not found")
  | Some n =>
      target ← gets (λ st, room_node st roomCode newPath);
      match target with
      | Some _ => emit (ToSocket sid) (FileError "Item with new name already exists")
      | None =>
          let itemType := node_type n in
          ok ← rename_in_workdir sid roomCode oldPath newPath
                 "Failed to rename item in working directory";
          if ok : bool then
            (if is_folder n then rekey_folder roomCode oldPath newPath
             else
               upd_room_files roomCode
                 (Obj.set newPath (with_extension (rename_extension newPath) n));;
               upd_room_files roomCode (Obj.delete oldPath);;
               follow_active roomCode oldPath newPath);;
            files ← gets (λ st, room_files st roomCode);
            emit (ToChannel roomCode) (FilesUpdate files);;
            emit (ToChannel roomCode) (ItemRenamed oldPath newPath itemType)
          else mret ()
      end
  end.

(** [socket.on('move-item', ...)] *)
Definition on_move_item (sid roomCode sourcePath targetPath itemType : string) : M unit :=
  node ← gets (λ st, room_node st roomCode sourcePath);
  match node with
  | None => emit (ToSocket sid) (FileError "Source item not found")
  | Some n =>
      if bool_decide (itemType = "folder")
         && Js.startsWith targetPath (sourcePath +:+ "/") then
        emit (ToSocket sid) (FileError "Cannot move a folder into itself")
      else
        target ← gets (λ st, room_node st roomCode targetPath);
        match target with
        | Some _ => emit (ToSocket sid) (FileError "Target location already exists")
        | None =>
            ok ← rename_in_workdir sid roomCode sourcePath targetPath
                   "Failed to move item in working directory";
            if ok : bool then
              (if bool_decide (itemType = "folder") then
                 rekey_folder roomCode sourcePath targetPath
               else
                 upd_room_files roomCode (Obj.set targetPath n);;
                 upd_room_files roomCode (Obj.delete sourcePath);;
                 follow_active roomCode sourcePath targetPath);;
              files ← gets (λ st, room_files st roomCode);
              emit (ToChannel roomCode) (FilesUpdate files);;
              emit (ToChannel roomCode) (ItemMoved sourcePath targetPath itemType)
            else mret ()
        end
  end.

(** [socket.on('toggle-folder', ...)] *)
Definition on_toggle_folder (sid roomCode folderPath : string) : M unit :=
  node ← gets (λ st, room_node st roomCode folderPath);
  match node with
  | Some (FolderN isExpanded) =>
      upd_room_files roomCode (Obj.set folderPath (FolderN (negb isExpanded)));;
      files ← gets (λ st, room_files st roomCode);
      emit (ToChannel roomCode) (FilesUpdate files);;
      emit (ToChannel roomCode) (FolderToggled folderPath (negb isExpanded))
  | _ => emit (ToSocket sid) (FileError "Folder not found")
  end.

(** [socket.on('switch-file', ...)] *)
Definition on_switch_file (sid roomCode fileName : string) : M unit :=
  node ← gets (λ st, room_node st roomCode fileName);
  match node with
  | Some (FileN content _ _) =>
      modify (upd_userActiveFiles (Obj.set sid fileName));;
      emit (ToSocket sid) (FileContentUpdate fileName content);;
      emit (ToSocket sid) (ActiveFileChanged fileName)
  | _ => emit (ToSocket sid) (FileError "File not found")
  end.

(** [setImmediate(() => terminalManager.writeFileToWorkingDir(...))] *)
Definition setImmediate (roomCode fileName content : string) : M unit :=
  modify (upd_immediates (λ l, l ++ [(roomCode, fileName, content)])).

(** [socket.on('code-change', ...)] *)
Definition on_code_change (sid roomCode code fileName : string) : M unit :=
  active ← gets (λ st, active_file st sid);
  let targetFileName := if Js.truthy fileName then fileName else default "" active in
  if Js.truthy targetFileName then
    node ← gets (λ st, room_node st roomCode targetFileName);
    match node with
    | Some (FileN _ extension isExpanded) =>
        upd_room_files roomCode
          (Obj.set targetFileName (FileN code extension isExpanded));;
        setImmediate roomCode targetFileName code;;
        emit (ToChannelExcept roomCode sid) (CodeUpdate code targetFileName sid)
    | _ => mret ()
    end
  else mret ().

(** [array.splice(array.indexOf(x), 1)] for an [x] in the array. *)
Fixpoint remove_first (x : string) (l : list string) : list string :=
  match l with
  | [] => []
  | y :: r => if decide (y = x) then r else y :: remove_first x r
  end.

(** [socket.on('disconnect', ...)]; [username] is [socket.username]. *)
Definition on_disconnect (sid username : string) : M unit :=
  modify (upd_userSession (Obj.delete sid));;
  cleanupUser sid;;
  codes ← gets (λ st, Obj.keys (rooms st));
  forEach codes (λ roomCode,
    members ← gets (λ st, default [] (Obj.get (rooms st) roomCode));
    if Js.includes members sid then
      let members' := remove_first sid members in
      modify (upd_rooms (Obj.set roomCode members'));;
      emit (ToChannelExcept roomCode sid) (UserLeft username sid);;
      if bool_decide (members' = []) then
        cleanupRoom roomCode;;
        modify (upd_rooms (Obj.delete roomCode));;
        modify (upd_roomFiles (Obj.delete roomCode))
      else mret ()
    else mret ());;
  modify (upd_userActiveFiles (Obj.delete sid)).

End Server.

(** ** The event loop *)

Inductive ClientMsg : Type :=
| CreateRoom (username password random : string)
| JoinRoom (username roomCode password : string)
| GetFiles (roomCode : string)
| GetFileContent (roomCode fileName : string)
| SwitchFile (roomCode fileName : string)
| CodeChange (roomCode code fileName : string)
| CreateFile (roomCode fileName parentFolder : string)
| CreateFolder (roomCode folderName parentFolder : string)
| DeleteItem (roomCode itemPath : string)
| RenameItem (roomCode oldPath newPath : string)
| MoveItem (roomCode sourcePath targetPath itemType : string)
| ToggleFolder (roomCode folderPath : string)
| TerminalInit (roomCode : string)
| TerminalInput (roomCode input : string)
| TerminalResize (roomCode : string) (cols rows : nat)
| ExecuteCommand (roomCode command : string)
| ClearTerminal (roomCode : string)
| KillProcess (roomCode : string)
| RunFile (roomCode fileName : string)
| SaveAndRun (roomCode fileName : string)
| GetWorkingDirectory (roomCode : string).

(** What the file watcher of a room reports, with the path relative to the
    working directory. *)
Inductive WatchEvent : Type :=
| WAdd (relativePath : string)
| WChange (relativePath : string)
| WUnlink (relativePath : string)
| WAddDir (relativePath : string)
| WUnlinkDir (relativePath : string).

Inductive Input : Type :=
| Connect (sid : string)
| FromClient (sid : string) (m : ClientMsg)
| Disconnect (sid : string)
| Watcher (roomCode : string) (e : WatchEvent)
| PtyData (roomCode userId data : string)
| PtyExit (roomCode userId : string)
| TimerFire (n : nat)
| RunImmediate
| Shell (d : Disk).

Section Loop.

Context `{Platform}.

Definition on_client (sid : string) (m : ClientMsg) : M unit :=
  match m with
  | CreateRoom username password random => on_create_room sid username password random
  | JoinRoom username roomCode password => on_join_room sid username roomCode password
  | GetFiles roomCode => on_get_files sid roomCode
  | GetFileContent roomCode fileName => on_get_file_content sid roomCode fileName
  | SwitchFile roomCode fileName => on_switch_file sid roomCode fileName
  | CodeChange roomCode code fileName => on_code_change sid roomCode code fileName
  | CreateFile roomCode fileName parentFolder =>
      on_create_file sid roomCode fileName parentFolder
  | CreateFolder roomCode folderName parentFolder =>
      on_create_folder sid roomCode folderName parentFolder
  | DeleteItem roomCode itemPath => on_delete_item sid roomCode itemPath
  | RenameItem roomCode oldPath newPath => on_rename_item sid roomCode oldPath newPath
  | MoveItem roomCode sourcePath targetPath itemType =>
      on_move_item sid roomCode sourcePath targetPath itemType
  | ToggleFolder roomCode folderPath => on_toggle_folder sid roomCode folderPath
  | TerminalInit roomCode => initializeTerminal roomCode sid
  | TerminalInput _ input => handleInput sid input
  | TerminalResize _ cols rows => handleResize sid cols rows
  | ExecuteCommand _ command => executeCommand sid command
  | ClearTerminal _ => executeCommand sid "clear"
  | KillProcess _ => on_kill_process sid
  | RunFile roomCode fileName => on_run_file sid roomCode fileName
  | SaveAndRun roomCode fileName => on_save_and_run sid roomCode fileName
  | GetWorkingDirectory roomCode => on_get_working_directory sid roomCode
  end.

(** The callbacks [setupFileWatcher] registers; a closed watcher reports
    nothing. *)
Definition on_watcher (roomCode : string) (e : WatchEvent) : M unit :=
  watching ← gets (λ st, bool_decide (roomCode ∈ fileWatchers (tm st)));
  if watching : bool then
    let workDir := Path.join Fs.tmpdir ("compiler_" +:+ roomCode) in
    match e with
    | WAdd relativePath | WChange relativePath =>
        syncFileFromTerminalToRoom roomCode relativePath
          (Path.join workDir relativePath)
    | WUnlink relativePath => removeFileFromRoomFiles roomCode relativePath
    | WAddDir relativePath =>
        if Js.truthy relativePath && negb (bool_decide (relativePath = ".")) then
          syncFolderFromTerminalToRoom roomCode relativePath
        else mret ()
    | WUnlinkDir relativePath =>
        if Js.truthy relativePath && negb (bool_decide (relativePath = ".")) then
          removeFolderFromRoomFiles roomCode relativePath
        else mret ()
    end
  else mret ().

Definition on_timer (t : Timer) : M unit :=
  match t with
  | TClearSync syncKey =>
      modify (upd_tm (upd_fileSyncInProgress (λ s, s ∖ {[syncKey]})))
  | TSyncRoomFiles roomCode => syncRoomFilesToWorkingDir roomCode
  | TRespawn roomCode userId => initializeTerminal roomCode userId
  end.

Definition dispatch (i : Input) : M unit :=
  match i with
  | Connect sid =>
      modify (upd_sockets
                (Obj.set sid {| s_roomCode := ""; s_username := ""; s_joined := [] |}))
  | FromClient sid m => on_client sid m
  | Disconnect sid =>
      username ← gets (λ st, default "" (s_username <$> Obj.get (sockets st) sid));
      modify (upd_sockets (Obj.delete sid));;
      on_disconnect sid username
  | Watcher roomCode e => on_watcher roomCode e
  | PtyData _ userId data => emit (ToChannel userId) (TerminalOutput data)
  | PtyExit roomCode userId =>
      modify (upd_tm (upd_terminals (Obj.delete userId)));;
      emit (ToChannel userId)
        (TerminalOutput
           (Js.CR +:+ Js.LF +:+ Js.ESC +:+ "[31mTerminal session ended" +:+
            Js.ESC +:+ "[0m" +:+ Js.CR +:+ Js.LF));;
      setTimeout (TRespawn roomCode userId)
  | TimerFire n =>
      pending ← gets timers;
      match pending !! n with
      | Some t => modify (upd_timers (List.app (take n pending) ∘ drop (S n)));; on_timer t
      | None => mret ()
      end
  | RunImmediate =>
      pending ← gets immediates;
      match pending with
      | (roomCode, fileName, content) :: rest =>
          modify (upd_immediates (λ _, rest));;
          writeFileToWorkingDir roomCode fileName content;;
          mret ()
      | [] => mret ()
      end
  | Shell d => modify (upd_disk (λ _, d))
  end.

(** One turn of the event loop: the callback runs to completion; an
    exception that escapes it reaches the process-level
    [uncaughtException] handler, which logs it. *)
Definition step (st : State) (i : Input) : State * list Effect :=
  match dispatch i st with
  | (Done _, st', effs) => (st', effs)
  | (Raise x, st', effs) => (st', effs ++ [Uncaught x])
  end.

(** A run of the event loop over a list of events. *)
Fixpoint run (st : State) (inputs : list Input) : State * list Effect :=
  match inputs with
  | [] => (st, [])
  | i :: r =>
      let '(st1, e1) := step st i in
      let '(st2, e2) := run st1 r in
      (st2, e1 ++ e2)
  end.

End Loop.


(** ** Vocabulary of the properties *)

(** Who receives an emission: a socket is in the channel named by its own
    id and in the channels it has joined. *)
Definition in_channel (st : State) (name sid : string) : bool :=
  match Obj.get (sockets st) sid with
  | Some sk => bool_decide (sid = name) || Js.includes (s_joined sk) name
  | None => false
  end.

Definition recipients (st : State) (t : Target) : list string :=
  match t with
  | ToSocket sid => List.filter (λ s, bool_decide (s = sid)) (Obj.keys (sockets st))
  | ToChannel name => List.filter (in_channel st name) (Obj.keys (sockets st))
  | ToChannelExcept name sid =>
      List.filter (λ s, in_channel st name s && negb (bool_decide (s = sid)))
        (Obj.keys (sockets st))
  end.

(** No socket has joined a channel named [name]: a channel named by a
    socket id is then that socket's own. *)
Definition channel_private (st : State) (name : string) : Prop :=
  ∀ sid sk, Obj.get (sockets st) sid = Some sk → name ∉ s_joined sk.

(** The user whose terminal an event concerns: the sender of a client
    message, the owner of the shell that produced output or exited, the user
    a respawn timer was set for. *)
Definition terminal_owner (st : State) (i : Input) : option string :=
  match i with
  | FromClient sid _ => Some sid
  | PtyData _ userId _ => Some userId
  | PtyExit _ userId => Some userId
  | TimerFire n =>
      match timers st !! n with
      | Some (TRespawn _ userId) => Some userId
      | _ => None
      end
  | _ => None
  end.

(** An effect that is not a [terminal-output] emission, or is one addressed
    to the private channel of [userId]. *)
Definition private_to (userId : string) (e : Effect) : Prop :=
  match e with
  | Emit t (TerminalOutput _) => t = ToChannel userId
  | _ => True
  end.

Definition not_terminal_output (e : Effect) : Prop :=
  match e with
  | Emit _ (TerminalOutput _) => False
  | _ => True
  end.

(** A computation relates every state to the state it leaves by [R] and
    records only effects that satisfy [P], whether it returns or throws. *)
Definition respects {A} (R : State → State → Prop) (P : Effect → Prop)
    (m : M A) : Prop :=
  ∀ st, R st (m st).1.2 ∧ Forall P (m st).2.

Definition any_state : State → State → Prop := λ _ _, True.
Definition any_effect : Effect → Prop := λ _, True.

(** The projection [f] of the state is left as it was. *)
Definition same {X} (f : State → X) : State → State → Prop :=
  λ st st', f st' = f st.


Definition is_file_error (e : Effect) : bool :=
  match e with
  | Emit _ (FileError _) => true
  | _ => false
  end.

Definition has_file (files : Files) : Prop := file_keys files ≠ [].

(** Every file object of the state has each key once, as a JavaScript
    object does. *)
Definition files_wf (st : State) : Prop := ∀ r, Obj.wf (room_files st r).

Definition keeps_wf : State → State → Prop :=
  λ st st', files_wf st → files_wf st'.

(** [s] has an occurrence of [c]. *)
Definition contains (c : ascii) (s : string) : bool :=
  match Js.split c s with
  | [] | [_] => false
  | _ => true
  end.

(** The leaf name of a path: what follows its last ['/']. *)
Definition spec_leaf (p : string) : string := Js.pop (Js.split "/" p).

(** The extension as the specification words it: the substring after the
    final ['.'] of the leaf name, empty when the leaf has no ['.']. *)
Definition spec_extension (p : string) : string :=
  let l := spec_leaf p in
  if contains "." l then Js.pop (Js.split "." l) else "".

(** A code-change event and the turn of the event loop that runs the
    disk write the handler deferred with [setImmediate]. *)
Definition code_change_applied (sid roomCode code fileName : string) : list Input :=
  [FromClient sid (CodeChange roomCode code fileName); RunImmediate].

(** Two file objects hold the same mapping. *)
Definition same_mapping (f g : Files) : Prop := ∀ k, Obj.get f k = Obj.get g k.

Definition copy_all (old new : string) (items : list string) (files : Files) : Files :=
  foldl (λ f item, copy_node item (rekeyed old new item) f) files items.

Definition delete_all (items : list string) (files : Files) : Files :=
  foldl (λ f item, Obj.delete item f) files items.

(** What rename-item makes of the file mapping of a room when it runs to
    its end, [n] being the node at [old]. *)
Definition rename_tree (old new : string) (n : FileNode) (files : Files) : Files :=
  if is_folder n then
    let items := Js.sort (List.filter (at_or_under old) (Obj.keys files)) in
    delete_all items (copy_all old new items files)
  else Obj.delete old (Obj.set new (with_extension (rename_extension new) n) files).

Definition not_renamed (e : Effect) : Prop :=
  match e with
  | Emit _ (ItemRenamed _ _ _) => False
  | _ => True
  end.


(** The disk after the shell of a room's user has written a file. *)
Definition shell_writes (st : State) (path content : string) : Input :=
  Shell (<[path := DFile content]> (disk st)).

Definition shell_removes (st : State) (path : string) : Input :=
  Shell (delete path (disk st)).

(** The state with one more sync token held. *)
Definition with_token (k : string) (st : State) : State :=
  upd_tm (upd_fileSyncInProgress (λ s, {[k]} ∪ s)) st.

(** A computation that does not look at the token [k]: started with [k]
    held in addition, it returns the same outcome and records the same
    effects, and it ends in the state it ends in without [k], with [k] held
    in addition. *)
Definition blind_to (k : string) {A} (m : M A) : Prop :=
  ∀ st, m (with_token k st) = ((m st).1.1, with_token k (m st).1.2, (m st).2).

(** A key made of digits only.  JavaScript enumerates the keys of an object
    that spell array indices first, in numeric order, and the other keys in
    insertion order; every key that spells an array index is made of digits
    only. *)
Definition index_like (k : string) : bool :=
  Js.truthy k &&
  forallb (λ c, (48 <=? nat_of_ascii c)%nat && (nat_of_ascii c <=? 57)%nat)
    (list_ascii_of_string k).

(** The enumeration order of an object is its insertion order, which is
    the order of the association list: no key is made of digits only. *)
Definition insertion_ordered {V} (o : list (string * V)) : bool :=
  forallb (λ k, negb (index_like k)) (Obj.keys o).

(** The PTY operations an event may cause. *)
Definition own_pty (userId : string) (e : Effect) : Prop :=
  match e with
  | PtySpawn u _ _ | PtyWrite u _ | PtyResize u _ _ => u = userId
  | PtyKill _ => False
  | _ => True
  end.

Definition no_pty (e : Effect) : Prop :=
  match e with
  | PtySpawn _ _ _ | PtyWrite _ _ | PtyResize _ _ _ | PtyKill _ => False
  | _ => True
  end.

Definition kill_only (e : Effect) : Prop :=
  match e with
  | PtySpawn _ _ _ | PtyWrite _ _ | PtyResize _ _ _ => False
  | _ => True
  end.

Definition pty_allowed (st : State) (i : Input) (e : Effect) : Prop :=
  match i with
  | FromClient sid _ => own_pty sid e
  | Disconnect _ => kill_only e
  | TimerFire n =>
      match timers st !! n with
      | Some (TRespawn _ userId) => own_pty userId e
      | _ => no_pty e
      end
  | _ => no_pty e
  end.




(** A computation keeps an invariant. *)
Definition keeps (Inv : State → Prop) : State → State → Prop :=
  λ st st', Inv st → Inv st'.

(** No user is listed twice in a room. *)
Definition members_once (st : State) : Prop :=
  ∀ r l, Obj.get (rooms st) r = Some l → NoDup l.

(** One iteration of the loop of the disconnect handler. *)
Definition leave_room `{Platform} (sid username roomCode : string) : M unit :=
  bind (gets (λ st, default [] (Obj.get (rooms st) roomCode))) (λ members,
    if Js.includes members sid then
      bind (modify (upd_rooms (Obj.set roomCode (remove_first sid members)))) (λ _,
      bind (emit (ToChannelExcept roomCode sid) (UserLeft username sid)) (λ _,
        if bool_decide (remove_first sid members = []) then
          bind (cleanupRoom roomCode) (λ _,
          bind (modify (upd_rooms (Obj.delete roomCode))) (λ _,
            modify (upd_roomFiles (Obj.delete roomCode))))
        else ret ()))
    else ret ()).

(** A computation that always returns (never throws). *)
Definition returns {A} (m : M A) : Prop := ∀ st, ∃ a, (m st).1.1 = Done a.

(** Nothing of a user is left in the tables of the server. *)
Definition gone (sid : string) (st : State) : Prop :=
  (∀ r l, Obj.get (rooms st) r = Some l → sid ∉ l) ∧
  Obj.get (userSession st) sid = None ∧
  Obj.get (userActiveFiles st) sid = None ∧
  Obj.get (terminals (tm st)) sid = None ∧
  Obj.get (userRooms (tm st)) sid = None ∧
  Obj.get (sockets st) sid = None.


(** The second half of [cleanupRoom]: the working directory and the
    terminals of the users assigned to the room. *)
Definition cleanupRoom_workdir `{Platform} (roomCode : string) : M unit :=
  bind (gets (λ st, Obj.get (sharedWorkingDirectories (tm st)) roomCode)) (λ wd,
  bind (match wd with
        | Some (String _ _ as workDir) =>
            bind (existsSync workDir) (λ ex,
              if ex : bool then modify (upd_disk (λ d, Fs.rmSync d workDir))
              else ret ())
        | _ => ret ()
        end) (λ _,
  bind (modify (upd_tm (upd_sharedWorkingDirectories (Obj.delete roomCode)))) (λ _,
  bind (gets (λ st, userRooms (tm st))) (λ users,
    forEach users (λ entry,
      if bool_decide (entry.2 = roomCode) then cleanupUser entry.1 else ret ()))))).

(** The working directory [wd] and everything below it are gone from the
    disk. *)
Definition removed_from_disk (wd : string) (d : Disk) : Prop :=
  ∀ k, k = Path.strip_trailing_slashes wd ∨
       Fs.under (Path.strip_trailing_slashes wd) k = true → d !! k = None.

(** The shell and the room assignment of a user are gone. *)
Definition no_terminal (userId : string) (st : State) : Prop :=
  Obj.get (terminals (tm st)) userId = None ∧
  Obj.get (userRooms (tm st)) userId = None.

(** Nothing of a room is left in memory. *)
Definition room_removed (roomCode : string) (st : State) : Prop :=
  Obj.get (rooms st) roomCode = None ∧
  Obj.get (roomFiles st) roomCode = None ∧
  Obj.get (sharedWorkingDirectories (tm st)) roomCode = None ∧
  roomCode ∉ fileWatchers (tm st).

(** Every sync token in the set has a pending timer that clears it. *)
Definition tokens_timed (st : State) : Prop :=
  ∀ k, k ∈ fileSyncInProgress (tm st) → TClearSync k ∈ timers st.

(** The working directory recorded for a room is the directory named after
    the room in the temporary directory. *)
Definition workdirs_in_tmp (st : State) : Prop :=
  ∀ r wd, Obj.get (sharedWorkingDirectories (tm st)) r = Some wd →
          wd = Path.join Fs.tmpdir ("compiler_" +:+ r).

(** What a file-watcher callback leaves alone: the disk, the membership
    and socket tables, the persisted rooms, and the terminal manager's
    record of shells, room assignments, working directories and
    watchers. *)
Definition beyond_watcher (st : State) :=
  (disk st, rooms st, sockets st, db st, userSession st,
   terminals (tm st), userRooms (tm st), sharedWorkingDirectories (tm st),
   fileWatchers (tm st), immediates st).

(** [parentFolder ? `${parentFolder}/${name}` : name] *)
Definition child_path (parentFolder name : string) : string :=
  if Js.truthy parentFolder then parentFolder +:+ "/" +:+ name else name.

(** What move-item makes of the file mapping of a room when it runs to its
    end, [n] being the node at [src]: the branch is chosen by the item type
    the request names. *)
Definition move_tree (src dst itemType : string) (n : FileNode) (files : Files) : Files :=
  if bool_decide (itemType = "folder") then
    let items := Js.sort (List.filter (at_or_under src) (Obj.keys files)) in
    delete_all items (copy_all src dst items files)
  else Obj.delete src (Obj.set dst n files).

(** The only effects of the loops that re-key a subtree: a user is told
    that its active file has a new path. *)
Definition active_changed_only (e : Effect) : Prop :=
  match e with
  | Emit (ToChannel _) (ActiveFileChanged _) => True
  | _ => False
  end.

(** The active files after [reassign_active]: every listed member whose
    active file is [gone] gets the new one. *)
Definition reassigned (members : list string) (newActiveFile : string)
    (gone : option string → bool) (active : list (string * string)) :
    list (string * string) :=
  foldl (λ a userId, if gone (Obj.get a userId)
                     then Obj.set userId newActiveFile a else a)
    active members.

(** The keys delete-item removes for a node [n] at [itemPath]. *)
Definition items_to_delete (n : FileNode) (itemPath : string) (files : Files) : list string :=
  if is_folder n then List.filter (at_or_under itemPath) (Obj.keys files)
  else [itemPath].

(** [itemsToDelete.includes(userActiveFiles[userId])] *)
Definition among (items : list string) (cur : option string) : bool :=
  match cur with
  | Some f => Js.includes items f
  | None => false
  end.

(** The extension the sync from the shell gives a file: what follows the
    dot of [path.extname], or [txt]. *)
Definition synced_extension (fileName : string) : string :=
  Js.or_else (Js.substring_from 1 (Path.extname fileName)) "txt".

(** The path of a file of the room's working directory, as the watcher of
    the room reports it. *)
Definition watched_path (roomCode relativePath : string) : string :=
  Path.join (Path.join Fs.tmpdir ("compiler_" +:+ roomCode)) relativePath.





(** ** Scenarios *)

Definition demo : Platform :=
  {| bcrypt_hash p := "$2b$10$" +:+ p;
     bcrypt_compare p h := bool_decide (h = "$2b$10$" +:+ p);
     pty_spawn_ok _ _ := true |}.

Definition boot : State :=
  {| tm := {| terminals := []; sharedWorkingDirectories := [];
              fileWatchers := ∅; userRooms := []; fileSyncInProgress := ∅ |};
     rooms := []; roomFiles := []; userActiveFiles := []; userSession := [];
     sockets := []; disk := ∅; db := []; timers := []; immediates := [] |}.

(** Alice creates room ABC123; Bob joins it. *)
Definition alice_alone : State :=
  (@run demo boot
     [Connect "alice"; FromClient "alice" (CreateRoom "alice" "p" "ABC123")]).1.

Definition alice_and_bob : State :=
  (@run demo alice_alone
     [Connect "bob"; FromClient "bob" (JoinRoom "bob" "ABC123" "p")]).1.


(** Alice, who has her terminal in ABC123, also joins XYZ789, a room Bob
    created and left: the room is in memory again and has no working
    directory, because Alice's terminal exists already.  She creates the
    folder a and the file y in a folder b that has no node. *)
Definition two_rooms : State :=
  (@run demo alice_alone
     [Connect "bob"; FromClient "bob" (CreateRoom "bob" "q" "XYZ789");
      Disconnect "bob";
      FromClient "alice" (JoinRoom "alice" "XYZ789" "q");
      FromClient "alice" (CreateFolder "XYZ789" "a" "");
      FromClient "alice" (CreateFile "XYZ789" "y" "b")]).1.

Definition main_js : string := "/tmp/compiler_ABC123/main.js".

(** The shell of a member writes main.js, the watcher reports it, and Bob
    edits the file in the editor before the terminal token expires. *)
Definition shell_then_editor : State :=
  (@run demo alice_and_bob
     [shell_writes alice_and_bob main_js "from the shell";
      Watcher "ABC123" (WAdd "main.js");
      FromClient "bob" (CodeChange "ABC123" "from the editor" "main.js")]).1.

Definition alice_edited : State :=
  (@run demo alice_and_bob (code_change_applied "alice" "ABC123" "x=1" "main.js")).1.



(** Bob created XYZ789 and left: the room is registered and is not in
    memory. *)
Definition bob_left : State :=
  (@run demo alice_alone
     [Connect "bob"; FromClient "bob" (CreateRoom "bob" "q" "XYZ789");
      Disconnect "bob"]).1.

(** Alice and Bob in ABC123, with a second file b.js, the folder src and
    the file src/x.js. *)
Definition two_files : State :=
  (@run demo alice_and_bob
     [FromClient "alice" (CreateFile "ABC123" "b.js" "");
      FromClient "alice" (CreateFolder "ABC123" "src" "");
      FromClient "alice" (CreateFile "ABC123" "x.js" "src")]).1.


(** The shell of a member has written main.js in the working directory of
    ABC123 and the watcher has not reported it yet. *)
Definition shell_wrote : State :=
  (@step demo alice_and_bob (shell_writes alice_and_bob main_js "from the shell")).1.


(** * Properties *)

(** ** Objects *)

Section ObjFacts.

Context {V : Type}.
Implicit Types (o : list (string * V)) (k : string) (v : V).

Lemma get_set_eq o k v : Obj.get (Obj.set k v o) k = Some v.
Proof.
  induction o as [|[k' v'] o IH]; simpl.
  - by rewrite decide_True.
  - destruct (decide (k' = k)) as [->|Hne]; simpl.
    + by rewrite decide_True.
    + by rewrite decide_False.
Qed.

Lemma get_set_ne o k k' v : k ≠ k' → Obj.get (Obj.set k v o) k' = Obj.get o k'.
Proof.
  intros Hne. induction o as [|[k0 v0] o IH]; simpl.
  - by rewrite decide_False.
  - destruct (decide (k0 = k)) as [->|Hne0]; simpl.
    + by rewrite !decide_False.
    + by rewrite IH.
Qed.

Lemma get_set o k k' v :
  Obj.get (Obj.set k v o) k' = if decide (k = k') then Some v else Obj.get o k'.
Proof.
  destruct (decide (k = k')) as [->|Hne];
    [apply get_set_eq | by apply get_set_ne].
Qed.

Lemma get_delete_eq o k : Obj.get (Obj.delete k o) k = None.
Proof.
  induction o as [|[k' v'] o IH]; [done|].
  unfold Obj.delete in *. simpl.
  destruct (decide (k' = k)) as [->|Hne].
  - by rewrite bool_decide_eq_true_2.
  - rewrite bool_decide_eq_false_2 by done. simpl. by rewrite decide_False.
Qed.

Lemma get_delete_ne o k k' : k ≠ k' → Obj.get (Obj.delete k o) k' = Obj.get o k'.
Proof.
  intros Hne. induction o as [|[k0 v0] o IH]; [done|].
  unfold Obj.delete in *. simpl.
  destruct (decide (k0 = k)) as [->|Hne0].
  - rewrite bool_decide_eq_true_2 by done. simpl. by rewrite decide_False.
  - rewrite bool_decide_eq_false_2 by done. simpl. by rewrite IH.
Qed.

Lemma get_delete o k k' :
  Obj.get (Obj.delete k o) k' = if decide (k = k') then None else Obj.get o k'.
Proof.
  destruct (decide (k = k')) as [->|Hne];
    [apply get_delete_eq | by apply get_delete_ne].
Qed.

Lemma get_Some_keys o k v : Obj.get o k = Some v → k ∈ Obj.keys o.
Proof.
  induction o as [|[k' v'] o IH]; simpl; [done|].
  destruct (decide (k' = k)) as [->|Hne]; intros Hg.
  - apply list_elem_of_here.
  - apply list_elem_of_further. auto.
Qed.

Lemma keys_get_Some o k : k ∈ Obj.keys o → is_Some (Obj.get o k).
Proof.
  induction o as [|[k' v'] o IH]; simpl.
  - by intros ?%elem_of_nil.
  - intros [->|Hin]%elem_of_cons.
    + rewrite decide_True by done. eauto.
    + destruct (decide (k' = k)); eauto.
Qed.

Lemma get_None_keys o k : Obj.get o k = None ↔ k ∉ Obj.keys o.
Proof.
  split.
  - intros Hg Hin. apply keys_get_Some in Hin as [v Hv]. congruence.
  - intros Hnin. destruct (Obj.get o k) eqn:Hg; [|done].
    by apply get_Some_keys in Hg.
Qed.

Lemma keys_delete o k :
  Obj.keys (Obj.delete k o) = List.filter (λ k', negb (bool_decide (k' = k))) (Obj.keys o).
Proof.
  induction o as [|[k' v'] o IH]; [done|].
  unfold Obj.delete, Obj.keys in *. cbn.
  destruct (bool_decide (k' = k)); cbn; [apply IH | f_equal; apply IH].
Qed.

Lemma set_set_eq o k v : Obj.set k v (Obj.set k v o) = Obj.set k v o.
Proof.
  induction o as [|[k' v'] o IH]; simpl.
  - by rewrite decide_True.
  - destruct (decide (k' = k)) as [->|Hne]; simpl.
    + by rewrite decide_True.
    + rewrite decide_False by done. by rewrite IH.
Qed.

Lemma set_get_id o k v : Obj.get o k = Some v → Obj.set k v o = o.
Proof.
  induction o as [|[k' v'] o IH]; simpl; [done|].
  destruct (decide (k' = k)) as [->|Hne].
  - by intros [= ->].
  - intros Hg. by rewrite IH.
Qed.

End ObjFacts.

(** ** Rules for computations *)

#[export] Instance any_state_preorder : PreOrder any_state.
Proof. by split. Qed.

#[export] Instance same_preorder {X} (f : State → X) : PreOrder (same f).
Proof.
  split; [by intros st|]. intros a b c Hab Hbc. unfold same in *. congruence.
Qed.

Section Rules.

Context (R : State → State → Prop) `{!PreOrder R} (P : Effect → Prop).

Lemma respects_ret {A} (a : A) : respects R P (ret a).
Proof. intros st. simpl. split; [reflexivity | constructor]. Qed.

Lemma respects_throw {A} x : respects R P (@throw A x).
Proof. intros st. simpl. split; [reflexivity | constructor]. Qed.

Lemma respects_gets {A} (f : State → A) : respects R P (gets f).
Proof. intros st. simpl. split; [reflexivity | constructor]. Qed.

Lemma respects_effect e : P e → respects R P (effect e).
Proof. intros He st. simpl. split; [reflexivity | by repeat constructor]. Qed.

Lemma respects_modify g : (∀ st, R st (g st)) → respects R P (modify g).
Proof. intros Hg st. simpl. split; [apply Hg | constructor]. Qed.

Lemma respects_bind {A B} (m : M A) (k : A → M B) :
  respects R P m → (∀ a, respects R P (k a)) → respects R P (bind m k).
Proof.
  intros Hm Hk st. unfold bind.
  destruct (Hm st) as [HR HP].
  destruct (m st) as [[[a|x] st1] e1]; simpl in *; [|done].
  destruct (Hk a st1) as [HR' HP'].
  destruct (k a st1) as [[r st2] e2]; simpl in *.
  split; [by etrans | by apply Forall_app].
Qed.

Lemma respects_try_catch {A} (body : M A) handler :
  respects R P body → (∀ x, respects R P (handler x)) →
  respects R P (try_catch body handler).
Proof.
  intros Hm Hk st. unfold try_catch.
  destruct (Hm st) as [HR HP].
  destruct (body st) as [[[a|x] st1] e1]; simpl in *; [done|].
  destruct (Hk x st1) as [HR' HP'].
  destruct (handler x st1) as [[r st2] e2]; simpl in *.
  split; [by etrans | by apply Forall_app].
Qed.

Lemma respects_try_finally {A} (body : M A) cleanup :
  respects R P body → respects R P cleanup →
  respects R P (try_finally body cleanup).
Proof.
  intros Hm Hk st. unfold try_finally.
  destruct (Hm st) as [HR HP].
  destruct (body st) as [[r st1] e1]; simpl in *.
  destruct (Hk st1) as [HR' HP'].
  destruct (cleanup st1) as [[[[]|x] st2] e2]; simpl in *;
    (split; [by etrans | by apply Forall_app]).
Qed.

Lemma respects_forEach {A} (l : list A) f :
  (∀ x, respects R P (f x)) → respects R P (forEach l f).
Proof.
  intros Hf. induction l as [|x l IH]; simpl.
  - apply respects_ret.
  - apply respects_bind; auto.
Qed.

Lemma respects_fs_read {A} (f : Disk → option A) what :
  respects R P (fs_read f what).
Proof.
  intros st. unfold fs_read.
  destruct (f (disk st)); simpl; (split; [reflexivity | constructor]).
Qed.

Lemma respects_fs_write f what :
  (∀ st d, R st (upd_disk (λ _, d) st)) → respects R P (fs_write f what).
Proof.
  intros Hd st. unfold fs_write.
  destruct (f (disk st)); simpl; (split; [auto; reflexivity | constructor]).
Qed.

Lemma respects_room_members roomCode : respects R P (room_members roomCode).
Proof.
  intros st. unfold room_members.
  destruct (Obj.get (rooms st) roomCode); simpl;
    (split; [reflexivity | constructor]).
Qed.

Lemma respects_room_files_strict roomCode :
  respects R P (room_files_strict roomCode).
Proof.
  intros st. unfold room_files_strict.
  destruct (Obj.get (roomFiles st) roomCode); simpl;
    (split; [reflexivity | constructor]).
Qed.

End Rules.

Lemma respects_weaken {A} (R R' : State → State → Prop) (P P' : Effect → Prop)
    (m : M A) :
  (∀ a b, R a b → R' a b) → (∀ e, P e → P' e) →
  respects R P m → respects R' P' m.
Proof.
  intros HR HP Hm st. destruct (Hm st) as [H1 H2].
  split; [auto | eapply Forall_impl; eauto].
Qed.

(** The rules, applied along the structure of a handler. *)
Ltac respects_leaf :=
  try done; unfold any_state, any_effect, same; intros; simpl; try done.

Ltac respects_rule :=
  lazymatch goal with
  | |- PreOrder _ => apply _
  | |- ∀ _, _ => intros ?
  | |- respects _ _ (ret _) => apply respects_ret
  | |- respects _ _ (throw _) => apply respects_throw
  | |- respects _ _ (gets _) => apply respects_gets
  | |- respects _ _ (effect _) => apply respects_effect
  | |- respects _ _ (modify _) => apply respects_modify
  | |- respects _ _ (bind _ _) => apply respects_bind
  | |- respects _ _ (try_catch _ _) => apply respects_try_catch
  | |- respects _ _ (try_finally _ _) => apply respects_try_finally
  | |- respects _ _ (forEach _ _) => apply respects_forEach
  | |- respects _ _ (fs_read _ _) => apply respects_fs_read
  | |- respects _ _ (fs_write _ _) => apply respects_fs_write
  | |- respects _ _ (room_members _) => apply respects_room_members
  | |- respects _ _ (room_files_strict _) => apply respects_room_files_strict
  | |- respects _ _ (match ?x with _ => _ end) => destruct x
  | |- respects _ _ ((match ?x with _ => _ end) _) => destruct x
  | |- respects _ _ _ => fail
  | |- _ => progress respects_leaf
  end.

Ltac respects_unfold :=
  unfold on_client, on_watcher, on_timer,
    on_create_room, on_join_room, on_get_files, on_get_file_content,
    on_run_file, on_save_and_run, on_kill_process, on_get_working_directory,
    on_create_file, on_create_folder, on_delete_item, on_rename_item,
    on_move_item, on_toggle_folder, on_switch_file, on_code_change,
    on_disconnect, delete_from_workdir, rename_in_workdir, rekey_folder,
    follow_active, reassign_active,
    initializeTerminal, setupFileWatcher, createFolderInWorkingDir,
    writeFileToWorkingDir, write_if_changed, syncRoomFilesToWorkingDir,
    syncFileFromTerminalToRoom, syncFolderFromTerminalToRoom,
    removeFileFromRoomFiles, removeFolderFromRoomFiles, handleInput,
    handleResize, executeCommand, runFile, cleanupUser, cleanupRoom,
    getWorkingDirectory, socket_join, socket_identify, set_active,
    upd_room_files, ensure_room_files, existsSync, setTimeout, setImmediate,
    emit, when, mbind, M_bind, mret, M_ret.

Ltac respects_go := repeat (respects_unfold; cbv beta zeta; respects_rule).

Ltac run_handler :=
  unfold step, dispatch, on_client, on_watcher;
  respects_unfold;
  unfold bind, ret, gets, modify, effect, throw, try_catch, try_finally.

(** ** Privacy of terminal output *)

Section Privacy.

Context `{Platform}.

Lemma on_client_private sid m :
  respects any_state (private_to sid) (on_client sid m).
Proof. destruct m; respects_go. Qed.

Lemma on_watcher_quiet roomCode e :
  respects any_state not_terminal_output (on_watcher roomCode e).
Proof. destruct e; respects_go. Qed.

Lemma initializeTerminal_private roomCode userId :
  respects any_state (private_to userId) (initializeTerminal roomCode userId).
Proof. respects_go. Qed.

Lemma syncRoomFilesToWorkingDir_quiet roomCode :
  respects any_state not_terminal_output (syncRoomFilesToWorkingDir roomCode).
Proof. respects_go. Qed.

Lemma on_disconnect_quiet sid username :
  respects any_state not_terminal_output (on_disconnect sid username).
Proof. respects_go. Qed.

Lemma writeFileToWorkingDir_quiet roomCode fileName content :
  respects any_state not_terminal_output
    (writeFileToWorkingDir roomCode fileName content).
Proof. respects_go. Qed.

Lemma quiet_private userId e : not_terminal_output e → private_to userId e.
Proof. by destruct e as [t []| | | | | | | |]. Qed.

(** Every [terminal-output] emission of a turn is addressed to the channel
    named by the id of the user the turn's event belongs to. *)
Lemma dispatch_private st i :
  Forall (λ e, match terminal_owner st i with
               | Some A => private_to A e
               | None => not_terminal_output e
               end) (dispatch i st).2.
Proof.
  destruct i as [sid|sid m|sid|roomCode e|roomCode userId data|roomCode userId
                |n| |d]; simpl terminal_owner.
  - by constructor.
  - apply on_client_private.
  - assert (respects any_state not_terminal_output (dispatch (Disconnect sid))) as Hr
      by (unfold dispatch; respects_go).
    apply Hr.
  - apply on_watcher_quiet.
  - by repeat constructor.
  - by repeat constructor.
  - unfold dispatch, mbind, M_bind, bind, gets. simpl.
    destruct (timers st !! n) as [[syncKey|roomCode|roomCode userId]|] eqn:Ht;
      simpl; [by constructor| | |by constructor].
    + match goal with
      | |- context [syncRoomFilesToWorkingDir ?r ?s] =>
          pose proof (syncRoomFilesToWorkingDir_quiet r s) as [_ Hq];
          destruct (syncRoomFilesToWorkingDir r s) as [[o s'] e']
      end.
      by destruct o.
    + match goal with
      | |- context [initializeTerminal ?r ?u ?s] =>
          pose proof (initializeTerminal_private r u s) as [_ Hq];
          destruct (initializeTerminal r u s) as [[o s'] e']
      end.
      by destruct o.
  - unfold dispatch, mbind, M_bind, bind, gets. simpl.
    destruct (immediates st) as [|[[roomCode fileName] content] rest]; simpl;
      [by constructor|].
    match goal with
    | |- context [writeFileToWorkingDir ?r ?f ?c ?s] =>
        pose proof (writeFileToWorkingDir_quiet r f c s) as [_ Hq];
        destruct (writeFileToWorkingDir r f c s) as [[o s'] e']
    end.
    destruct o; simpl; by rewrite ?app_nil_r.
  - by constructor.
Qed.

Lemma terminal_output_addressing st i st' effs t data :
  step st i = (st', effs) →
  Emit t (TerminalOutput data) ∈ effs →
  ∃ A, terminal_owner st i = Some A ∧ t = ToChannel A.
Proof.
  unfold step. intros Hstep Hin.
  pose proof (dispatch_private st i) as Hall.
  destruct (dispatch i st) as [[[[]|x] st1] e1]; simplify_eq/=.
  - rewrite Forall_forall in Hall. specialize (Hall _ Hin).
    destruct (terminal_owner st i); simpl in Hall; [eauto|done].
  - apply elem_of_app in Hin as [Hin|Hin]; [|by apply list_elem_of_singleton in Hin].
    rewrite Forall_forall in Hall. specialize (Hall _ Hin).
    destruct (terminal_owner st i); simpl in Hall; [eauto|done].
Qed.

Lemma recipients_of_private_channel st A B :
  channel_private st A → B ∈ recipients st (ToChannel A) → B = A.
Proof.
  intros Hpriv Hin. unfold recipients in Hin.
  apply list_elem_of_In, filter_In in Hin as [_ Hch].
  unfold in_channel in Hch.
  destruct (Obj.get (sockets st) B) as [sk|] eqn:Hsk; [|done].
  apply orb_prop in Hch as [Hid|Hjoined].
  - by apply bool_decide_eq_true in Hid.
  - apply bool_decide_eq_true in Hjoined. by apply Hpriv in Hsk.
Qed.

(** C2. Whatever the event, a [terminal-output] emission of the turn is
    addressed to the channel named by the id of the user the event belongs
    to (the owner of the shell for shell output and the exit banner, the
    requester for error banners, the joining user for the welcome message);
    as long as no socket has joined a channel of that name, no other user
    is among its recipients, members of the same room included. *)
Theorem terminal_output_reaches_owner_only st i st' effs t data :
  step st i = (st', effs) →
  Emit t (TerminalOutput data) ∈ effs →
  ∃ A, terminal_owner st i = Some A ∧ t = ToChannel A ∧
       ∀ B, B ≠ A → channel_private st' A → B ∉ recipients st' t.
Proof.
  intros Hstep Hin.
  destruct (terminal_output_addressing _ _ _ _ _ _ Hstep Hin) as (A & HA & ->).
  exists A. split_and!; [done..|].
  intros B Hne Hpriv HB. by apply recipients_of_private_channel in HB.
Qed.

End Privacy.

(** ** Replies and rejections of the gateway *)

Section Gateway.

Context `{Platform}.

(** C5. A join request for a room code that is not persisted, or with a
    password that does not match the stored hash, is answered through the
    reply callback with a failure naming the cause, and nothing else
    happens: the state is the one before the request (no membership,
    session or active-file entry), and no PTY is spawned. *)
Theorem join_room_failure st sid username roomCode password err :
  (Obj.get (db st) roomCode = None ∧
     err = "Room not found. Please check the room code.") ∨
  (∃ hash, Obj.get (db st) roomCode = Some hash ∧
     bcrypt_compare password hash = false ∧
     err = "Invalid password. Please try again.") →
  step st (FromClient sid (JoinRoom username roomCode password))
  = (st, [Callback sid (ReplyFailure err)]).
Proof.
  intros [[Hnone ->] | (hash & Hsome & Hcmp & ->)]; run_handler.
  - by rewrite Hnone.
  - by rewrite Hsome, Hcmp.
Qed.

(** C6. When the tree of a room has exactly one node of type file (folder
    nodes are not counted), a delete-item request for that file changes
    nothing, tree and working directory included, and its only effect is a
    file-error sent on the requesting socket. *)
Theorem delete_last_file_rejected st sid roomCode itemPath content extension isExpanded :
  room_node st roomCode itemPath = Some (FileN content extension isExpanded) →
  length (file_keys (room_files st roomCode)) = 1 →
  step st (FromClient sid (DeleteItem roomCode itemPath))
  = (st, [Emit (ToSocket sid) (FileError "Cannot delete the last file")]) ∧
  ∀ u, u ∈ recipients st (ToSocket sid) → u = sid.
Proof.
  intros Hnode Hcount. split.
  - run_handler. by rewrite Hnode, Hcount.
  - intros u Hu. unfold recipients in Hu.
    apply list_elem_of_In, filter_In in Hu as [_ Hu].
    by apply bool_decide_eq_true in Hu.
Qed.


(** What the two read requests reply: they always reply and touch
    nothing.  get-files answers with the room's file mapping when the room
    has one; when it has none, with the value inherited under the room code
    if the code is a name of [Object.prototype], and with an empty mapping
    otherwise.  get-file-content answers with the content of a file node
    and with the empty string when the room is unknown, the entry is absent
    or the entry is a folder.  The reply is the only effect (no file-error)
    and the state is unchanged. *)
Lemma read_requests_reply st sid roomCode fileName :
  step st (FromClient sid (GetFiles roomCode))
  = (st, [Callback sid
            match Obj.get (roomFiles st) roomCode with
            | Some files => ReplyFiles files
            | None => if Js.inherited roomCode then ReplyInherited roomCode
                      else ReplyFiles []
            end]) ∧
  step st (FromClient sid (GetFileContent roomCode fileName))
  = (st, [Callback sid
            (ReplyContent
               match Obj.get (roomFiles st) roomCode with
               | None => ""
               | Some fs =>
                   match Obj.get fs fileName with
                   | None | Some (FolderN _) => ""
                   | Some (FileN c _ _) => c
                   end
               end)]).
Proof.
  split.
  - run_handler. simpl.
    destruct (Obj.get (roomFiles st) roomCode); [done|].
    by destruct (Js.inherited roomCode).
  - run_handler. simpl. unfold room_node.
    destruct (Obj.get (roomFiles st) roomCode) as [fs|]; [|done].
    by destruct (Obj.get fs fileName) as [[]|].
Qed.

(** C10, as stated, fails on a slip of the code.  For every socket and
    every state in which no room has the code constructor, the start
    state among them, get-files for the room code constructor replies with
    the value every object inherits under that name, a function, where the
    claim promises an empty mapping; the state is unchanged and the reply
    is the only effect.  get-file-content, the sibling request, replies
    with the empty string there. *)
Theorem get_files_inherited_name st sid :
  Obj.get (roomFiles st) "constructor" = None →
  step st (FromClient sid (GetFiles "constructor"))
  = (st, [Callback sid (ReplyInherited "constructor")]) ∧
  step st (FromClient sid (GetFileContent "constructor" "main.js"))
  = (st, [Callback sid (ReplyContent "")]).
Proof.
  intros Hnone.
  destruct (read_requests_reply st sid "constructor" "main.js") as [Hfiles Hcontent].
  by rewrite Hfiles, Hcontent, Hnone.
Qed.

End Gateway.

(** ** The sync tokens *)

Section Tokens.

Context `{Platform}.

(** A write in either direction is dropped when a token of its own
    origin for the same room and path is active: the editor-to-disk write
    returns at once and the terminal-to-tree sync returns at once, leaving
    the whole state (tree, disk, token set) as it was and recording no
    effect. *)
Lemma same_origin_token_drops st roomCode path content filePath :
  (sync_key "editor" roomCode path ∈ fileSyncInProgress (tm st) →
     writeFileToWorkingDir roomCode path content st = (Done true, st, [])) ∧
  (sync_key "terminal" roomCode path ∈ fileSyncInProgress (tm st) →
     syncFileFromTerminalToRoom roomCode path filePath st = (Done (), st, [])).
Proof.
  split; intros Hin; run_handler; by rewrite bool_decide_eq_true_2.
Qed.

Lemma sync_key_origins roomCode path roomCode' path' :
  sync_key "terminal" roomCode path ≠ sync_key "editor" roomCode' path'.
Proof. unfold sync_key. simpl. discriminate. Qed.

(** *** Computations that do not look at a token *)

Lemma blind_ret k {A} (a : A) : blind_to k (ret a).
Proof. by intros st. Qed.

Lemma blind_throw k {A} x : blind_to k (@throw A x).
Proof. by intros st. Qed.

Lemma blind_gets k {A} (f : State → A) :
  (∀ st, f (with_token k st) = f st) → blind_to k (gets f).
Proof. intros Hf st. unfold gets. by rewrite Hf. Qed.

Lemma blind_modify k g :
  (∀ st, g (with_token k st) = with_token k (g st)) → blind_to k (modify g).
Proof. intros Hg st. unfold modify. by rewrite Hg. Qed.

Lemma blind_effect k e : blind_to k (effect e).
Proof. by intros st. Qed.

Lemma blind_bind k {A B} (m : M A) (f : A → M B) :
  blind_to k m → (∀ a, blind_to k (f a)) → blind_to k (bind m f).
Proof.
  intros Hm Hf st. unfold bind. rewrite Hm.
  destruct (m st) as [[[a|x] s1] e1]; [|done]. cbn [fst snd].
  rewrite Hf. by destruct (f a s1) as [[o s2] e2].
Qed.

Lemma blind_try_catch k {A} (body : M A) handler :
  blind_to k body → (∀ x, blind_to k (handler x)) →
  blind_to k (try_catch body handler).
Proof.
  intros Hb Hh st. unfold try_catch. rewrite Hb.
  destruct (body st) as [[[a|x] s1] e1]; [done|]. cbn [fst snd].
  rewrite Hh. by destruct (handler x s1) as [[o s2] e2].
Qed.

Lemma blind_try_finally k {A} (body : M A) cleanup :
  blind_to k body → blind_to k cleanup → blind_to k (try_finally body cleanup).
Proof.
  intros Hb Hc st. unfold try_finally. rewrite Hb.
  destruct (body st) as [[o s1] e1]. cbn [fst snd].
  rewrite Hc. by destruct (cleanup s1) as [[[[]|x] s2] e2].
Qed.

Lemma blind_fs_read k {A} (f : Disk → option A) what : blind_to k (fs_read f what).
Proof. intros st. unfold fs_read. simpl. by destruct (f (disk st)). Qed.

Lemma blind_fs_write k f what : blind_to k (fs_write f what).
Proof. intros st. unfold fs_write. simpl. by destruct (f (disk st)). Qed.

(** Holding [k] in addition commutes with taking and with releasing
    another token, and does not show when another token is tested. *)
Lemma with_token_take k key st :
  upd_tm (upd_fileSyncInProgress (λ s, {[key]} ∪ s)) (with_token k st)
  = with_token k (upd_tm (upd_fileSyncInProgress (λ s, {[key]} ∪ s)) st).
Proof.
  unfold with_token, upd_tm, upd_fileSyncInProgress. simpl. do 2 f_equal.
  apply set_eq. intros x. rewrite !elem_of_union. tauto.
Qed.

Lemma with_token_release k key st :
  k ≠ key →
  upd_tm (upd_fileSyncInProgress (λ s, s ∖ {[key]})) (with_token k st)
  = with_token k (upd_tm (upd_fileSyncInProgress (λ s, s ∖ {[key]})) st).
Proof.
  intros Hne. unfold with_token, upd_tm, upd_fileSyncInProgress. simpl. do 2 f_equal.
  apply set_eq. intros x.
  rewrite elem_of_difference, !elem_of_union, elem_of_difference, !elem_of_singleton.
  split; [tauto|]. intros [->|[? ?]]; split; auto.
Qed.

Lemma with_token_test k key st :
  k ≠ key →
  bool_decide (key ∈ fileSyncInProgress (tm (with_token k st)))
  = bool_decide (key ∈ fileSyncInProgress (tm st)).
Proof.
  intros Hne. apply bool_decide_ext. simpl.
  rewrite elem_of_union, elem_of_singleton. split; [|tauto].
  by intros [->|?].
Qed.

Ltac blind_rule :=
  lazymatch goal with
  | |- ∀ _, _ => intros ?
  | |- blind_to _ (ret _) => apply blind_ret
  | |- blind_to _ (throw _) => apply blind_throw
  | |- blind_to _ (gets _) => apply blind_gets
  | |- blind_to _ (effect _) => apply blind_effect
  | |- blind_to _ (modify _) => apply blind_modify
  | |- blind_to _ (bind _ _) => apply blind_bind
  | |- blind_to _ (try_catch _ _) => apply blind_try_catch
  | |- blind_to _ (try_finally _ _) => apply blind_try_finally
  | |- blind_to _ (fs_read _ _) => apply blind_fs_read
  | |- blind_to _ (fs_write _ _) => apply blind_fs_write
  | |- blind_to _ (match ?x with _ => _ end) => destruct x
  | |- blind_to _ ((match ?x with _ => _ end) _) => destruct x
  | |- _ = _ =>
      first [ reflexivity
            | apply with_token_take
            | apply with_token_release; assumption
            | apply with_token_test; assumption ]
  end.

Ltac blind_go :=
  repeat (unfold writeFileToWorkingDir, write_if_changed,
            syncFileFromTerminalToRoom, upd_room_files, ensure_room_files,
            existsSync, setTimeout, emit, mbind, M_bind, mret, M_ret;
          cbv beta zeta; blind_rule).

(** The editor-to-disk write does not look at any token but the editor
    token of its room and path, and the terminal-to-tree sync at none but
    the terminal token of its room and path. *)
Lemma writeFileToWorkingDir_blind k roomCode path content :
  k ≠ sync_key "editor" roomCode path →
  blind_to k (writeFileToWorkingDir roomCode path content).
Proof. intros Hne. blind_go. Qed.

Lemma syncFileFromTerminalToRoom_blind k roomCode path filePath :
  k ≠ sync_key "terminal" roomCode path →
  blind_to k (syncFileFromTerminalToRoom roomCode path filePath).
Proof. intros Hne. blind_go. Qed.

(** C1 (amended). A write in either direction is dropped when a token of
    its own origin for the same room and path is active: the editor-to-disk
    write returns at once and the terminal-to-tree sync returns at once,
    leaving the whole state (tree, disk, token set) as it was and recording
    no effect.  A token of the opposite origin does not gate the operation:
    with the terminal token of the room and path held, the editor-to-disk
    write returns what it returns without it, records the same effects and
    ends in the same state (the same disk, tree, tokens taken and timers),
    the terminal token still held; and so does the terminal-to-tree sync
    with the editor token held. *)
Theorem token_gates_own_origin_only st roomCode path content filePath :
  let editor := sync_key "editor" roomCode path in
  let terminal := sync_key "terminal" roomCode path in
  (editor ∈ fileSyncInProgress (tm st) →
     writeFileToWorkingDir roomCode path content st = (Done true, st, [])) ∧
  (terminal ∈ fileSyncInProgress (tm st) →
     syncFileFromTerminalToRoom roomCode path filePath st = (Done (), st, [])) ∧
  blind_to terminal (writeFileToWorkingDir roomCode path content) ∧
  blind_to editor (syncFileFromTerminalToRoom roomCode path filePath).
Proof.
  intros editor terminal.
  destruct (same_origin_token_drops st roomCode path content filePath) as [He Ht].
  split_and!; [done|done| |].
  - apply writeFileToWorkingDir_blind, sync_key_origins.
  - apply syncFileFromTerminalToRoom_blind. intros Heq.
    by apply (sync_key_origins roomCode path roomCode path).
Qed.

End Tokens.

(** ** Running a computation step by step *)

Lemma bind_gets {A B} (f : State → A) (k : A → M B) st :
  bind (gets f) k st = k (f st) st.
Proof. unfold bind, gets. by destruct (k (f st) st) as [[r st2] e2]. Qed.

Lemma bind_ret {A B} (a : A) (k : A → M B) st : bind (ret a) k st = k a st.
Proof. unfold bind, ret. by destruct (k a st) as [[r st2] e2]. Qed.

Lemma bind_modify {B} g (k : () → M B) st : bind (modify g) k st = k () (g st).
Proof. unfold bind, modify. by destruct (k () (g st)) as [[r st2] e2]. Qed.

Lemma bind_effect {B} e (k : () → M B) st :
  bind (effect e) k st = (let '(r, st2, e2) := k () st in (r, st2, e :: e2)).
Proof. done. Qed.

Lemma bind_Done {A B} (m : M A) (k : A → M B) st a st1 e1 :
  m st = (Done a, st1, e1) →
  bind m k st = (let '(r, st2, e2) := k a st1 in (r, st2, e1 ++ e2)).
Proof. intros Hm. unfold bind. by rewrite Hm. Qed.

Lemma bind_Raise {A B} (m : M A) (k : A → M B) st x st1 e1 :
  m st = (Raise x, st1, e1) → bind m k st = (Raise x, st1, e1).
Proof. intros Hm. unfold bind. by rewrite Hm. Qed.

Lemma bind_assoc {A B C} (m : M A) (k : A → M B) (k' : B → M C) st :
  bind (bind m k) k' st = bind m (λ a, bind (k a) k') st.
Proof.
  unfold bind. destruct (m st) as [[[a|x] st1] e1]; [|done].
  destruct (k a st1) as [[[b|x] st2] e2]; [|done].
  destruct (k' b st2) as [[r st3] e3]. by rewrite app_assoc.
Qed.

Lemma step_state `{Platform} st i : (step st i).1 = (dispatch i st).1.2.
Proof. unfold step. by destruct (dispatch i st) as [[[[]|x] st1] e1]. Qed.

Lemma upd_disk_id st : upd_disk (λ _, disk st) st = st.
Proof. by destruct st. Qed.


(** ** Phases of the tree handlers *)

Section Phases.

Context `{Platform}.

(** The disk part of delete-item always completes, silently, and touches
    the disk only. *)
Lemma delete_from_workdir_spec workDir items st :
  ∃ d, delete_from_workdir workDir items st = (Done (), upd_disk (λ _, d) st, []).
Proof.
  unfold delete_from_workdir. revert st.
  induction items as [|item items IH]; intros st; simpl.
  - exists (disk st). by rewrite upd_disk_id.
  - assert (∃ d, try_catch
              (ex ← existsSync (Path.join workDir item);
               if ex : bool then
                 isDir ← fs_read (λ d, Fs.isDirectory d (Path.join workDir item)) "stat";
                 if isDir : bool
                 then modify (upd_disk (λ d, Fs.rmSync d (Path.join workDir item)))
                 else fs_write (λ d, Fs.unlinkSync d (Path.join workDir item)) "unlink"
               else mret ())
              (λ _, mret ()) st = (Done (), upd_disk (λ _, d) st, [])) as [d Hd].
    { unfold try_catch, existsSync, mbind, M_bind, bind, gets, fs_read, fs_write,
        modify, mret, M_ret, ret. simpl.
      destruct (Fs.existsSync (disk st) _); simpl;
        [|exists (disk st); by rewrite upd_disk_id].
      destruct (Fs.isDirectory (disk st) _) as [[]|]; simpl;
        [by eexists| |exists (disk st); by rewrite upd_disk_id].
      destruct (Fs.unlinkSync (disk st) _); simpl;
        [by eexists|exists (disk st); by rewrite upd_disk_id]. }
    destruct (IH (upd_disk (λ _, d) st)) as [d' Hd'].
    exists d'. erewrite bind_Done by exact Hd. by rewrite Hd'.
Qed.

(** The disk part of rename-item and move-item touches the disk only; it
    either lets the handler go on, silently, or reports the failure on the
    requesting socket and makes it return. *)
Lemma rename_in_workdir_spec sid roomCode oldPath newPath failure st :
  ∃ d, rename_in_workdir sid roomCode oldPath newPath failure st
       = (Done true, upd_disk (λ _, d) st, []) ∨
       rename_in_workdir sid roomCode oldPath newPath failure st
       = (Done false, upd_disk (λ _, d) st, [Emit (ToSocket sid) (FileError failure)]).
Proof.
  unfold rename_in_workdir, getWorkingDirectory, existsSync, emit.
  unfold try_catch, mbind, M_bind, bind, gets, fs_write, effect, mret, M_ret, ret.
  simpl.
  destruct (Obj.get (sharedWorkingDirectories (tm st)) roomCode) as [[|c w]|];
    simpl; [exists (disk st); left; by rewrite upd_disk_id| |
            exists (disk st); left; by rewrite upd_disk_id].
  destruct (Fs.existsSync (disk st) _); simpl;
    [|exists (disk st); left; by rewrite upd_disk_id].
  destruct (Fs.existsSync (disk st) _); simpl.
  - destruct (Fs.renameSync (disk st) _ _) as [d|]; simpl.
    + exists d. by left.
    + exists (disk st). right. by rewrite upd_disk_id.
  - destruct (Fs.mkdirSync (disk st) _) as [d|]; simpl.
    + destruct (Fs.renameSync d _ _) as [d'|]; simpl.
      * exists d'. by left.
      * exists d. by right.
    + exists (disk st). right. by rewrite upd_disk_id.
Qed.

End Phases.

Lemma bind_Done_state {A B} (m : M A) (k : A → M B) st a st1 e1 :
  m st = (Done a, st1, e1) → (bind m k st).1.2 = (k a st1).1.2.
Proof.
  intros Hm. unfold bind. rewrite Hm. by destruct (k a st1) as [[r st2] e2].
Qed.

Lemma same_final {X A} (f : State → X) (m : M A) st :
  respects (same f) any_effect m → f (m st).1.2 = f st.
Proof. intros Hm. apply Hm. Qed.

Lemma file_keys_delete (files : Files) p :
  file_keys (Obj.delete p files)
  = List.filter (λ k, negb (bool_decide (k = p))) (file_keys files).
Proof.
  unfold file_keys. rewrite keys_delete.
  induction (Obj.keys files) as [|k l IH]; [done|]. simpl.
  destruct (bool_decide (k = p)) eqn:Hk; simpl.
  - rewrite IH. destruct (Obj.get files k) as [[]|]; simpl; by rewrite ?Hk.
  - apply bool_decide_eq_false in Hk.
    rewrite get_delete_ne by done.
    destruct (Obj.get files k) as [[]|]; simpl;
      rewrite ?bool_decide_eq_false_2 by done; simpl; by rewrite IH.
Qed.

Lemma length_filter_ne (l : list string) p :
  NoDup l →
  length l ≤ S (length (List.filter (λ k, negb (bool_decide (k = p))) l)).
Proof.
  induction 1 as [|k l Hk Hnd IH]; simpl; [lia|].
  destruct (decide (k = p)) as [->|Hne].
  - rewrite bool_decide_eq_true_2 by done. simpl.
    assert (List.filter (λ k, negb (bool_decide (k = p))) l = l) as ->; [|lia].
    clear IH Hnd. induction l as [|y l IH]; [done|]. simpl.
    apply not_elem_of_cons in Hk as [Hy Hl].
    rewrite bool_decide_eq_false_2 by done. simpl. by rewrite IH.
  - rewrite bool_decide_eq_false_2 by done. simpl. lia.
Qed.

Lemma file_keys_NoDup (files : Files) : Obj.wf files → NoDup (file_keys files).
Proof.
  unfold Obj.wf, file_keys. generalize (Obj.keys files) as l.
  induction 1 as [|k l Hk Hnd IH]; simpl; [constructor|].
  destruct (match Obj.get files k with Some n => is_file n | None => false end);
    [|done].
  constructor; [|done].
  intros Hin. apply Hk. apply list_elem_of_In, filter_In in Hin as [Hin _].
  by apply list_elem_of_In.
Qed.

Lemma file_key_of_node (files : Files) p c e x :
  Obj.get files p = Some (FileN c e x) → p ∈ file_keys files.
Proof.
  intros Hg. unfold file_keys. apply list_elem_of_In, filter_In. split.
  - apply list_elem_of_In. by eapply get_Some_keys.
  - by rewrite Hg.
Qed.

(** ** Unique keys are an invariant *)

#[export] Instance keeps_wf_preorder : PreOrder keeps_wf.
Proof.
  split; [intros st Hst; exact Hst|].
  intros a b c Hab Hbc Ha. apply Hbc, Hab, Ha.
Qed.

Section WfObj.
Context {V : Type}.
Implicit Types (o : list (string * V)) (k : string) (v : V).

Lemma keys_set o k v :
  Obj.keys (Obj.set k v o)
  = if Obj.has o k then Obj.keys o else Obj.keys o ++ [k].
Proof.
  unfold Obj.has. induction o as [|[k' v'] o IH]; simpl; [done|].
  destruct (decide (k' = k)) as [->|Hne]; simpl; [done|].
  unfold Obj.keys in *. cbn. rewrite IH. by destruct (Obj.get o k).
Qed.

Lemma wf_set o k v : Obj.wf o → Obj.wf (Obj.set k v o).
Proof.
  unfold Obj.wf. rewrite keys_set. unfold Obj.has.
  destruct (Obj.get o k) eqn:Hg; [done|].
  intros Hnd. apply NoDup_app. split_and!; [done| |apply NoDup_singleton].
  intros x Hx ->%list_elem_of_singleton. by apply get_None_keys in Hg.
Qed.

Lemma wf_delete o k : Obj.wf o → Obj.wf (Obj.delete k o).
Proof.
  unfold Obj.wf. rewrite keys_delete. generalize (Obj.keys o) as l.
  induction 1 as [|x l Hx Hnd IH]; simpl; [constructor|].
  destruct (bool_decide (x = k)); simpl; [done|].
  constructor; [|done]. intros Hin. apply Hx.
  apply list_elem_of_In, filter_In in Hin as [Hin _]. by apply list_elem_of_In.
Qed.

End WfObj.

Lemma wf_copy_node (files : Files) i j : Obj.wf files → Obj.wf (copy_node i j files).
Proof. unfold copy_node. destruct (Obj.get files i); [apply wf_set|done]. Qed.

Lemma wf_nil : Obj.wf ([] : Files).
Proof. constructor. Qed.

Lemma wf_default : Obj.wf getDefaultFiles.
Proof. unfold Obj.wf. simpl. apply NoDup_singleton. Qed.

Lemma keeps_wf_upd_room_files st r0 (f : Files → Files) :
  (∀ files, Obj.wf files → Obj.wf (f files)) →
  keeps_wf st
    (upd_roomFiles (λ rf, match Obj.get rf r0 with
                          | Some files => Obj.set r0 (f files) rf
                          | None => rf
                          end) st).
Proof.
  intros Hf Hwf r. specialize (Hwf r). unfold room_files in *. simpl.
  destruct (Obj.get (roomFiles st) r0) as [files|] eqn:H0; [|done].
  rewrite get_set. destruct (decide (r0 = r)) as [->|]; [|done].
  rewrite H0 in Hwf. simpl in *. auto.
Qed.

Lemma keeps_wf_set_room st r0 (fs : Files) :
  Obj.wf fs → keeps_wf st (upd_roomFiles (Obj.set r0 fs) st).
Proof.
  intros Hfs Hwf r. specialize (Hwf r). unfold room_files in *. simpl.
  rewrite get_set. by destruct (decide (r0 = r)).
Qed.

Lemma keeps_wf_ensure st r0 :
  keeps_wf st
    (upd_roomFiles (λ rf, match Obj.get rf r0 with
                          | Some _ => rf
                          | None => Obj.set r0 [] rf
                          end) st).
Proof.
  intros Hwf r. specialize (Hwf r). unfold room_files in *. simpl.
  destruct (Obj.get (roomFiles st) r0) eqn:H0; [done|].
  rewrite get_set. destruct (decide (r0 = r)); [apply wf_nil|done].
Qed.

Lemma keeps_wf_delete_room st r0 :
  keeps_wf st (upd_roomFiles (Obj.delete r0) st).
Proof.
  intros Hwf r. specialize (Hwf r). unfold room_files in *. simpl.
  rewrite get_delete. destruct (decide (r0 = r)); [apply wf_nil|done].
Qed.

Lemma keeps_wf_other st st' : roomFiles st' = roomFiles st → keeps_wf st st'.
Proof. intros Heq Hwf r. unfold room_files. rewrite Heq. apply Hwf. Qed.

Ltac wf_leaf :=
  first
    [ apply keeps_wf_other; reflexivity
    | apply keeps_wf_ensure
    | apply keeps_wf_delete_room
    | apply keeps_wf_set_room; first [apply wf_default | apply wf_nil]
    | apply keeps_wf_upd_room_files; intros ? ?;
      first [by apply wf_set | by apply wf_delete | by apply wf_copy_node] ].

Section Invariant.

Context `{Platform}.

Lemma dispatch_keeps_wf i : respects keeps_wf any_effect (dispatch i).
Proof.
  destruct i as [sid|sid m|sid|roomCode e|roomCode userId data|roomCode userId
                |n| |d]; unfold dispatch.
  - respects_go. wf_leaf.
  - destruct m; respects_go; wf_leaf.
  - respects_go; wf_leaf.
  - destruct e; respects_go; wf_leaf.
  - respects_go.
  - respects_go; wf_leaf.
  - respects_go; wf_leaf.
  - respects_go; wf_leaf.
  - respects_go; wf_leaf.
Qed.

(** No event makes a key occur twice in a file object. *)
Lemma step_keeps_wf st i : files_wf st → files_wf (step st i).1.
Proof. rewrite step_state. apply dispatch_keeps_wf. Qed.

Lemma run_keeps_wf inputs st : files_wf st → files_wf (run st inputs).1.
Proof.
  revert st. induction inputs as [|i r IH]; intros st Hwf; [done|].
  simpl. pose proof (step_keeps_wf st i Hwf) as H1.
  destruct (step st i) as [st1 e1]. specialize (IH st1 H1).
  by destruct (run st1 r).
Qed.

(** Every state the server reaches from its start has well-formed file
    objects. *)
Lemma reachable_files_wf inputs : files_wf (run boot inputs).1.
Proof. apply run_keeps_wf. intros r. constructor. Qed.

End Invariant.

(** ** The last file of a room *)

Section LastFile.

Context `{Platform}.

(** C3 (amended). A delete-item request for a node of type file never
    removes the last file of the room: in a room whose mapping has unique
    keys, at least one file node is left after the request. *)
Theorem delete_file_keeps_a_file st sid roomCode itemPath c e x :
  Obj.wf (room_files st roomCode) →
  room_node st roomCode itemPath = Some (FileN c e x) →
  has_file (room_files (step st (FromClient sid (DeleteItem roomCode itemPath))).1 roomCode).
Proof.
  intros Hwf Hnode.
  assert (itemPath ∈ file_keys (room_files st roomCode)) as Hin.
  { unfold room_node, room_files in *.
    destruct (Obj.get (roomFiles st) roomCode); [|done].
    by eapply file_key_of_node. }
  rewrite step_state. unfold dispatch, on_client, on_delete_item.
  unfold mbind, M_bind, mret, M_ret; cbv beta.
  rewrite bind_gets, Hnode. cbv beta iota zeta.
  rewrite bind_gets. cbv beta. cbn [is_file is_folder andb].
  destruct (length (file_keys (room_files st roomCode)) <=? 1)%nat eqn:Hlen.
  { simpl. intros Hnil. rewrite Hnil in Hin. by apply elem_of_nil in Hin. }
  unfold getWorkingDirectory. rewrite bind_gets. cbv beta.
  assert (∃ d, (match Obj.get (sharedWorkingDirectories (tm st)) roomCode with
                | Some (String _ _ as workDir0) =>
                    delete_from_workdir workDir0 [itemPath]
                | _ => ret ()
                end) st = (Done (), upd_disk (λ _, d) st, [])) as [d Hd].
  { destruct (Obj.get _ roomCode) as [[|]|];
      [exists (disk st); by rewrite upd_disk_id
      |apply delete_from_workdir_spec
      |exists (disk st); by rewrite upd_disk_id]. }
  erewrite bind_Done_state by exact Hd.
  simpl forEach. rewrite bind_assoc. unfold upd_room_files.
  rewrite bind_modify, bind_ret.
  rewrite same_final by respects_go.
  unfold room_node, room_files in *. simpl.
  destruct (Obj.get (roomFiles st) roomCode) as [files|] eqn:Hfiles; [|done].
  rewrite get_set_eq. simpl in *.
  unfold has_file. rewrite file_keys_delete.
  pose proof (length_filter_ne _ itemPath (file_keys_NoDup _ Hwf)) as Hle.
  apply Nat.leb_gt in Hlen.
  intros Hnil. rewrite Hnil in Hle. simpl in Hle. lia.
Qed.
End LastFile.

(** ** What rename-item does to the tree *)

Section Rename.

Context `{Platform}.

Lemma follow_active_spec roomCode itemPath newItemPath :
  respects (same roomFiles) not_renamed (follow_active roomCode itemPath newItemPath).
Proof. respects_go. Qed.

Lemma copy_loop_spec roomCode old new items : ∀ st files o st' effs,
  Obj.get (roomFiles st) roomCode = Some files →
  forEach items (λ itemPath,
    bind (upd_room_files roomCode
            (copy_node itemPath (rekeyed old new itemPath)))
         (λ _, follow_active roomCode itemPath (rekeyed old new itemPath))) st
  = (o, st', effs) →
  Forall not_renamed effs ∧
  (o = Done () →
   Obj.get (roomFiles st') roomCode = Some (copy_all old new items files)).
Proof.
  induction items as [|item items IH]; intros st files o st' effs Hfiles Hrun;
    simpl in Hrun.
  - unfold ret in Hrun. simplify_eq. split; [constructor|done].
  - rewrite bind_assoc in Hrun. unfold upd_room_files at 1 in Hrun.
    rewrite bind_modify in Hrun.
    remember (upd_roomFiles _ st) as st1 eqn:Est1.
    assert (Obj.get (roomFiles st1) roomCode
            = Some (copy_node item (rekeyed old new item) files)) as Hst1.
    { subst st1. simpl. rewrite Hfiles. by rewrite get_set_eq. }
    clear Est1.
    destruct (follow_active_spec roomCode item (rekeyed old new item) st1)
      as [Hsame Heff].
    unfold same in Hsame. unfold bind in Hrun.
    destruct (follow_active roomCode item (rekeyed old new item) st1)
      as [[[[]|x] st2] e2]; simpl in Hsame, Heff.
    + rewrite <- Hsame in Hst1.
      match type of Hrun with
      | context [forEach items ?f st2] =>
          destruct (forEach items f st2) as [[o3 st3] e3] eqn:Hrest
      end.
      apply (IH _ _ _ _ _ Hst1) in Hrest as [IH1 IH2].
      simplify_eq. split; [by apply Forall_app|done].
    + simplify_eq. split; [done|by intros [=]].
Qed.

Lemma delete_loop_spec roomCode items : ∀ st files,
  Obj.get (roomFiles st) roomCode = Some files →
  ∃ st', forEach items (λ item, upd_room_files roomCode (Obj.delete item)) st
         = (Done (), st', []) ∧
         Obj.get (roomFiles st') roomCode = Some (delete_all items files).
Proof.
  induction items as [|item items IH]; intros st files Hfiles; simpl.
  - by exists st.
  - unfold upd_room_files at 1. rewrite bind_modify.
    remember (upd_roomFiles _ st) as st1 eqn:Est1.
    assert (Obj.get (roomFiles st1) roomCode = Some (Obj.delete item files)) as Hst1.
    { subst st1. simpl. rewrite Hfiles. by rewrite get_set_eq. }
    clear Est1.
    destruct (IH st1 _ Hst1) as (st' & Hrun & Hget). eauto.
Qed.

Lemma rename_branch_spec roomCode old new n st files o st' effs :
  Obj.get (roomFiles st) roomCode = Some files →
  (if is_folder n then rekey_folder roomCode old new
   else
     bind (upd_room_files roomCode
             (Obj.set new (with_extension (rename_extension new) n)))
       (λ _, bind (upd_room_files roomCode (Obj.delete old))
               (λ _, follow_active roomCode old new))) st
  = (o, st', effs) →
  Forall not_renamed effs ∧
  (o = Done () →
   Obj.get (roomFiles st') roomCode = Some (rename_tree old new n files)).
Proof.
  intros Hfiles Hrun. unfold rename_tree. destruct (is_folder n).
  - unfold rekey_folder, mbind, M_bind in Hrun. cbv beta in Hrun.
    rewrite bind_gets in Hrun. cbv zeta in Hrun.
    assert (room_files st roomCode = files) as Hrf.
    { unfold room_files. by rewrite Hfiles. }
    rewrite Hrf in Hrun. cbv zeta.
    set (items := Js.sort _) in *.
    unfold bind in Hrun.
    match type of Hrun with
    | context [forEach items ?f st] =>
        destruct (forEach items f st) as [[o1 st1] e1] eqn:Hcopy
    end.
    apply (copy_loop_spec _ _ _ _ _ _ _ _ _ Hfiles) in Hcopy as [Hc1 Hc2].
    destruct o1 as [[]|x]; [|simplify_eq; split; [done|by intros [=]]].
    specialize (Hc2 eq_refl).
    destruct (delete_loop_spec roomCode items st1 _ Hc2) as (st2 & Hdel & Hd).
    rewrite Hdel in Hrun. simplify_eq. by rewrite app_nil_r.
  - unfold upd_room_files in Hrun. rewrite !bind_modify in Hrun.
    remember (upd_roomFiles _ (upd_roomFiles _ st)) as st2 eqn:Est2.
    assert (Obj.get (roomFiles st2) roomCode
            = Some (Obj.delete old
                      (Obj.set new (with_extension (rename_extension new) n) files)))
      as Hst2.
    { subst st2. simpl. rewrite Hfiles. by rewrite !get_set_eq. }
    clear Est2.
    destruct (follow_active_spec roomCode old new st2) as [Hsame Heff].
    unfold same in Hsame. rewrite Hrun in Hsame, Heff. simpl in *.
    split; [done|]. intros _. by rewrite Hsame.
Qed.

Lemma on_rename_item_spec st sid roomCode old new st' effs ty :
  step st (FromClient sid (RenameItem roomCode old new)) = (st', effs) →
  Emit (ToChannel roomCode) (ItemRenamed old new ty) ∈ effs →
  ∃ n, room_node st roomCode old = Some n ∧
       room_node st roomCode new = None ∧
       room_files st' roomCode = rename_tree old new n (room_files st roomCode).
Proof.
  unfold step, dispatch, on_client, on_rename_item, mbind, M_bind, mret, M_ret.
  cbv beta. rewrite bind_gets.
  destruct (room_node st roomCode old) as [n|] eqn:Hold; cbv beta iota;
    [|intros [= <- <-] Hin; by apply list_elem_of_singleton in Hin].
  rewrite bind_gets.
  destruct (room_node st roomCode new) as [n'|] eqn:Hnew; cbv beta iota;
    [intros [= <- <-] Hin; by apply list_elem_of_singleton in Hin|].
  cbv zeta.
  destruct (rename_in_workdir_spec sid roomCode old new
              "Failed to rename item in working directory" st) as [d [Hd|Hd]];
    erewrite bind_Done by exact Hd; cbv beta iota;
    [|simpl; intros [= <- <-] Hin; by apply list_elem_of_singleton in Hin].
  assert (∃ files, Obj.get (roomFiles (upd_disk (λ _, d) st)) roomCode = Some files
                   ∧ room_files st roomCode = files) as (files & Hfiles & Hrf).
  { unfold room_node, room_files in *. simpl.
    destruct (Obj.get (roomFiles st) roomCode); [eauto|done]. }
  unfold bind at 1.
  match goal with
  | |- context [(if is_folder n then ?a else ?b) ?s] =>
      destruct ((if is_folder n then a else b) s) as [[o1 st1] e1] eqn:Hbranch
  end.
  apply (rename_branch_spec _ _ _ _ _ _ _ _ _ Hfiles) in Hbranch as [Hb1 Hb2].
  destruct o1 as [[]|x].
  - specialize (Hb2 eq_refl). rewrite bind_gets. simpl.
    intros [= <- <-] Hin. exists n. split_and!; [done..|].
    unfold room_files at 1. by rewrite Hb2, Hrf.
  - simpl. intros [= <- <-] Hin. exfalso.
    apply elem_of_app in Hin as [Hin|Hin].
    + rewrite Forall_forall in Hb1. by apply Hb1 in Hin.
    + by apply list_elem_of_singleton in Hin.
Qed.

End Rename.

(** ** Strings *)

Lemma app_cons c s t : String c s +:+ t = String c (s +:+ t).
Proof. reflexivity. Qed.

Lemma app_empty_l t : "" +:+ t = t.
Proof. reflexivity. Qed.

Lemma split_nonempty c s : Js.split c s ≠ [].
Proof.
  destruct s as [|a t]; simpl; [done|].
  destruct (decide (a = c)); [done|]. by destruct (Js.split c t).
Qed.

Lemma split_single c t h : Js.split c t = [h] → h = t.
Proof.
  revert h. induction t as [|a t IH]; intros h; simpl.
  - by intros [= <-].
  - destruct (decide (a = c)).
    + intros [= <- Hs]. by apply split_nonempty in Hs.
    + destruct (Js.split c t) as [|h' r'] eqn:Hs; [by apply split_nonempty in Hs|].
      intros [= <- ->]. by rewrite (IH h').
Qed.

Lemma contains_cons c a t :
  contains c (String a t) = bool_decide (a = c) || contains c t.
Proof.
  unfold contains. simpl. destruct (decide (a = c)) as [->|Hne].
  - rewrite bool_decide_eq_true_2 by done. simpl.
    pose proof (split_nonempty c t). by destruct (Js.split c t).
  - rewrite bool_decide_eq_false_2 by done. simpl.
    pose proof (split_nonempty c t). by destruct (Js.split c t) as [|h [|]].
Qed.

Lemma pop_cons x (l : list string) : l ≠ [] → Js.pop (x :: l) = Js.pop l.
Proof. by destruct l. Qed.

Lemma pop_split_cons c a t :
  Js.pop (Js.split c (String a t))
  = if decide (a = c) then Js.pop (Js.split c t)
    else if contains c t then Js.pop (Js.split c t) else String a t.
Proof.
  simpl. destruct (decide (a = c)) as [->|Hne].
  - apply pop_cons, split_nonempty.
  - unfold contains. destruct (Js.split c t) as [|h [|h' r]] eqn:Hs.
    + by apply split_nonempty in Hs.
    + apply split_single in Hs as ->. done.
    + done.
Qed.

Lemma leaf_extension_of_path p :
  contains "." (spec_leaf p) = true →
  contains "." p = true ∧
  Js.pop (Js.split "." p) = Js.pop (Js.split "." (spec_leaf p)).
Proof.
  unfold spec_leaf. induction p as [|a t IH]; [done|].
  rewrite (pop_split_cons "/"), contains_cons, (pop_split_cons ".").
  destruct (decide (a = "/"%char)) as [->|Hslash].
  - intros Hc. destruct (IH Hc) as [Hct Hpop]. rewrite Hct.
    rewrite decide_False by done. by rewrite orb_true_r.
  - destruct (contains "/" t) eqn:Hst.
    + intros Hc. destruct (IH Hc) as [Hct Hpop]. rewrite Hct, orb_true_r.
      by destruct (decide (a = "."%char)).
    + intros Hc. split; [by rewrite <- contains_cons|].
      by rewrite <- (pop_split_cons ".").
Qed.

Lemma prefix_split p s :
  String.prefix p s = true → s = p +:+ Js.substring_from (String.length p) s.
Proof.
  revert s. induction p as [|a p IH]; intros s; [intros _; by destruct s|].
  destruct s as [|b s]; [done|]. simpl.
  destruct (ascii_dec a b) as [->|]; [|done].
  intros Hp. rewrite app_cons. f_equal. by apply IH.
Qed.

Lemma prefix_app p r : String.prefix p (p +:+ r) = true.
Proof.
  induction p as [|a p IH]; [by destruct r|].
  rewrite app_cons. simpl. by destruct (ascii_dec a a).
Qed.

Lemma substring_from_app p r : Js.substring_from (String.length p) (p +:+ r) = r.
Proof. induction p as [|a p IH]; [done|]. by rewrite app_cons. Qed.

Lemma length_app_slash a : String.length (a +:+ "/") = String.length a + 1.
Proof. induction a as [|c a IH]; [done|]. rewrite app_cons. simpl. by rewrite IH. Qed.

Lemma app_assoc_str a b c : (a +:+ b) +:+ c = a +:+ (b +:+ c).
Proof. induction a as [|x a IH]; [done|]. rewrite !app_cons. by rewrite IH. Qed.

Lemma app_ne_self b s : s ≠ "" → b +:+ s ≠ b.
Proof.
  intros Hs. induction b as [|c b IH]; [done|].
  rewrite app_cons. by intros [= ?].
Qed.

Lemma under_decompose a i :
  Js.startsWith i (a +:+ "/") = true →
  i = a +:+ "/" +:+ Js.substring_from (String.length a + 1) i.
Proof.
  intros Hp. apply prefix_split in Hp.
  rewrite length_app_slash, app_assoc_str in Hp. done.
Qed.

Lemma rekeyed_self old new : rekeyed old new old = new.
Proof. unfold rekeyed. by rewrite bool_decide_eq_true_2. Qed.

Lemma rekeyed_under old new rel :
  rel ≠ "" → rekeyed old new (old +:+ "/" +:+ rel) = new +:+ "/" +:+ rel.
Proof.
  intros Hrel. unfold rekeyed.
  rewrite bool_decide_eq_false_2.
  - rewrite <- length_app_slash, <- app_assoc_str, substring_from_app.
    by destruct rel.
  - apply app_ne_self. done.
Qed.

Lemma at_or_under_cases a i :
  at_or_under a i = true →
  i = a ∨ ∃ rel, i = a +:+ "/" +:+ rel.
Proof.
  unfold at_or_under. intros [Hi|Hi]%orb_prop.
  - left. by apply bool_decide_eq_true in Hi.
  - right. apply under_decompose in Hi. eauto.
Qed.

Lemma at_or_under_rekeyed a b i :
  at_or_under a i = true → at_or_under b (rekeyed a b i) = true.
Proof.
  intros [->|[rel ->]]%at_or_under_cases.
  - rewrite rekeyed_self. unfold at_or_under. by rewrite bool_decide_eq_true_2.
  - destruct (decide (rel = "")) as [->|Hrel].
    + unfold rekeyed. destruct (bool_decide _);
        [unfold at_or_under; by rewrite bool_decide_eq_true_2|].
      rewrite <- length_app_slash, <- app_assoc_str, substring_from_app. simpl.
      unfold at_or_under. by rewrite bool_decide_eq_true_2.
    + rewrite rekeyed_under by done. unfold at_or_under, Js.startsWith.
      rewrite <- app_assoc_str, prefix_app. apply orb_true_r.
Qed.

Lemma rekeyed_back a b i :
  at_or_under a i = true → i ≠ a +:+ "/" → rekeyed b a (rekeyed a b i) = i.
Proof.
  intros [->|[rel ->]]%at_or_under_cases Hne.
  - by rewrite !rekeyed_self.
  - assert (rel ≠ "") as Hrel by (by intros ->).
    by rewrite !rekeyed_under.
Qed.

(** ** Re-keying a mapping *)

Lemma get_copy_node (files : Files) i j k :
  Obj.get (copy_node i j files) k
  = if decide (j = k) then
      match Obj.get files i with Some n => Some n | None => Obj.get files k end
    else Obj.get files k.
Proof.
  unfold copy_node. destruct (Obj.get files i) as [n|] eqn:Hi.
  - by rewrite get_set.
  - by destruct (decide (j = k)).
Qed.

Lemma get_copy_all_other old new items : ∀ (files : Files) k,
  (∀ i, i ∈ items → rekeyed old new i ≠ k) →
  Obj.get (copy_all old new items files) k = Obj.get files k.
Proof.
  unfold copy_all. induction items as [|j items IH]; intros files k Hk; [done|].
  simpl. rewrite IH by (intros i Hi; apply Hk; by right).
  rewrite get_copy_node, decide_False; [done|]. apply Hk. by left.
Qed.

Lemma get_copy_all_target old new items : ∀ (files : Files) i,
  (∀ j j', j ∈ items → j' ∈ items → rekeyed old new j ≠ j') →
  (∀ j j', j ∈ items → j' ∈ items →
     rekeyed old new j = rekeyed old new j' → j = j') →
  i ∈ items → is_Some (Obj.get files i) →
  Obj.get (copy_all old new items files) (rekeyed old new i) = Obj.get files i.
Proof.
  unfold copy_all. induction items as [|j items IH];
    intros files i Hfresh Hinj Hi Hsome; [by apply elem_of_nil in Hi|].
  simpl.
  assert (∀ s, s ∈ j :: items →
            Obj.get (copy_node j (rekeyed old new j) files) s = Obj.get files s)
    as Hsrc.
  { intros s Hs. rewrite get_copy_node, decide_False; [done|].
    apply Hfresh; [by left|done]. }
  destruct (decide (i ∈ items)) as [Hin|Hnin].
  - rewrite IH; [by apply Hsrc| | |done|].
    + intros a b Ha Hb. apply Hfresh; by right.
    + intros a b Ha Hb. apply Hinj; by right.
    + rewrite Hsrc by done. done.
  - apply elem_of_cons in Hi as [->|Hi]; [|done].
    fold (copy_all old new items (copy_node j (rekeyed old new j) files)).
    rewrite get_copy_all_other.
    + rewrite get_copy_node, decide_True by done.
      destruct Hsome as [n ->]. done.
    + intros a Ha Heq. apply Hnin.
      rewrite <- (Hinj a j); [done|by right|by left|done].
Qed.

Lemma get_delete_all items : ∀ (files : Files) k,
  Obj.get (delete_all items files) k
  = if bool_decide (k ∈ items) then None else Obj.get files k.
Proof.
  unfold delete_all. induction items as [|j items IH]; intros files k; [done|].
  simpl. rewrite IH. destruct (decide (k ∈ items)) as [Hin|Hnin].
  - rewrite !bool_decide_eq_true_2; [done| by right |done].
  - rewrite (bool_decide_eq_false_2 (k ∈ items)) by done.
    rewrite get_delete. destruct (decide (j = k)) as [->|Hne].
    + rewrite bool_decide_eq_true_2; [done|by left].
    + rewrite bool_decide_eq_false_2; [done|].
      intros [->|?]%elem_of_cons; done.
Qed.

Lemma elem_of_sorted_items (files : Files) path k :
  k ∈ Js.sort (List.filter (at_or_under path) (Obj.keys files))
  ↔ at_or_under path k = true ∧ is_Some (Obj.get files k).
Proof.
  unfold Js.sort. rewrite merge_sort_Permutation.
  rewrite list_elem_of_In, filter_In, <- list_elem_of_In.
  split.
  - intros [Hk Hu]. split; [done|]. by apply keys_get_Some.
  - intros [Hu [n Hn]]. split; [|done]. by eapply get_Some_keys.
Qed.

Lemma room_node_files st roomCode path :
  room_node st roomCode path = Obj.get (room_files st roomCode) path.
Proof.
  unfold room_node, room_files. by destruct (Obj.get (roomFiles st) roomCode).
Qed.

Lemma rekey_facts (files : Files) a b :
  let items := Js.sort (List.filter (at_or_under a) (Obj.keys files)) in
  let f1 := delete_all items (copy_all a b items files) in
  (∀ j j', j ∈ items → j' ∈ items → rekeyed a b j ≠ j') →
  (∀ j j', j ∈ items → j' ∈ items → rekeyed a b j = rekeyed a b j' → j = j') →
  (∀ i, i ∈ items → Obj.get f1 (rekeyed a b i) = Obj.get files i) ∧
  (∀ i, i ∈ items → Obj.get f1 i = None) ∧
  (∀ k, k ∉ items → (∀ i, i ∈ items → rekeyed a b i ≠ k) →
        Obj.get f1 k = Obj.get files k).
Proof.
  intros items f1 Hfresh Hinj. subst f1. split_and!.
  - intros i Hi. rewrite get_delete_all, bool_decide_eq_false_2.
    + apply get_copy_all_target; [done..|].
      by apply elem_of_sorted_items in Hi as [_ ?].
    + intros Hin. by apply (Hfresh i (rekeyed a b i)).
  - intros i Hi. by rewrite get_delete_all, bool_decide_eq_true_2.
  - intros k Hk Hne. rewrite get_delete_all, bool_decide_eq_false_2 by done.
    by apply get_copy_all_other.
Qed.

(** Renaming a folder to a free name with nothing beneath it, and back. *)
Lemma rename_folder_round_trip (files : Files) a b x :
  Obj.get files a = Some (FolderN x) →
  (∀ k, is_Some (Obj.get files k) → at_or_under b k = false) →
  Obj.get files (a +:+ "/") = None →
  Obj.get (rename_tree a b (FolderN x) files) b = Some (FolderN x) ∧
  same_mapping
    (rename_tree b a (FolderN x) (rename_tree a b (FolderN x) files)) files.
Proof.
  intros Ha Hfree Hslash. unfold rename_tree. simpl. cbv zeta.
  set (items := Js.sort (List.filter (at_or_under a) (Obj.keys files))).
  set (f1 := delete_all items (copy_all a b items files)).
  set (items2 := Js.sort (List.filter (at_or_under b) (Obj.keys f1))).
  assert (∀ i, i ∈ items ↔ at_or_under a i = true ∧ is_Some (Obj.get files i))
    as Hitems by (intros i; apply elem_of_sorted_items).
  assert (∀ i, i ∈ items → rekeyed b a (rekeyed a b i) = i) as Hback.
  { intros i [Hu Hs]%Hitems. apply rekeyed_back; [done|].
    intros ->. rewrite Hslash in Hs. by destruct Hs. }
  assert (∀ j j', j ∈ items → j' ∈ items → rekeyed a b j ≠ j') as Hfresh.
  { intros j j' [Hu _]%Hitems [_ Hs']%Hitems Heq.
    apply Hfree in Hs'. rewrite <- Heq, at_or_under_rekeyed in Hs'; done. }
  assert (∀ j j', j ∈ items → j' ∈ items →
            rekeyed a b j = rekeyed a b j' → j = j') as Hinj.
  { intros j j' Hj Hj' Heq. rewrite <- (Hback j), <- (Hback j') by done.
    by rewrite Heq. }
  destruct (rekey_facts files a b Hfresh Hinj) as (F1 & F2 & F3).
  fold items in F1, F2, F3. fold f1 in F1, F2, F3.
  assert (∀ k, k ∈ items2 ↔ ∃ i, i ∈ items ∧ k = rekeyed a b i) as Hitems2.
  { intros k. unfold items2. rewrite elem_of_sorted_items. split.
    - intros [Hu Hs].
      destruct (decide (k ∈ rekeyed a b <$> items)) as [Hin|Hnin].
      { apply list_elem_of_fmap in Hin as (i & -> & Hi). eauto. }
      rewrite F3 in Hs.
      + apply Hfree in Hs. congruence.
      + intros [_ Hs']%Hitems. apply Hfree in Hs'. congruence.
      + intros i Hi <-. apply Hnin. by apply list_elem_of_fmap_2.
    - intros (i & Hi & ->). split.
      + apply at_or_under_rekeyed. by apply Hitems in Hi as [? _].
      + rewrite F1 by done. by apply Hitems in Hi as [_ ?]. }
  assert (a ∈ items) as Hain.
  { apply Hitems. split; [|by eauto].
    unfold at_or_under. by rewrite bool_decide_eq_true_2. }
  split.
  { rewrite <- (rekeyed_self a b). by rewrite F1. }
  assert (∀ j j', j ∈ items2 → j' ∈ items2 → rekeyed b a j ≠ j') as Hfresh2.
  { intros j j' (i & Hi & ->)%Hitems2 (i' & Hi' & ->)%Hitems2.
    rewrite Hback by done. intros Heq. by apply (Hfresh i' i). }
  assert (∀ j j', j ∈ items2 → j' ∈ items2 →
            rekeyed b a j = rekeyed b a j' → j = j') as Hinj2.
  { intros j j' (i & Hi & ->)%Hitems2 (i' & Hi' & ->)%Hitems2.
    rewrite !Hback by done. by intros ->. }
  destruct (rekey_facts f1 b a Hfresh2 Hinj2) as (G1 & G2 & G3).
  fold items2 in G1, G2, G3.
  intros k. destruct (decide (k ∈ items)) as [Hk|Hk].
  - rewrite <- (Hback k) at 1 by done.
    rewrite G1 by (apply Hitems2; eauto). by apply F1.
  - destruct (decide (k ∈ items2)) as [Hk2|Hk2].
    + rewrite G2 by done. apply Hitems2 in Hk2 as (i & Hi & ->).
      destruct (Obj.get files (rekeyed a b i)) eqn:Hg; [|done].
      assert (at_or_under b (rekeyed a b i) = false) as Hf by (apply Hfree; eauto).
      rewrite at_or_under_rekeyed in Hf; [done|]. by apply Hitems in Hi as [? _].
    + rewrite G3; [|done|].
      * apply F3; [done|]. intros i Hi <-. apply Hk2, Hitems2. eauto.
      * intros j (i & Hi & ->)%Hitems2. rewrite Hback by done. by intros ->.
Qed.

Lemma rename_file_round_trip (files : Files) a b c e x :
  Obj.get files a = Some (FileN c e x) →
  Obj.get files b = None →
  let f1 := rename_tree a b (FileN c e x) files in
  Obj.get f1 b = Some (FileN c (rename_extension b) x) ∧
  same_mapping
    (rename_tree b a (FileN c (rename_extension b) x) f1)
    (Obj.set a (FileN c (rename_extension a) x) files).
Proof.
  intros Ha Hb. assert (a ≠ b) as Hne by (intros ->; congruence).
  unfold rename_tree. simpl. split.
  - by rewrite get_delete_ne, get_set_eq.
  - intros k. rewrite get_delete, !get_set, get_delete, get_set.
    destruct (decide (b = k)) as [<-|Hbk].
    + by destruct (decide (a = b)).
    + destruct (decide (a = k)) as [<-|Hak]; [done|].
      by destruct (decide (b = k)).
Qed.

Section RenameClaims.

Context `{Platform}.

(** After a rename-item of a file node that ran to its end (it announced
    the rename to the room), the node is stored under the new path with
    its content and the extension [rename_extension] derives. *)
Lemma rename_file_node st sid roomCode oldPath newPath st' effs ty c e x :
  step st (FromClient sid (RenameItem roomCode oldPath newPath)) = (st', effs) →
  Emit (ToChannel roomCode) (ItemRenamed oldPath newPath ty) ∈ effs →
  room_node st roomCode oldPath = Some (FileN c e x) →
  room_node st' roomCode newPath = Some (FileN c (rename_extension newPath) x).
Proof.
  intros Hstep Hin Hold.
  destruct (on_rename_item_spec _ _ _ _ _ _ _ _ Hstep Hin) as (n & Hn & Hnew & Hfiles).
  rewrite Hold in Hn. injection Hn as <-.
  rewrite room_node_files in Hold, Hnew.
  rewrite room_node_files, Hfiles.
  by destruct (rename_file_round_trip _ _ _ _ _ _ Hold Hnew) as [Hb _].
Qed.

(** C8 (amended). After a rename-item of a file node that ran to its end,
    to a path whose leaf name contains a ['.'], the extension stored with
    the node is the substring after the final ['.'] of the leaf name, or
    [txt] when the leaf name ends with that dot; dots in the folder
    components of such a path do not affect it. *)
Theorem rename_file_extension st sid roomCode oldPath newPath st' effs ty c e x :
  step st (FromClient sid (RenameItem roomCode oldPath newPath)) = (st', effs) →
  Emit (ToChannel roomCode) (ItemRenamed oldPath newPath ty) ∈ effs →
  room_node st roomCode oldPath = Some (FileN c e x) →
  contains "." (spec_leaf newPath) = true →
  room_node st' roomCode newPath
  = Some (FileN c (Js.or_else (spec_extension newPath) "txt") x).
Proof.
  intros Hstep Hin Hold Hdot.
  rewrite (rename_file_node _ _ _ _ _ _ _ _ _ _ _ Hstep Hin Hold).
  unfold rename_extension, spec_extension. rewrite Hdot.
  by destruct (leaf_extension_of_path _ Hdot) as [_ ->].
Qed.

(** C9 (amended). In a room whose tree has a node at [a], no node at [b]
    and, when the node at [a] is a folder, no node under [b/] and no node
    keyed [a/], a rename of [a] to [b] followed by a rename of [b] to [a],
    both run to their end, give back the node mapping: every path maps to
    what it mapped to before, except that the extension of a file at [a]
    is the one re-derived from [a]. *)
Theorem rename_round_trip st sid sid' roomCode a b n st1 e1 st2 e2 ty1 ty2 :
  step st (FromClient sid (RenameItem roomCode a b)) = (st1, e1) →
  step st1 (FromClient sid' (RenameItem roomCode b a)) = (st2, e2) →
  Emit (ToChannel roomCode) (ItemRenamed a b ty1) ∈ e1 →
  Emit (ToChannel roomCode) (ItemRenamed b a ty2) ∈ e2 →
  room_node st roomCode a = Some n →
  (is_folder n = true →
     (∀ k, is_Some (room_node st roomCode k) → at_or_under b k = false) ∧
     room_node st roomCode (a +:+ "/") = None) →
  ∀ k, room_node st2 roomCode k
       = if decide (k = a) then Some (with_extension (rename_extension a) n)
         else room_node st roomCode k.
Proof.
  intros Hstep1 Hstep2 Hin1 Hin2 Ha Hfolder k.
  destruct (on_rename_item_spec _ _ _ _ _ _ _ _ Hstep1 Hin1)
    as (n0 & Hn0 & Hb & Hf1).
  destruct (on_rename_item_spec _ _ _ _ _ _ _ _ Hstep2 Hin2)
    as (n1 & Hn1 & Ha1 & Hf2).
  rewrite Ha in Hn0. injection Hn0 as <-.
  rewrite !room_node_files in *. rewrite Hf2, Hf1. rewrite Hf1 in Hn1.
  destruct n as [c e x|x].
  - destruct (rename_file_round_trip _ _ _ _ _ _ Ha Hb) as [Hb1 Hsame].
    simpl in Hb1. rewrite Hb1 in Hn1. injection Hn1 as <-.
    rewrite Hsame, get_set. simpl. by destruct (decide (a = k)), (decide (k = a)).
  - destruct (Hfolder eq_refl) as [Hfree Hslash].
    assert (∀ k, is_Some (Obj.get (room_files st roomCode) k) →
               at_or_under b k = false) as Hfree'.
    { intros k' Hk'. apply Hfree. by rewrite room_node_files. }
    destruct (rename_folder_round_trip _ _ _ _ Ha Hfree' Hslash) as [Hb1 Hsame].
    rewrite Hb1 in Hn1. injection Hn1 as <-.
    rewrite Hsame. simpl. destruct (decide (k = a)) as [->|]; [done|done].
Qed.

End RenameClaims.

(** ** Code changes and the disk *)

Section CodeChange.

Context `{Platform}.





Lemma code_change_step st sid roomCode code fileName :
  let target := if Js.truthy fileName then fileName
                else default "" (active_file st sid) in
  step st (FromClient sid (CodeChange roomCode code fileName))
  = match (if Js.truthy target then room_node st roomCode target else None) with
    | Some (FileN _ e x) =>
        (upd_immediates (λ l, l ++ [(roomCode, target, code)])
           (upd_roomFiles (λ rf,
              match Obj.get rf roomCode with
              | Some files => Obj.set roomCode (Obj.set target (FileN code e x) files) rf
              | None => rf
              end) st),
         [Emit (ToChannelExcept roomCode sid) (CodeUpdate code target sid)])
    | _ => (st, [])
    end.
Proof.
  intros target. run_handler. simpl. fold target.
  destruct (Js.truthy target); [|done].
  by destruct (room_node st roomCode target) as [[]|].
Qed.





(** The content diff: when the file on disk already holds the content,
    the write is elided and the disk is not touched. *)
Lemma identical_write_elided workDir fileName content st :
  Fs.existsSync (disk st) (Path.dirname (Path.join workDir fileName)) = true →
  Fs.readFileSync (disk st) (Path.join workDir fileName) = Some content →
  write_if_changed workDir fileName content st = (Done true, st, []).
Proof.
  intros Hdir Hread.
  assert (Fs.existsSync (disk st) (Path.join workDir fileName) = true) as Hex.
  { unfold Fs.existsSync, Fs.readFileSync in *.
    by destruct (Fs.lookup (disk st) (Path.join workDir fileName)). }
  unfold write_if_changed, existsSync, try_catch, fs_read.
  unfold mbind, M_bind, mret, M_ret, bind, gets, ret. simpl.
  rewrite Hdir. simpl. rewrite Hex, Hread. simpl.
  by rewrite bool_decide_eq_true_2.
Qed.

End CodeChange.

(** ** PTY operations belong to the user of the event *)

Lemma no_pty_own userId e : no_pty e → own_pty userId e.
Proof. by destruct e. Qed.

Lemma no_pty_kill_only e : no_pty e → kill_only e.
Proof. by destruct e. Qed.

Section Pty.
Context `{Platform}.

Lemma on_client_own_pty sid m : respects any_state (own_pty sid) (on_client sid m).
Proof. destruct m; respects_go. Qed.

Lemma on_watcher_no_pty roomCode e : respects any_state no_pty (on_watcher roomCode e).
Proof. destruct e; respects_go. Qed.

Lemma on_timer_pty t :
  respects any_state
    (match t with TRespawn _ userId => own_pty userId | _ => no_pty end)
    (on_timer t).
Proof. destruct t; respects_go. Qed.

Lemma dispatch_pty st i : Forall (pty_allowed st i) (dispatch i st).2.
Proof.
  destruct i as [sid|sid m|sid|roomCode e|roomCode userId data|roomCode userId
                |n| |d]; unfold pty_allowed.
  - by constructor.
  - apply on_client_own_pty.
  - assert (respects any_state kill_only (dispatch (Disconnect sid))) as Hr
      by (unfold dispatch; respects_go).
    apply Hr.
  - apply on_watcher_no_pty.
  - by repeat constructor.
  - assert (respects any_state no_pty (dispatch (PtyExit roomCode userId))) as Hr
      by (unfold dispatch; respects_go).
    apply Hr.
  - unfold dispatch, mbind, M_bind. cbv beta. rewrite bind_gets.
    destruct (timers st !! n) as [t|] eqn:Ht; [|by constructor].
    rewrite bind_modify.
    match goal with |- context [on_timer t ?s] =>
      destruct (on_timer_pty t s) as [_ Hq] end.
    by destruct t.
  - assert (respects any_state no_pty (dispatch RunImmediate)) as Hr.
    { unfold dispatch. respects_go. }
    apply Hr.
  - by constructor.
Qed.

(** Whatever the event, the shells the server spawns, types into or resizes
    during its turn belong to the user of the event (the sender of a client
    message, the user a respawn timer was set for); a shell is killed only
    in the turn of a disconnect. *)
Theorem pty_effects_belong_to_event st i e :
  e ∈ (step st i).2 → pty_allowed st i e.
Proof.
  unfold step. pose proof (dispatch_pty st i) as Hall.
  destruct (dispatch i st) as [[[[]|x] st1] e1]; simpl in *; intros Hin.
  - rewrite Forall_forall in Hall. auto.
  - apply elem_of_app in Hin as [Hin|Hin].
    + rewrite Forall_forall in Hall. auto.
    + apply list_elem_of_singleton in Hin as ->.
      unfold pty_allowed. destruct i; try done.
      by destruct (timers st !! n) as [[]|].
Qed.

End Pty.

(** ** A file-error is the whole outcome of its request *)

Lemma upd_roomFiles_id f st : f (roomFiles st) = roomFiles st → upd_roomFiles f st = st.
Proof. destruct st. unfold upd_roomFiles. simpl. by intros ->. Qed.




Section Rejections.
Context `{Platform}.




End Rejections.

(** ** Members are listed once; computations that return *)

#[export] Instance keeps_preorder Inv : PreOrder (keeps Inv).
Proof.
  split; [intros st Hst; exact Hst|].
  intros a b c Hab Hbc Ha. apply Hbc, Hab, Ha.
Qed.

Lemma Forall_any_effect l : Forall any_effect l.
Proof. by apply Forall_forall. Qed.

Lemma keeps_final {A} Inv (m : M A) st :
  respects (keeps Inv) any_effect m → Inv st → Inv (m st).1.2.
Proof. intros Hm. apply Hm. Qed.

Lemma keeps_same {X} (f : State → X) Inv :
  (∀ st st', f st' = f st → Inv st → Inv st') →
  ∀ {A} (m : M A), respects (same f) any_effect m → respects (keeps Inv) any_effect m.
Proof.
  intros Hf A m Hm. eapply respects_weaken; [|done|exact Hm].
  intros a b Hab Ha. by apply (Hf a b).
Qed.

Lemma try_catch_effect_state {A} (body : M A) (h : Exn → M A) st :
  (∀ x s, (h x s).1.2 = s) →
  (try_catch body h st).1.2 = (body st).1.2.
Proof.
  intros Hh. unfold try_catch.
  destruct (body st) as [[[a|x] s1] e1]; [done|].
  specialize (Hh x s1). by destruct (h x s1) as [[r s2] e2].
Qed.

Lemma bind_room_members {B} roomCode (k : list string → M B) st l :
  Obj.get (rooms st) roomCode = Some l →
  bind (room_members roomCode) k st = k l st.
Proof.
  intros Hl. unfold bind, room_members. rewrite Hl.
  by destruct (k l st) as [[r s2] e2].
Qed.

Lemma members_once_same st st' : rooms st' = rooms st → members_once st → members_once st'.
Proof. intros Heq Hinv r l. rewrite Heq. apply Hinv. Qed.

Lemma members_once_set st r l :
  NoDup l → members_once st → members_once (upd_rooms (Obj.set r l) st).
Proof.
  intros Hl Hinv r' l'. simpl. rewrite get_set.
  destruct (decide (r = r')); [by intros [= <-]|apply Hinv].
Qed.

Lemma members_once_delete st r :
  members_once st → members_once (upd_rooms (Obj.delete r) st).
Proof.
  intros Hinv r' l'. simpl. rewrite get_delete.
  destruct (decide (r = r')); [done|apply Hinv].
Qed.

Lemma remove_first_subseteq x l : remove_first x l ⊆ l.
Proof.
  induction l as [|y l IH]; [done|]. simpl.
  destruct (decide (y = x)); [set_solver|].
  intros z [->|Hz]%elem_of_cons; [by left|right; auto].
Qed.

Lemma remove_first_NoDup x l : NoDup l → NoDup (remove_first x l) ∧ x ∉ remove_first x l.
Proof.
  induction 1 as [|y l Hy Hnd [IH1 IH2]]; simpl.
  { split; [constructor|]. apply not_elem_of_nil. }
  destruct (decide (y = x)) as [->|Hne]; [done|]. split.
  - constructor; [|done]. intros Hin. by apply remove_first_subseteq in Hin.
  - intros [?|?]%elem_of_cons; done.
Qed.

Ltac members_leaf :=
  unfold keeps;
  first
    [ apply members_once_same; reflexivity
    | apply members_once_delete
    | apply members_once_set; [apply NoDup_singleton || apply NoDup_nil_2] ].

Section Members.
Context `{Platform}.

Lemma initializeTerminal_rooms roomCode userId :
  respects (same rooms) any_effect (initializeTerminal roomCode userId).
Proof. respects_go. Qed.

Lemma join_tail {B} sid roomCode (other : M B) (K : list string → M B) s l :
  members_once s → Obj.get (rooms s) roomCode = Some l →
  (∀ members, respects (same rooms) any_effect (K members)) →
  (∀ s, (other s).1.2 = s) →
  members_once
    (bind (room_members roomCode) (λ members,
       if Js.includes members sid then other
       else bind (modify (upd_rooms (Obj.set roomCode (members ++ [sid]))))
              (λ _, K members)) s).1.2.
Proof.
  intros Hs Hl HK Hother. rewrite (bind_room_members _ _ _ _ Hl).
  destruct (Js.includes l sid) eqn:Hinc; [by rewrite Hother|].
  rewrite bind_modify. apply keeps_final.
  - apply (keeps_same rooms); [intros ???; by apply members_once_same|]. apply HK.
  - apply members_once_set; [|done].
    apply NoDup_app. split_and!; [by eapply Hs| |apply NoDup_singleton].
    intros x Hx ->%list_elem_of_singleton.
    unfold Js.includes in Hinc. by apply bool_decide_eq_false in Hinc.
Qed.

Lemma on_join_room_members_once sid username roomCode password st :
  members_once st → members_once (on_join_room sid username roomCode password st).1.2.
Proof.
  intros Hinv. unfold on_join_room.
  rewrite try_catch_effect_state by done.
  unfold mbind, M_bind, mret, M_ret. cbv beta.
  rewrite bind_gets.
  destruct (Obj.get (db st) roomCode) as [hash|]; [|done].
  destruct (negb (bcrypt_compare password hash)); [done|].
  rewrite bind_modify, bind_gets.
  set (s1 := upd_userSession _ st).
  assert (members_once s1) as Hs1 by (by apply (members_once_same st)).
  unfold Obj.has.
  destruct (Obj.get (rooms s1) roomCode) as [l|] eqn:Hl.
  - rewrite bind_ret. eapply join_tail; [done|exact Hl| |done].
    intros members. respects_go.
  - rewrite bind_assoc, bind_modify, bind_modify.
    eapply (join_tail _ _ _ _ _ []).
    + apply (members_once_same (upd_rooms (Obj.set roomCode []) s1)); [done|].
      apply members_once_set; [constructor|done].
    + simpl. by rewrite get_set_eq.
    + intros members. respects_go.
    + done.
Qed.

Lemma on_disconnect_unfold sid username :
  on_disconnect sid username
  = bind (modify (upd_userSession (Obj.delete sid))) (λ _,
    bind (cleanupUser sid) (λ _,
    bind (gets (λ st, Obj.keys (rooms st))) (λ codes,
    bind (forEach codes (leave_room sid username)) (λ _,
      modify (upd_userActiveFiles (Obj.delete sid)))))).
Proof. reflexivity. Qed.

Lemma leave_room_members_once sid username roomCode :
  respects (keeps members_once) any_effect (leave_room sid username roomCode).
Proof.
  intros st. split; [|apply Forall_any_effect]. intros Hinv.
  unfold leave_room. rewrite bind_gets.
  destruct (Js.includes _ sid) eqn:Hinc; [|done].
  rewrite bind_modify. apply keeps_final.
  - respects_go; members_leaf.
  - apply members_once_set; [|done].
    destruct (Obj.get (rooms st) roomCode) as [l|] eqn:Hl; [|constructor].
    simpl. by apply remove_first_NoDup, (Hinv roomCode).
Qed.

Lemma dispatch_members_once i :
  respects (keeps members_once) any_effect (dispatch i).
Proof.
  destruct i as [sid|sid m|sid|roomCode e|roomCode userId data|roomCode userId
                |n| |d]; unfold dispatch.
  - respects_go; members_leaf.
  - destruct m; unfold on_client;
      try (respects_go; members_leaf).
    intros st. split; [intros Hinv; by apply on_join_room_members_once|apply Forall_any_effect].
  - unfold mbind, M_bind.
    apply respects_bind; [apply _|respects_go|intros username].
    apply respects_bind; [apply _|respects_go; members_leaf|intros _].
    rewrite on_disconnect_unfold.
    repeat first [apply leave_room_members_once
                 |apply respects_forEach; [apply _|intros ?]
                 |apply respects_bind; [apply _| |intros ?]].
    all: respects_go; members_leaf.
  - destruct e; respects_go; members_leaf.
  - respects_go.
  - respects_go; members_leaf.
  - respects_go; members_leaf.
  - respects_go; members_leaf.
  - respects_go; members_leaf.
Qed.

End Members.

Section Returns.

Lemma returns_ret {A} (a : A) : returns (ret a).
Proof. intros st. by eexists. Qed.

Lemma returns_gets {A} (f : State → A) : returns (gets f).
Proof. intros st. by eexists. Qed.

Lemma returns_modify g : returns (modify g).
Proof. intros st. by eexists. Qed.

Lemma returns_effect e : returns (effect e).
Proof. intros st. by eexists. Qed.

Lemma returns_bind {A B} (m : M A) (k : A → M B) :
  returns m → (∀ a, returns (k a)) → returns (bind m k).
Proof.
  intros Hm Hk st. unfold bind. destruct (Hm st) as [a Ha].
  destruct (m st) as [[o s1] e1]; simpl in *; subst o.
  destruct (Hk a s1) as [b Hb].
  destruct (k a s1) as [[o s2] e2]; simpl in *; subst o. by eexists.
Qed.

Lemma returns_try_catch {A} (body : M A) h :
  (∀ x, returns (h x)) → returns (try_catch body h).
Proof.
  intros Hh st. unfold try_catch.
  destruct (body st) as [[[a|x] s1] e1]; [by eexists|].
  destruct (Hh x s1) as [b Hb].
  destruct (h x s1) as [[o s2] e2]; simpl in *; subst o. by eexists.
Qed.

Lemma returns_try_finally {A} (body : M A) c :
  returns body → returns c → returns (try_finally body c).
Proof.
  intros Hb Hc st. unfold try_finally. destruct (Hb st) as [a Ha].
  destruct (body st) as [[o s1] e1]; simpl in *; subst o.
  destruct (Hc s1) as [[] Hu].
  destruct (c s1) as [[o s2] e2]; simpl in *; subst o. by eexists.
Qed.

Lemma returns_forEach {A} (l : list A) f :
  (∀ x, returns (f x)) → returns (forEach l f).
Proof.
  intros Hf. induction l as [|x l IH]; simpl.
  - apply returns_ret.
  - apply returns_bind; auto.
Qed.

End Returns.

Ltac returns_rule :=
  lazymatch goal with
  | |- ∀ _, _ => intros ?
  | |- returns (ret _) => apply returns_ret
  | |- returns (gets _) => apply returns_gets
  | |- returns (effect _) => apply returns_effect
  | |- returns (modify _) => apply returns_modify
  | |- returns (bind _ _) => apply returns_bind
  | |- returns (try_catch _ _) => apply returns_try_catch
  | |- returns (try_finally _ _) => apply returns_try_finally
  | |- returns (forEach _ _) => apply returns_forEach
  | |- returns (match ?x with _ => _ end) => destruct x
  | |- returns ((match ?x with _ => _ end) _) => destruct x
  end.

Ltac returns_go := repeat (respects_unfold; cbv beta zeta; returns_rule).

Lemma returns_Done {A} (m : M A) st :
  returns m → ∃ a s e, m st = (Done a, s, e).
Proof.
  intros Hm. destruct (Hm st) as [a Ha].
  destruct (m st) as [[o s] e]; simpl in *; subst o. eauto.
Qed.

Lemma bind_ext {A B} (m : M A) (k k' : A → M B) st :
  (∀ a s, k a s = k' a s) → bind m k st = bind m k' st.
Proof.
  intros Hk. unfold bind. destruct (m st) as [[[a|x] s1] e1]; [|done].
  by rewrite Hk.
Qed.

Lemma forEach_app {A} (l1 l2 : list A) f st :
  forEach (l1 ++ l2) f st = bind (forEach l1 f) (λ _, forEach l2 f) st.
Proof.
  revert st. induction l1 as [|x l1 IH]; intros st; simpl.
  - by rewrite bind_ret.
  - rewrite bind_assoc. apply bind_ext. intros _ s. apply IH.
Qed.

Section Leaving.
Context `{Platform}.

Lemma cleanupUser_returns userId : returns (cleanupUser userId).
Proof. returns_go. Qed.

Lemma cleanupRoom_returns roomCode : returns (cleanupRoom roomCode).
Proof. returns_go. Qed.

Lemma leave_room_returns sid username roomCode : returns (leave_room sid username roomCode).
Proof. unfold leave_room. returns_go. Qed.

Lemma on_disconnect_returns sid username : returns (on_disconnect sid username).
Proof. returns_go. Qed.

End Leaving.

(** ** Disconnecting *)


Lemma state_of_effect {B} e (k : () → M B) st :
  (bind (effect e) k st).1.2 = (k () st).1.2.
Proof. unfold bind, effect. by destruct (k () st) as [[r s2] e2]. Qed.

Section Disconnect.
Context `{Platform}.






End Disconnect.

(** ** Cleaning up a room *)

Ltac no_terminal_leaf :=
  unfold keeps, no_terminal; intros; simpl in *;
  rewrite ?get_delete; repeat case_decide; intuition.

Lemma get_Some_elem {V} (o : list (string * V)) k v :
  Obj.get o k = Some v → (k, v) ∈ o.
Proof.
  induction o as [|[k' v'] o IH]; simpl; [done|].
  destruct (decide (k' = k)) as [->|Hne].
  - intros [= ->]. by left.
  - intros Hg. right. auto.
Qed.

Lemma rmSync_removes d wd : removed_from_disk wd (Fs.rmSync d wd).
Proof.
  intros k Hk. unfold Fs.rmSync. apply map_lookup_filter_None_2. right.
  intros x _ [Hne Hun]. simpl in *. destruct Hk as [->|Hk]; congruence.
Qed.

Section CleanupRoom.
Context `{Platform}.

Lemma cleanupRoom_unfold roomCode :
  cleanupRoom roomCode
  = bind (gets (λ st, bool_decide (roomCode ∈ fileWatchers (tm st)))) (λ has,
    bind (if has : bool then
            bind (effect (WatcherClose roomCode)) (λ _,
              modify (upd_tm (upd_fileWatchers (λ s, s ∖ {[roomCode]}))))
          else ret ()) (λ _, cleanupRoom_workdir roomCode)).
Proof. reflexivity. Qed.

Lemma cleanupUser_no_terminal userId st :
  no_terminal userId (cleanupUser userId st).1.2.
Proof.
  unfold cleanupUser, mbind, M_bind, mret, M_ret. cbv beta.
  rewrite bind_gets. unfold Obj.has, no_terminal.
  destruct (Obj.get (terminals (tm st)) userId) as [t|] eqn:Ht.
  - rewrite bind_assoc, state_of_effect, bind_modify. simpl.
    by rewrite !get_delete_eq.
  - rewrite bind_ret. simpl. by rewrite get_delete_eq.
Qed.

Lemma cleanupUser_keeps_no_terminal u userId :
  respects (keeps (no_terminal u)) any_effect (cleanupUser userId).
Proof. respects_go; no_terminal_leaf. Qed.

Lemma cleanup_users roomCode users : ∀ st u,
  (u, roomCode) ∈ users →
  no_terminal u
    (forEach users (λ entry : string * string,
       if bool_decide (entry.2 = roomCode) then cleanupUser entry.1 else ret ()) st).1.2.
Proof.
  induction users as [|[u0 r0] users IH]; intros st u Hin; [by apply elem_of_nil in Hin|].
  simpl forEach.
  set (body := λ entry : string * string,
         if bool_decide (entry.2 = roomCode) then cleanupUser entry.1 else ret ()).
  destruct (returns_Done (body (u0, r0)) st) as ([] & s1 & e1 & Hrun).
  { unfold body. simpl.
    destruct (bool_decide (r0 = roomCode)); [apply cleanupUser_returns|apply returns_ret]. }
  erewrite bind_Done_state by exact Hrun.
  destruct (decide ((u, roomCode) ∈ users)) as [Hin'|Hnin]; [by apply IH|].
  apply elem_of_cons in Hin as [[= <- <-]|?]; [|done].
  apply keeps_final.
  - apply respects_forEach; [apply _|]. intros [u1 r1]. unfold body. simpl.
    destruct (bool_decide (r1 = roomCode)); [apply cleanupUser_keeps_no_terminal|].
    apply respects_ret. apply _.
  - unfold body in Hrun. simpl in Hrun. rewrite bool_decide_eq_true_2 in Hrun by done.
    pose proof (cleanupUser_no_terminal u st) as Hu. by rewrite Hrun in Hu.
Qed.

Lemma cleanup_users_frame roomCode users :
  respects
    (same (λ st, (sharedWorkingDirectories (tm st), fileWatchers (tm st), disk st,
                  rooms st, roomFiles st)))
    any_effect
    (forEach users (λ entry : string * string,
       if bool_decide (entry.2 = roomCode) then cleanupUser entry.1 else ret ())).
Proof. respects_go. Qed.

Lemma cleanupRoom_workdir_spec roomCode st :
  let st' := (cleanupRoom_workdir roomCode st).1.2 in
  Obj.get (sharedWorkingDirectories (tm st')) roomCode = None ∧
  fileWatchers (tm st') = fileWatchers (tm st) ∧
  rooms st' = rooms st ∧ roomFiles st' = roomFiles st ∧
  (∀ u, Obj.get (userRooms (tm st)) u = Some roomCode → no_terminal u st') ∧
  (∀ wd, Obj.get (sharedWorkingDirectories (tm st)) roomCode = Some wd →
         wd ≠ "" → Fs.existsSync (disk st) wd = true →
         removed_from_disk wd (disk st')).
Proof.
  intros st'. subst st'. unfold cleanupRoom_workdir. rewrite bind_gets.
  assert (∃ d, (match Obj.get (sharedWorkingDirectories (tm st)) roomCode with
                | Some (String _ _ as workDir) =>
                    bind (existsSync workDir) (λ ex,
                      if ex : bool then modify (upd_disk (λ d, Fs.rmSync d workDir))
                      else ret ())
                | _ => ret ()
                end) st = (Done (), upd_disk (λ _, d) st, []) ∧
               ∀ wd, Obj.get (sharedWorkingDirectories (tm st)) roomCode = Some wd →
                     wd ≠ "" → Fs.existsSync (disk st) wd = true →
                     removed_from_disk wd d) as (d & Hrun & Hd).
  { destruct (Obj.get (sharedWorkingDirectories (tm st)) roomCode) as [[|c w]|].
    - exists (disk st). rewrite upd_disk_id. split; [done|]. by intros wd [= <-].
    - unfold existsSync. rewrite bind_gets.
      destruct (Fs.existsSync (disk st) (String c w)) eqn:Hex.
      + exists (Fs.rmSync (disk st) (String c w)). split; [done|].
        intros wd [= <-] _ _. apply rmSync_removes.
      + exists (disk st). rewrite upd_disk_id. split; [done|].
        intros wd [= <-] _ Hex'. congruence.
    - exists (disk st). rewrite upd_disk_id. split; [done|]. by intros wd [=]. }
  erewrite bind_Done_state by exact Hrun.
  rewrite bind_modify, bind_gets.
  set (s1 := upd_tm _ (upd_disk _ st)).
  set (loop := forEach _ _).
  pose proof (same_final _ loop s1 (cleanup_users_frame roomCode _)) as Hframe.
  simpl in Hframe. injection Hframe as Hwd Hfw Hdisk Hrooms Hfiles.
  split_and!.
  - rewrite Hwd. apply get_delete_eq.
  - by rewrite Hfw.
  - by rewrite Hrooms.
  - by rewrite Hfiles.
  - intros u Hu. apply cleanup_users. by apply get_Some_elem.
  - intros wd Hw Hne Hex. rewrite Hdisk. by apply Hd.
Qed.

Lemma cleanupRoom_run roomCode st :
  let st' := (cleanupRoom roomCode st).1.2 in
  Obj.get (sharedWorkingDirectories (tm st')) roomCode = None ∧
  (roomCode ∉ fileWatchers (tm st')) ∧
  rooms st' = rooms st ∧ roomFiles st' = roomFiles st ∧
  (∀ u, Obj.get (userRooms (tm st)) u = Some roomCode → no_terminal u st') ∧
  (∀ wd, Obj.get (sharedWorkingDirectories (tm st)) roomCode = Some wd →
         wd ≠ "" → Fs.existsSync (disk st) wd = true →
         removed_from_disk wd (disk st')).
Proof.
  intros st'. subst st'. rewrite cleanupRoom_unfold, bind_gets.
  destruct (decide (roomCode ∈ fileWatchers (tm st))) as [Hin|Hnin].
  - rewrite bool_decide_eq_true_2 by done.
    rewrite bind_assoc, state_of_effect, bind_modify.
    destruct (cleanupRoom_workdir_spec roomCode
                (upd_tm (upd_fileWatchers (λ s, s ∖ {[roomCode]})) st))
      as (H1 & H2 & H3 & H4 & H5 & H6).
    split_and!; [done| |done..].
    rewrite H2. simpl. rewrite elem_of_difference, elem_of_singleton. tauto.
  - rewrite bool_decide_eq_false_2 by done. rewrite bind_ret.
    destruct (cleanupRoom_workdir_spec roomCode st) as (H1 & H2 & H3 & H4 & H5 & H6).
    split_and!; [done| |done..]. by rewrite H2.
Qed.

(** [cleanupRoom] forgets the working directory and the watcher of the
    room and ends the shell of every user assigned to the room, dropping
    the assignment; the members and the tree of the room are not its
    business. *)
Theorem cleanupRoom_spec roomCode st :
  let st' := (cleanupRoom roomCode st).1.2 in
  Obj.get (sharedWorkingDirectories (tm st')) roomCode = None ∧
  (roomCode ∉ fileWatchers (tm st')) ∧
  rooms st' = rooms st ∧ roomFiles st' = roomFiles st ∧
  (∀ u, Obj.get (userRooms (tm st)) u = Some roomCode → no_terminal u st').
Proof.
  intros st'.
  destruct (cleanupRoom_run roomCode st) as (H1 & H2 & H3 & H4 & H5 & _).
  by split_and!.
Qed.

End CleanupRoom.

(** ** The last member leaves; joining a room that is not in memory *)

Ltac room_removed_leaf :=
  unfold keeps, room_removed; intros; simpl in *;
  rewrite ?get_delete, ?get_set_ne by done; repeat case_decide;
  rewrite ?elem_of_difference; intuition.

Lemma respects_forEach_in {A} R `{!PreOrder R} P (l : list A) f :
  (∀ x, x ∈ l → respects R P (f x)) → respects R P (forEach l f).
Proof.
  intros Hf. induction l as [|x l IH]; simpl.
  - by apply respects_ret.
  - apply respects_bind; [done|apply Hf; by left|].
    intros _. apply IH. intros y Hy. apply Hf. by right.
Qed.

Section LastMember.
Context `{Platform}.

Lemma leave_room_other sid username x r :
  x ≠ r →
  respects (same (λ st, Obj.get (rooms st) r)) any_effect (leave_room sid username x).
Proof.
  intros Hne. unfold leave_room. respects_go.
  all: first [by apply get_set_ne | by apply get_delete_ne].
Qed.

Lemma leave_room_keeps_removed r sid username x :
  respects (keeps (room_removed r)) any_effect (leave_room sid username x).
Proof.
  destruct (decide (x = r)) as [->|Hne].
  - intros st. split; [|apply Forall_any_effect]. intros HP.
    unfold leave_room. rewrite bind_gets.
    destruct HP as (Hr & HP). rewrite Hr. simpl default.
    change (default [] None) with (@nil string).
    unfold Js.includes. rewrite bool_decide_eq_false_2 by apply not_elem_of_nil.
    simpl. by split.
  - unfold leave_room. respects_go; room_removed_leaf.
Qed.

Lemma last_member_leaves sid username r st :
  Obj.get (rooms st) r = Some [sid] →
  room_removed r (leave_room sid username r st).1.2.
Proof.
  intros Hr. unfold leave_room, emit. rewrite bind_gets, Hr.
  change (default [] (Some [sid])) with [sid].
  unfold Js.includes. rewrite bool_decide_eq_true_2 by (by left).
  simpl remove_first. rewrite decide_True by done.
  rewrite bool_decide_eq_true_2 by done.
  rewrite bind_modify, state_of_effect.
  set (s1 := upd_rooms _ st).
  destruct (returns_Done (cleanupRoom r) s1 (cleanupRoom_returns r))
    as ([] & s2 & e2 & Hrun).
  erewrite bind_Done_state by exact Hrun. rewrite bind_modify.
  destruct (cleanupRoom_run r s1) as (Hwd & Hfw & _).
  rewrite Hrun in Hwd, Hfw. simpl in Hwd, Hfw.
  unfold room_removed. simpl. by rewrite !get_delete_eq.
Qed.

(** When the only member of a room disconnects, the room leaves the
    memory of the server: its member list, its tree, its working directory
    and its watcher are gone.  The persisted room (code and password hash)
    stays. *)
Theorem last_member_leaving_removes_room st sid r :
  Obj.get (rooms st) r = Some [sid] →
  room_removed r (step st (Disconnect sid)).1 ∧
  db (step st (Disconnect sid)).1 = db st.
Proof.
  intros Hr. split.
  2: { rewrite step_state.
       apply (same_final db (dispatch (Disconnect sid))). unfold dispatch. respects_go. }
  rewrite step_state. unfold dispatch, mbind, M_bind. cbv beta.
  rewrite bind_gets, bind_modify, on_disconnect_unfold, bind_modify.
  set (u := default "" (s_username <$> Obj.get (sockets st) sid)).
  set (s2 := upd_userSession _ (upd_sockets _ st)).
  destruct (returns_Done (cleanupUser sid) s2 (cleanupUser_returns sid))
    as ([] & s3 & e3 & Hrun3).
  erewrite bind_Done_state by exact Hrun3.
  assert (rooms s3 = rooms st) as Hrooms3.
  { pose proof (same_final rooms (cleanupUser sid) s2) as Hs.
    rewrite Hrun3 in Hs. apply Hs. respects_go. }
  rewrite bind_gets.
  assert (r ∈ Obj.keys (rooms s3)) as Hin.
  { rewrite Hrooms3. by eapply get_Some_keys. }
  apply list_elem_of_split_l in Hin as (l1 & l2 & -> & Hnin).
  assert (∀ s, (bind (forEach (l1 ++ r :: l2) (leave_room sid u))
                  (λ _, modify (upd_userActiveFiles (Obj.delete sid))) s).1.2
               = (bind (forEach l1 (leave_room sid u))
                   (λ _, bind (leave_room sid u r)
                   (λ _, bind (forEach l2 (leave_room sid u))
                   (λ _, modify (upd_userActiveFiles (Obj.delete sid))))) s).1.2) as ->.
  { intros s. f_equal. f_equal.
    unfold bind at 1. rewrite forEach_app. fold (bind (bind (forEach l1 (leave_room sid u))
      (λ _, forEach (r :: l2) (leave_room sid u)))
      (λ _, modify (upd_userActiveFiles (Obj.delete sid))) s).
    rewrite bind_assoc. apply bind_ext. intros _ s'. simpl forEach.
    by rewrite bind_assoc. }
  destruct (returns_Done (forEach l1 (leave_room sid u)) s3) as ([] & s4 & e4 & Hrun4).
  { apply returns_forEach. intros x. apply leave_room_returns. }
  erewrite bind_Done_state by exact Hrun4.
  assert (Obj.get (rooms s4) r = Some [sid]) as Hr4.
  { pose proof (same_final (λ st, Obj.get (rooms st) r) (forEach l1 (leave_room sid u)) s3)
      as Hs.
    rewrite Hrun4 in Hs. simpl in Hs. rewrite Hs; [by rewrite Hrooms3|].
    apply respects_forEach_in; [apply _|]. intros x Hx.
    apply leave_room_other. by intros ->. }
  destruct (returns_Done (leave_room sid u r) s4 (leave_room_returns sid u r))
    as ([] & s5 & e5 & Hrun5).
  erewrite bind_Done_state by exact Hrun5.
  pose proof (last_member_leaves sid u r s4 Hr4) as H5.
  rewrite Hrun5 in H5. simpl in H5.
  apply keeps_final; [|done].
  apply respects_bind; [apply _| |intros _].
  - apply respects_forEach; [apply _|]. intros x. apply leave_room_keeps_removed.
  - respects_go; room_removed_leaf.
Qed.

(** A join, with the right password, of a room that is not in memory
    puts it there with the default tree, whatever tree was kept under its
    code, and with the joining user as its only member.  The room code is
    not a name inherited from [Object.prototype], for which the test
    [!rooms[roomCode]] of the handler finds the inherited value. *)
Theorem join_room_not_in_memory st sid username roomCode password hash :
  Js.inherited roomCode = false →
  Obj.get (db st) roomCode = Some hash →
  bcrypt_compare password hash = true →
  Obj.get (rooms st) roomCode = None →
  let st' := (step st (FromClient sid (JoinRoom username roomCode password))).1 in
  Obj.get (roomFiles st') roomCode = Some getDefaultFiles ∧
  Obj.get (rooms st') roomCode = Some [sid].
Proof.
  intros _ Hdb Hpw Hr st'. subst st'. rewrite step_state.
  unfold dispatch, on_client, on_join_room.
  rewrite try_catch_effect_state by done.
  unfold mbind, M_bind, mret, M_ret. cbv beta.
  rewrite bind_gets, Hdb, Hpw. cbv beta iota. change (negb true) with false. cbv iota.
  rewrite bind_modify, bind_gets.
  unfold Obj.has. simpl rooms. rewrite Hr.
  rewrite bind_assoc, bind_modify, bind_modify.
  erewrite bind_room_members by (simpl; apply get_set_eq).
  unfold Js.includes. rewrite bool_decide_eq_false_2 by apply not_elem_of_nil.
  rewrite bind_modify.
  match goal with
  | |- context [(bind ?m ?k ?s).1.2] =>
      assert (respects (same (λ st, (rooms st, roomFiles st))) any_effect (bind m k))
        as Hframe by respects_go;
      pose proof (same_final (λ st, (rooms st, roomFiles st)) (bind m k) s Hframe) as Hs
  end.
  cbv beta in Hs. apply pair_equal_spec in Hs as [-> ->]. simpl.
  by rewrite !get_set_eq.
Qed.

End LastMember.

(** ** Tokens have timers; working directories *)

Lemma tokens_timed_same st st' :
  fileSyncInProgress (tm st') = fileSyncInProgress (tm st) → timers st' = timers st →
  tokens_timed st → tokens_timed st'.
Proof. intros H1 H2 Hinv k. rewrite H1, H2. apply Hinv. Qed.

Lemma tokens_timed_more st t :
  tokens_timed st → tokens_timed (upd_timers (λ l, l ++ [t]) st).
Proof. intros Hinv k Hk. simpl. apply elem_of_app. left. by apply Hinv. Qed.

Lemma elem_of_remove_nth {A} (l : list A) n x y :
  x ∈ l → l !! n = Some y → x ≠ y → x ∈ take n l ++ drop (S n) l.
Proof.
  intros Hx Hn Hne.
  rewrite <- (take_drop_middle l n y Hn) in Hx.
  apply elem_of_app in Hx as [Hx|Hx]; apply elem_of_app; [by left|].
  apply elem_of_cons in Hx as [->|Hx]; [done|by right].
Qed.

Ltac tokens_leaf :=
  unfold keeps;
  first
    [ apply tokens_timed_same; reflexivity
    | apply tokens_timed_more ].

Ltac respects_unfold_gateway :=
  unfold on_client, on_watcher, on_timer,
    on_create_room, on_join_room, on_get_files, on_get_file_content,
    on_run_file, on_save_and_run, on_kill_process, on_get_working_directory,
    on_create_file, on_create_folder, on_delete_item, on_rename_item,
    on_move_item, on_toggle_folder, on_switch_file, on_code_change,
    on_disconnect, delete_from_workdir, rename_in_workdir, rekey_folder,
    follow_active, reassign_active,
    initializeTerminal, setupFileWatcher, createFolderInWorkingDir,
    syncRoomFilesToWorkingDir,
    removeFileFromRoomFiles, removeFolderFromRoomFiles, handleInput,
    handleResize, executeCommand, runFile, cleanupUser, cleanupRoom,
    getWorkingDirectory, socket_join, socket_identify, set_active,
    upd_room_files, ensure_room_files, existsSync, setTimeout, setImmediate,
    emit, when, mbind, M_bind, mret, M_ret.

Section TokenTimers.
Context `{Platform}.

(** A computation run under a token: the token is added, the
    computation runs, the timer that clears the token is set. *)
Lemma token_guarded {A} key (body : M A) :
  respects (same (λ st, (fileSyncInProgress (tm st), timers st))) any_effect body →
  respects (keeps tokens_timed) any_effect
    (bind (modify (upd_tm (upd_fileSyncInProgress (λ s, {[key]} ∪ s))))
       (λ _, try_finally body (setTimeout (TClearSync key)))).
Proof.
  intros Hbody st. split; [|apply Forall_any_effect]. intros Hinv.
  rewrite bind_modify. unfold try_finally, setTimeout, modify.
  match goal with |- context [body ?s] =>
    destruct (Hbody s) as [Hsame _]; destruct (body s) as [[o s1] e1] end.
  unfold same in Hsame. simpl in Hsame. apply pair_equal_spec in Hsame as [Htok Htim].
  simpl. intros k. simpl. rewrite Htok, Htim.
  intros [->%elem_of_singleton|Hk]%elem_of_union.
  - apply elem_of_app. right. by left.
  - apply elem_of_app. left. by apply Hinv.
Qed.

Lemma writeFileToWorkingDir_tokens roomCode fileName content :
  respects (keeps tokens_timed) any_effect
    (writeFileToWorkingDir roomCode fileName content).
Proof.
  intros st. split; [|apply Forall_any_effect]. intros Hinv.
  unfold writeFileToWorkingDir. cbv zeta.
  unfold mbind, M_bind, mret, M_ret. cbv beta. rewrite bind_gets.
  destruct (bool_decide _); [done|].
  rewrite bind_modify, bind_gets.
  cbn [sharedWorkingDirectories tm upd_tm upd_fileSyncInProgress].
  destruct (Obj.get (sharedWorkingDirectories (tm st)) roomCode) as [[|c w]|];
    cbv beta iota.
  - rewrite bind_modify. simpl. intros k. simpl.
    rewrite elem_of_difference, elem_of_union, !elem_of_singleton.
    intros [[->|Hk] Hne]; [done|by apply Hinv].
  - match goal with |- context [try_finally ?b ?c ?s] =>
      pose proof (token_guarded (sync_key "editor" roomCode fileName) b) as Hg end.
    match type of Hg with ?P → _ => assert P as HP by respects_go end.
    specialize (Hg HP st) as [Hg _]. rewrite bind_modify in Hg. by apply Hg.
  - rewrite bind_modify. simpl. intros k. simpl.
    rewrite elem_of_difference, elem_of_union, !elem_of_singleton.
    intros [[->|Hk] Hne]; [done|by apply Hinv].
Qed.

Lemma syncFileFromTerminalToRoom_tokens roomCode fileName filePath :
  respects (keeps tokens_timed) any_effect
    (syncFileFromTerminalToRoom roomCode fileName filePath).
Proof.
  intros st. split; [|apply Forall_any_effect]. intros Hinv.
  unfold syncFileFromTerminalToRoom. cbv zeta.
  unfold mbind, M_bind, mret, M_ret. cbv beta. rewrite bind_gets.
  destruct (bool_decide _); [done|].
  match goal with |- context [try_finally ?b ?c] =>
    pose proof (token_guarded (sync_key "terminal" roomCode fileName) b) as Hg end.
  match type of Hg with ?P → _ => assert P as HP by respects_go end.
  specialize (Hg HP st) as [Hg _]. by apply Hg.
Qed.

Lemma syncFolderFromTerminalToRoom_tokens roomCode folderPath :
  respects (keeps tokens_timed) any_effect
    (syncFolderFromTerminalToRoom roomCode folderPath).
Proof.
  intros st. split; [|apply Forall_any_effect]. intros Hinv.
  unfold syncFolderFromTerminalToRoom. cbv zeta.
  unfold mbind, M_bind, mret, M_ret. cbv beta. rewrite bind_gets.
  destruct (bool_decide _); [done|].
  match goal with |- context [try_finally ?b ?c] =>
    pose proof (token_guarded (sync_key "terminal-folder" roomCode folderPath) b) as Hg end.
  match type of Hg with ?P → _ => assert P as HP by respects_go end.
  specialize (Hg HP st) as [Hg _]. by apply Hg.
Qed.

Ltac tokens_rule :=
  lazymatch goal with
  | |- respects _ _ (writeFileToWorkingDir _ _ _) => apply writeFileToWorkingDir_tokens
  | |- respects _ _ (syncFileFromTerminalToRoom _ _ _) =>
      apply syncFileFromTerminalToRoom_tokens
  | |- respects _ _ (syncFolderFromTerminalToRoom _ _) =>
      apply syncFolderFromTerminalToRoom_tokens
  | |- _ => respects_rule
  end.

Ltac tokens_go := repeat (respects_unfold_gateway; cbv beta zeta; tokens_rule).

Lemma on_timer_tokens t :
  match t with TClearSync _ => True | _ => respects (keeps tokens_timed) any_effect (on_timer t) end.
Proof. destruct t; [done|tokens_go; tokens_leaf..]. Qed.

Lemma dispatch_tokens_timed i :
  respects (keeps tokens_timed) any_effect (dispatch i).
Proof.
  destruct i as [sid|sid m|sid|roomCode e|roomCode userId data|roomCode userId
                |n| |d]; unfold dispatch.
  - tokens_go; tokens_leaf.
  - destruct m; tokens_go; tokens_leaf.
  - tokens_go; tokens_leaf.
  - destruct e; tokens_go; tokens_leaf.
  - tokens_go.
  - tokens_go; tokens_leaf.
  - intros st. split; [|apply Forall_any_effect]. intros Hinv.
    unfold mbind, M_bind, mret, M_ret. cbv beta. rewrite bind_gets.
    destruct (timers st !! n) as [t|] eqn:Ht; [|done].
    rewrite bind_modify.
    destruct t as [k0|r|r u].
    + simpl. intros k. simpl. rewrite elem_of_difference, elem_of_singleton.
      intros [Hk Hne]. eapply elem_of_remove_nth; [by apply Hinv|done|congruence].
    + apply keeps_final; [apply (on_timer_tokens (TSyncRoomFiles r))|].
      intros k Hk. simpl. eapply elem_of_remove_nth; [by apply Hinv|done|done].
    + apply keeps_final; [apply (on_timer_tokens (TRespawn r u))|].
      intros k Hk. simpl. eapply elem_of_remove_nth; [by apply Hinv|done|done].
  - tokens_go; tokens_leaf.
  - tokens_go; tokens_leaf.
Qed.

End TokenTimers.

Lemma join_tmp_nonempty s : Path.join Fs.tmpdir s ≠ "".
Proof.
  unfold Path.join, Fs.tmpdir. simpl Js.truthy. cbv iota.
  destruct (Js.truthy s); [|done].
  unfold Path.normalize. rewrite !app_cons. cbv beta iota zeta.
  rewrite bool_decide_eq_true_2 by done. done.
Qed.

Ltac workdirs_leaf :=
  unfold keeps, workdirs_in_tmp;
  let Hinv := fresh in let r := fresh in let wd := fresh in
  intros Hinv r wd; simpl;
  rewrite ?get_set, ?get_delete; repeat case_decide;
  first [ by intros [= <-]; subst | done | apply Hinv ].

Section Workdirs.
Context `{Platform}.

Lemma dispatch_workdirs_in_tmp i :
  respects (keeps workdirs_in_tmp) any_effect (dispatch i).
Proof.
  destruct i as [sid|sid m|sid|roomCode e|roomCode userId data|roomCode userId
                |n| |d]; unfold dispatch.
  - respects_go; workdirs_leaf.
  - destruct m; respects_go; workdirs_leaf.
  - respects_go; workdirs_leaf.
  - destruct e; respects_go; workdirs_leaf.
  - respects_go.
  - respects_go; workdirs_leaf.
  - respects_go; workdirs_leaf.
  - respects_go; workdirs_leaf.
  - respects_go; workdirs_leaf.
Qed.

End Workdirs.

Section Reachable.
Context `{Platform}.

Lemma run_invariant Inv :
  (∀ i, respects (keeps Inv) any_effect (dispatch i)) →
  ∀ inputs st, Inv st → Inv (run st inputs).1.
Proof.
  intros Hstep. induction inputs as [|i r IH]; intros st Hinv; [done|].
  simpl. pose proof (keeps_final Inv (dispatch i) st (Hstep i) Hinv) as H1.
  rewrite <- step_state in H1.
  destruct (step st i) as [st1 e1]. specialize (IH st1 H1).
  by destruct (run st1 r).
Qed.

(** In every state the server reaches, no user is listed twice in a
    room. *)
Theorem members_listed_once inputs r l :
  Obj.get (rooms (run boot inputs).1) r = Some l → NoDup l.
Proof.
  apply (run_invariant members_once dispatch_members_once inputs boot). by intros ??.
Qed.

(** In every state the server reaches, every sync token that is held has
    a pending timer that will release it: no token blocks a path for
    ever. *)
Theorem held_tokens_have_timers inputs k :
  k ∈ fileSyncInProgress (tm (run boot inputs).1) →
  TClearSync k ∈ timers (run boot inputs).1.
Proof.
  apply (run_invariant tokens_timed dispatch_tokens_timed inputs boot).
  intros k'. simpl. by intros ?%elem_of_empty.
Qed.

(** In every state the server reaches, the working directory recorded for
    a room is the directory [compiler_<roomCode>] of the temporary
    directory, and so is never an empty path. *)
Theorem workdir_of_room inputs r wd :
  Obj.get (sharedWorkingDirectories (tm (run boot inputs).1)) r = Some wd →
  wd = Path.join Fs.tmpdir ("compiler_" +:+ r) ∧ wd ≠ "".
Proof.
  intros Hwd.
  pose proof (run_invariant workdirs_in_tmp dispatch_workdirs_in_tmp inputs boot) as Hinv.
  rewrite (Hinv (λ _ _, ltac:(done)) _ _ Hwd). split; [done|apply join_tmp_nonempty].
Qed.

End Reachable.

(** ** What a watcher event leaves alone; toggling a folder *)

Lemma set_set {V} (o : list (string * V)) k v v' :
  Obj.set k v (Obj.set k v' o) = Obj.set k v o.
Proof.
  induction o as [|[k' w] o IH]; simpl.
  - by rewrite decide_True.
  - destruct (decide (k' = k)) as [->|Hne]; simpl.
    + by rewrite decide_True.
    + rewrite decide_False by done. by rewrite IH.
Qed.

Section Frames.
Context `{Platform}.

(** A file-watcher event only ever changes the trees, the active files
    and the sync tokens with their timers: it never writes to the disk, so
    the sync from the shell to the room cannot feed back into the working
    directory, and it never touches membership, sockets, shells or the
    persisted rooms. *)
Theorem watcher_event_frame st roomCode e :
  beyond_watcher (step st (Watcher roomCode e)).1 = beyond_watcher st.
Proof.
  rewrite step_state. apply (same_final beyond_watcher).
  unfold dispatch, beyond_watcher. destruct e; respects_go.
Qed.

(** Toggling a folder twice gives back the state: the expansion flag is
    inverted and inverted again, the node keeps its place in the tree, and
    the second announcement carries the tree as it was. *)
Theorem toggle_folder_twice st sid sid' roomCode folderPath isExpanded :
  room_node st roomCode folderPath = Some (FolderN isExpanded) →
  let first := step st (FromClient sid (ToggleFolder roomCode folderPath)) in
  let second := step first.1 (FromClient sid' (ToggleFolder roomCode folderPath)) in
  room_node first.1 roomCode folderPath = Some (FolderN (negb isExpanded)) ∧
  second.1 = st ∧
  second.2 = [Emit (ToChannel roomCode) (FilesUpdate (room_files st roomCode));
              Emit (ToChannel roomCode) (FolderToggled folderPath isExpanded)].
Proof.
  intros Hnode first second.
  assert (first = (upd_roomFiles (λ rf,
             match Obj.get rf roomCode with
             | Some files =>
                 Obj.set roomCode (Obj.set folderPath (FolderN (negb isExpanded)) files) rf
             | None => rf
             end) st,
           [Emit (ToChannel roomCode)
              (FilesUpdate (Obj.set folderPath (FolderN (negb isExpanded))
                              (room_files st roomCode)));
            Emit (ToChannel roomCode) (FolderToggled folderPath (negb isExpanded))]))
    as Hfirst.
  { subst first. run_handler. rewrite Hnode. simpl. unfold room_files, room_node in *.
    simpl. destruct (Obj.get (roomFiles st) roomCode) as [files|]; [|done].
    by rewrite get_set_eq. }
  unfold room_node, room_files in *.
  destruct (Obj.get (roomFiles st) roomCode) as [files|] eqn:Hfiles; [|done].
  assert (room_node first.1 roomCode folderPath = Some (FolderN (negb isExpanded)))
    as Hnode1.
  { rewrite Hfirst. unfold room_node. cbn [fst roomFiles upd_roomFiles].
    rewrite Hfiles. by rewrite !get_set_eq. }
  split; [exact Hnode1|].
  subst second. revert Hnode1. rewrite Hfirst. cbn [fst snd]. intros Hnode1.
  run_handler. rewrite Hnode1. cbn [fst snd roomFiles upd_roomFiles app].
  unfold room_files. cbn [fst snd roomFiles upd_roomFiles app].
  rewrite Hfiles. rewrite !get_set_eq, negb_involutive. cbn [default from_option id].
  split; [|by rewrite set_set, (set_get_id files folderPath _ Hnode)].
  clear Hfirst Hnode1. clear first.
  destruct st as [t rs rf ua us sk dk d ts im]. unfold upd_roomFiles.
  cbn [tm rooms roomFiles userActiveFiles userSession sockets disk db timers
       immediates] in *.
  f_equal. rewrite Hfiles, get_set_eq, !set_set.
  rewrite (set_get_id files folderPath _ Hnode).
  by rewrite (set_get_id rf roomCode _ Hfiles).
Qed.

End Frames.

(** ** Creating and editing files *)

Lemma room_node_ensure st roomCode k :
  room_node (upd_roomFiles (λ rf, match Obj.get rf roomCode with
                                  | Some _ => rf
                                  | None => Obj.set roomCode [] rf
                                  end) st) roomCode k
  = room_node st roomCode k.
Proof.
  unfold room_node. simpl.
  destruct (Obj.get (roomFiles st) roomCode) eqn:Hr; [by rewrite Hr|].
  by rewrite get_set_eq.
Qed.

Lemma room_node_upd st roomCode f k :
  is_Some (Obj.get (roomFiles st) roomCode) →
  room_node (upd_roomFiles (λ rf, match Obj.get rf roomCode with
                                  | Some files => Obj.set roomCode (f files) rf
                                  | None => rf
                                  end) st) roomCode k
  = Obj.get (f (room_files st roomCode)) k.
Proof.
  intros [files Hf]. unfold room_node, room_files. simpl. rewrite Hf.
  by rewrite get_set_eq.
Qed.

Lemma is_Some_ensure st roomCode :
  is_Some (Obj.get (roomFiles (upd_roomFiles (λ rf, match Obj.get rf roomCode with
                                  | Some _ => rf
                                  | None => Obj.set roomCode [] rf
                                  end) st)) roomCode).
Proof.
  simpl. destruct (Obj.get (roomFiles st) roomCode) eqn:Hr; [by rewrite Hr|].
  by rewrite get_set_eq.
Qed.

Lemma room_node_after {A} (m : M A) st roomCode k :
  respects (same roomFiles) any_effect m →
  room_node (m st).1.2 roomCode k = room_node st roomCode k.
Proof. intros Hm. unfold room_node. by rewrite (same_final roomFiles m st Hm). Qed.

Lemma split_without c s : contains c s = false → Js.split c s = [s].
Proof.
  unfold contains. pose proof (split_nonempty c s).
  destruct (Js.split c s) as [|h [|h' r]] eqn:Hs; [done| |done].
  intros _. by rewrite (split_single _ _ _ Hs).
Qed.

Section Editing.
Context `{Platform}.

(** create-file on a free path stores a file node there: its extension
    is the text after the last dot of the file name (the whole name when it
    has no dot, [txt] when that text is empty), its content the template
    of that extension, and no other path of the tree changes.  The content
    can be read back at once, and a second create-file of the same path is
    rejected and changes nothing.  The room code, the path and the
    extension are not names inherited from [Object.prototype], for which
    the lookups of the handler and of [getDefaultContent] find the
    inherited value. *)
Theorem create_file_stores_template st sid sid' roomCode fileName parentFolder :
  let fullPath := child_path parentFolder fileName in
  let extension := Js.or_else (Js.pop (Js.split "." fileName)) "txt" in
  let st1 := (step st (FromClient sid (CreateFile roomCode fileName parentFolder))).1 in
  Js.inherited roomCode = false → Js.inherited fullPath = false →
  Js.inherited extension = false →
  room_node st roomCode fullPath = None →
  (∀ k, room_node st1 roomCode k
        = if decide (k = fullPath)
          then Some (FileN (getDefaultContent extension) extension false)
          else room_node st roomCode k) ∧
  (contains "." fileName = false → extension = Js.or_else fileName "txt") ∧
  step st1 (FromClient sid' (GetFileContent roomCode fullPath))
  = (st1, [Callback sid' (ReplyContent (getDefaultContent extension))]) ∧
  step st1 (FromClient sid' (CreateFile roomCode fileName parentFolder))
  = (st1, [Emit (ToSocket sid') (FileError "File already exists")]).
Proof.
  intros fullPath extension st1 _ _ _ Hfree.
  assert (∀ k, room_node st1 roomCode k
               = if decide (k = fullPath)
                 then Some (FileN (getDefaultContent extension) extension false)
                 else room_node st roomCode k) as Hnodes.
  { intros k. subst st1. rewrite step_state.
    unfold dispatch, on_client, on_create_file, ensure_room_files, upd_room_files.
    unfold mbind, M_bind. cbv beta zeta.
    rewrite bind_modify, bind_gets. fold (child_path parentFolder fileName).
    fold fullPath. rewrite room_node_ensure, Hfree. rewrite bind_modify.
    match goal with
    | |- context [(bind ?m ?kk ?s).1.2] =>
        assert (respects (same roomFiles) any_effect (bind m kk)) as Hframe
          by respects_go;
        rewrite (room_node_after (bind m kk) s roomCode k Hframe)
    end.
    rewrite room_node_upd by apply is_Some_ensure.
    rewrite get_set. rewrite <- room_node_files, room_node_ensure.
    by destruct (decide (fullPath = k)), (decide (k = fullPath)). }
  split_and!.
  - exact Hnodes.
  - intros Hdot. unfold extension. by rewrite (split_without _ _ Hdot).
  - run_handler. rewrite Hnodes, decide_True by done. done.
  - run_handler. fold (child_path parentFolder fileName). fold fullPath.
    rewrite room_node_ensure, Hnodes, decide_True by done. simpl.
    f_equal. apply upd_roomFiles_id.
    specialize (Hnodes fullPath). rewrite decide_True in Hnodes by done.
    unfold room_node in Hnodes.
    by destruct (Obj.get (roomFiles st1) roomCode).
Qed.

(** A code-change of a file of the room replaces its content and nothing
    else in the tree; the other members are told, the disk is not written
    in this turn (the write is deferred), and the new content can be read
    back at once. *)
Theorem code_change_then_read st sid sid' roomCode code fileName c e x :
  let first := step st (FromClient sid (CodeChange roomCode code fileName)) in
  Js.truthy fileName = true →
  room_node st roomCode fileName = Some (FileN c e x) →
  (∀ k, room_node first.1 roomCode k
        = if decide (k = fileName) then Some (FileN code e x)
          else room_node st roomCode k) ∧
  first.2 = [Emit (ToChannelExcept roomCode sid) (CodeUpdate code fileName sid)] ∧
  disk first.1 = disk st ∧
  immediates first.1 = immediates st ++ [(roomCode, fileName, code)] ∧
  step first.1 (FromClient sid' (GetFileContent roomCode fileName))
  = (first.1, [Callback sid' (ReplyContent code)]).
Proof.
  intros first Htruthy Hnode. subst first.
  rewrite code_change_step. cbv zeta. rewrite Htruthy. cbv iota.
  rewrite Htruthy, Hnode. cbn [fst snd].
  assert (∀ k, room_node
                 (upd_immediates (λ l, l ++ [(roomCode, fileName, code)])
                    (upd_roomFiles (λ rf,
                       match Obj.get rf roomCode with
                       | Some files =>
                           Obj.set roomCode (Obj.set fileName (FileN code e x) files) rf
                       | None => rf
                       end) st)) roomCode k
               = if decide (k = fileName) then Some (FileN code e x)
                 else room_node st roomCode k) as Hnodes.
  { intros k. unfold room_node in *. simpl.
    destruct (Obj.get (roomFiles st) roomCode) as [files|]; [|done].
    rewrite get_set_eq, get_set.
    by destruct (decide (fileName = k)), (decide (k = fileName)). }
  split_and!; [exact Hnodes|done..|].
  run_handler. rewrite Hnodes, decide_True by done. done.
Qed.

(** After a switch-file to a file of the room, that file is the sender's
    active file (and nobody else's active file has changed), the tree is
    untouched, and a code-change of the sender that names no file is a
    code-change of that file. *)
Theorem switch_then_code_change st sid roomCode fileName c e x code :
  let st1 := (step st (FromClient sid (SwitchFile roomCode fileName))).1 in
  Js.truthy fileName = true →
  room_node st roomCode fileName = Some (FileN c e x) →
  active_file st1 sid = Some fileName ∧
  (∀ u, u ≠ sid → active_file st1 u = active_file st u) ∧
  roomFiles st1 = roomFiles st ∧
  step st1 (FromClient sid (CodeChange roomCode code ""))
  = step st1 (FromClient sid (CodeChange roomCode code fileName)).
Proof.
  intros st1 Htruthy Hnode.
  assert (st1 = upd_userActiveFiles (Obj.set sid fileName) st) as ->.
  { subst st1. run_handler. by rewrite Hnode. }
  unfold active_file. simpl. rewrite get_set_eq. split_and!; [done| |done|].
  - intros u Hu. by rewrite get_set_ne.
  - rewrite !code_change_step. cbv zeta. unfold active_file.
    cbn [userActiveFiles upd_userActiveFiles].
    rewrite get_set_eq, Htruthy. cbn [Js.truthy default from_option id].
    by rewrite Htruthy.
Qed.

End Editing.

(** ** Moving items *)

Section Moving.
Context `{Platform}.

Lemma follow_active_effects roomCode itemPath newItemPath :
  respects (same roomFiles) active_changed_only
    (follow_active roomCode itemPath newItemPath).
Proof. respects_go. Qed.

Lemma copy_loop_effects roomCode old new items : ∀ st files o st' effs,
  Obj.get (roomFiles st) roomCode = Some files →
  forEach items (λ itemPath,
    bind (upd_room_files roomCode
            (copy_node itemPath (rekeyed old new itemPath)))
         (λ _, follow_active roomCode itemPath (rekeyed old new itemPath))) st
  = (o, st', effs) →
  Forall active_changed_only effs ∧
  (o = Done () →
   Obj.get (roomFiles st') roomCode = Some (copy_all old new items files)).
Proof.
  induction items as [|item items IH]; intros st files o st' effs Hfiles Hrun;
    simpl in Hrun.
  - unfold ret in Hrun. simplify_eq. split; [constructor|done].
  - rewrite bind_assoc in Hrun. unfold upd_room_files at 1 in Hrun.
    rewrite bind_modify in Hrun.
    remember (upd_roomFiles _ st) as st1 eqn:Est1.
    assert (Obj.get (roomFiles st1) roomCode
            = Some (copy_node item (rekeyed old new item) files)) as Hst1.
    { subst st1. simpl. rewrite Hfiles. by rewrite get_set_eq. }
    clear Est1.
    destruct (follow_active_effects roomCode item (rekeyed old new item) st1)
      as [Hsame Heff].
    unfold same in Hsame. unfold bind in Hrun.
    destruct (follow_active roomCode item (rekeyed old new item) st1)
      as [[[[]|x] st2] e2]; simpl in Hsame, Heff.
    + rewrite <- Hsame in Hst1.
      match type of Hrun with
      | context [forEach items ?f st2] =>
          destruct (forEach items f st2) as [[o3 st3] e3] eqn:Hrest
      end.
      apply (IH _ _ _ _ _ Hst1) in Hrest as [IH1 IH2].
      simplify_eq. split; [by apply Forall_app|done].
    + simplify_eq. split; [done|by intros [=]].
Qed.

Lemma rekey_folder_effects roomCode old new st files o st' effs :
  Obj.get (roomFiles st) roomCode = Some files →
  rekey_folder roomCode old new st = (o, st', effs) →
  Forall active_changed_only effs ∧
  (o = Done () →
   Obj.get (roomFiles st') roomCode
   = Some (let items := Js.sort (List.filter (at_or_under old) (Obj.keys files)) in
           delete_all items (copy_all old new items files))).
Proof.
  intros Hfiles Hrun.
  unfold rekey_folder, mbind, M_bind in Hrun. cbv beta in Hrun.
  rewrite bind_gets in Hrun. cbv zeta in Hrun.
  assert (room_files st roomCode = files) as Hrf.
  { unfold room_files. by rewrite Hfiles. }
  rewrite Hrf in Hrun. cbv zeta.
  set (items := Js.sort _) in *.
  unfold bind in Hrun.
  match type of Hrun with
  | context [forEach items ?f st] =>
      destruct (forEach items f st) as [[o1 st1] e1] eqn:Hcopy
  end.
  apply (copy_loop_effects _ _ _ _ _ _ _ _ _ Hfiles) in Hcopy as [Hc1 Hc2].
  destruct o1 as [[]|x]; [|simplify_eq; split; [done|by intros [=]]].
  specialize (Hc2 eq_refl).
  destruct (delete_loop_spec roomCode items st1 _ Hc2) as (st2 & Hdel & Hd).
  rewrite Hdel in Hrun. simplify_eq. by rewrite app_nil_r.
Qed.

Lemma move_branch_spec roomCode src dst itemType n st files o st' effs :
  Obj.get (roomFiles st) roomCode = Some files →
  (if bool_decide (itemType = "folder") then rekey_folder roomCode src dst
   else
     bind (upd_room_files roomCode (Obj.set dst n))
       (λ _, bind (upd_room_files roomCode (Obj.delete src))
               (λ _, follow_active roomCode src dst))) st
  = (o, st', effs) →
  Forall active_changed_only effs ∧
  (o = Done () →
   Obj.get (roomFiles st') roomCode = Some (move_tree src dst itemType n files)).
Proof.
  intros Hfiles Hrun. unfold move_tree.
  destruct (bool_decide (itemType = "folder")).
  - by eapply rekey_folder_effects.
  - unfold upd_room_files in Hrun. rewrite !bind_modify in Hrun.
    remember (upd_roomFiles _ (upd_roomFiles _ st)) as st2 eqn:Est2.
    assert (Obj.get (roomFiles st2) roomCode
            = Some (Obj.delete src (Obj.set dst n files))) as Hst2.
    { subst st2. simpl. rewrite Hfiles. by rewrite !get_set_eq. }
    clear Est2.
    destruct (follow_active_effects roomCode src dst st2) as [Hsame Heff].
    unfold same in Hsame. rewrite Hrun in Hsame, Heff. simpl in *.
    split; [done|]. intros _. by rewrite Hsame.
Qed.

Lemma on_move_item_spec st sid roomCode src dst itemType st' effs :
  step st (FromClient sid (MoveItem roomCode src dst itemType)) = (st', effs) →
  Emit (ToChannel roomCode) (ItemMoved src dst itemType) ∈ effs →
  ∃ n, room_node st roomCode src = Some n ∧
       room_node st roomCode dst = None ∧
       room_files st' roomCode = move_tree src dst itemType n (room_files st roomCode).
Proof.
  unfold step, dispatch, on_client, on_move_item, mbind, M_bind, mret, M_ret.
  cbv beta. rewrite bind_gets.
  destruct (room_node st roomCode src) as [n|] eqn:Hsrc; cbv beta iota;
    [|intros [= <- <-] Hin; by apply list_elem_of_singleton in Hin].
  destruct (bool_decide (itemType = "folder") && Js.startsWith dst (src +:+ "/"));
    [intros [= <- <-] Hin; by apply list_elem_of_singleton in Hin|].
  rewrite bind_gets.
  destruct (room_node st roomCode dst) as [n'|] eqn:Hdst; cbv beta iota;
    [intros [= <- <-] Hin; by apply list_elem_of_singleton in Hin|].
  destruct (rename_in_workdir_spec sid roomCode src dst
              "Failed to move item in working directory" st) as [d [Hd|Hd]];
    erewrite bind_Done by exact Hd; cbv beta iota;
    [|simpl; intros [= <- <-] Hin; by apply list_elem_of_singleton in Hin].
  assert (∃ files, Obj.get (roomFiles (upd_disk (λ _, d) st)) roomCode = Some files
                   ∧ room_files st roomCode = files) as (files & Hfiles & Hrf).
  { unfold room_node, room_files in *. simpl.
    destruct (Obj.get (roomFiles st) roomCode); [eauto|done]. }
  unfold bind at 1.
  match goal with
  | |- context [(if bool_decide (itemType = "folder") then ?a else ?b) ?s] =>
      destruct ((if bool_decide (itemType = "folder") then a else b) s)
        as [[o1 st1] e1] eqn:Hbranch
  end.
  apply (move_branch_spec _ _ _ _ _ _ _ _ _ _ Hfiles) in Hbranch as [Hb1 Hb2].
  destruct o1 as [[]|x].
  - specialize (Hb2 eq_refl). rewrite bind_gets. simpl.
    intros [= <- <-] Hin. exists n. split_and!; [done..|].
    unfold room_files at 1. by rewrite Hb2, Hrf.
  - simpl. intros [= <- <-] Hin. exfalso.
    apply elem_of_app in Hin as [Hin|Hin].
    + rewrite Forall_forall in Hb1. by apply Hb1 in Hin.
    + by apply list_elem_of_singleton in Hin.
Qed.


End Moving.

(** Re-keying the subtree at [a] to a free place [b]. *)
Lemma rekey_subtree (files : Files) a b :
  (∀ k, is_Some (Obj.get files k) → at_or_under b k = false) →
  Obj.get files (a +:+ "/") = None →
  let items := Js.sort (List.filter (at_or_under a) (Obj.keys files)) in
  let f1 := delete_all items (copy_all a b items files) in
  (∀ i, at_or_under a i = true → is_Some (Obj.get files i) →
        Obj.get f1 (rekeyed a b i) = Obj.get files i ∧ Obj.get f1 i = None) ∧
  (∀ k, at_or_under a k = false → at_or_under b k = false →
        Obj.get f1 k = Obj.get files k).
Proof.
  intros Hfree Hslash items f1.
  assert (∀ i, i ∈ items ↔ at_or_under a i = true ∧ is_Some (Obj.get files i))
    as Hitems by (intros i; apply elem_of_sorted_items).
  assert (∀ i, i ∈ items → rekeyed b a (rekeyed a b i) = i) as Hback.
  { intros i [Hu Hs]%Hitems. apply rekeyed_back; [done|].
    intros ->. rewrite Hslash in Hs. by destruct Hs. }
  assert (∀ j j', j ∈ items → j' ∈ items → rekeyed a b j ≠ j') as Hfresh.
  { intros j j' [Hu _]%Hitems [_ Hs']%Hitems Heq.
    apply Hfree in Hs'. rewrite <- Heq, at_or_under_rekeyed in Hs'; done. }
  assert (∀ j j', j ∈ items → j' ∈ items →
            rekeyed a b j = rekeyed a b j' → j = j') as Hinj.
  { intros j j' Hj Hj' Heq. rewrite <- (Hback j), <- (Hback j') by done.
    by rewrite Heq. }
  destruct (rekey_facts files a b Hfresh Hinj) as (F1 & F2 & F3).
  split.
  - intros i Hu Hs. assert (i ∈ items) as Hi by (by apply Hitems).
    split; [by apply F1|by apply F2].
  - intros k Ha Hb. apply F3.
    + intros [Hu _]%Hitems. congruence.
    + intros i [Hu _]%Hitems <-. rewrite at_or_under_rekeyed in Hb; done.
Qed.

Section Subtree.
Context `{Platform}.

(** The folder branch shared by rename-item (for a folder node) and
    move-item (for the item type folder), run to its end with nothing at or
    below the new path and no node keyed by the old path followed by a
    slash: every node at or below the old path is found, unchanged, at the
    same place below the new path, its old path is free, and the paths
    outside both subtrees map to what they mapped to.  The new path is not
    a name inherited from [Object.prototype], for which the handler finds
    the new path taken. *)
Theorem folder_subtree_follows st sid roomCode a b st' effs ty i0 :
  Js.inherited b = false →
  (i0 = RenameItem roomCode a b ∧
     (∃ x, room_node st roomCode a = Some (FolderN x)) ∧
     Emit (ToChannel roomCode) (ItemRenamed a b ty) ∈ effs) ∨
  (i0 = MoveItem roomCode a b "folder" ∧
     Emit (ToChannel roomCode) (ItemMoved a b "folder") ∈ effs) →
  step st (FromClient sid i0) = (st', effs) →
  (∀ k, is_Some (room_node st roomCode k) → at_or_under b k = false) →
  room_node st roomCode (a +:+ "/") = None →
  (∀ i, at_or_under a i = true → is_Some (room_node st roomCode i) →
        room_node st' roomCode (rekeyed a b i) = room_node st roomCode i ∧
        room_node st' roomCode i = None) ∧
  (∀ k, at_or_under a k = false → at_or_under b k = false →
        room_node st' roomCode k = room_node st roomCode k).
Proof.
  intros _ Hcase Hstep Hfree Hslash.
  assert (room_files st' roomCode
          = let items := Js.sort (List.filter (at_or_under a)
                                    (Obj.keys (room_files st roomCode))) in
            delete_all items (copy_all a b items (room_files st roomCode))) as Hfiles.
  { destruct Hcase as [(-> & [x Hx] & Hin)|(-> & Hin)].
    - destruct (on_rename_item_spec _ _ _ _ _ _ _ _ Hstep Hin) as (n & Hn & _ & Hf).
      rewrite Hx in Hn. injection Hn as <-. by rewrite Hf.
    - destruct (on_move_item_spec _ _ _ _ _ _ _ _ Hstep Hin) as (n & Hn & _ & Hf).
      rewrite Hf. unfold move_tree. by rewrite bool_decide_eq_true_2. }
  setoid_rewrite room_node_files. rewrite Hfiles.
  apply rekey_subtree.
  - intros k Hk. apply Hfree. by rewrite room_node_files.
  - by rewrite <- room_node_files.
Qed.

End Subtree.

(** ** Deleting items *)

Lemma get_reassigned members new gone :
  gone (Some new) = false →
  ∀ a u, Obj.get (reassigned members new gone a) u
         = if bool_decide (u ∈ members) && gone (Obj.get a u) then Some new
           else Obj.get a u.
Proof.
  intros Hnew. unfold reassigned.
  induction members as [|m ms IH]; intros a u; [done|].
  simpl. rewrite IH.
  destruct (decide (u = m)) as [->|Hne].
  - rewrite (bool_decide_eq_true_2 (m ∈ m :: ms)) by (by left). simpl.
    destruct (gone (Obj.get a m)) eqn:Hg.
    + rewrite get_set_eq, Hnew, andb_false_r. done.
    + rewrite Hg, andb_false_r. done.
  - assert (Obj.get (if gone (Obj.get a m) then Obj.set m new a else a) u = Obj.get a u)
      as ->.
    { destruct (gone (Obj.get a m)); [by rewrite get_set_ne|done]. }
    destruct (decide (u ∈ ms)) as [Hin|Hnin].
    + rewrite !bool_decide_eq_true_2; [done|by right|done].
    + rewrite !bool_decide_eq_false_2; [done| |done].
      intros [?|?]%elem_of_cons; done.
Qed.

Lemma get_delete_items (files : Files) n p k :
  Obj.get files p = Some n →
  Obj.get (delete_all (items_to_delete n p files) files) k
  = if (if is_folder n then at_or_under p k else bool_decide (k = p)) then None
    else Obj.get files k.
Proof.
  intros Hp. rewrite get_delete_all. unfold items_to_delete.
  destruct (is_folder n).
  - destruct (at_or_under p k) eqn:Hu.
    + destruct (Obj.get files k) eqn:Hk.
      * rewrite bool_decide_eq_true_2; [done|].
        apply list_elem_of_In, filter_In. split; [|done].
        apply list_elem_of_In. by eapply get_Some_keys.
      * by destruct (bool_decide _).
    + rewrite bool_decide_eq_false_2; [done|].
      intros [_ Hu']%list_elem_of_In%filter_In. congruence.
  - destruct (decide (k = p)) as [->|Hne].
    + rewrite !bool_decide_eq_true_2; [done..|by left].
    + rewrite !bool_decide_eq_false_2; [done..|].
      by intros ?%list_elem_of_singleton.
Qed.

Section Deleting.
Context `{Platform}.

Lemma reassign_loop_gen (new : string) (gone : option string → bool)
    (body : string → M ()) :
  (∀ m st, ∃ e, body m st
     = (Done (),
        upd_userActiveFiles
          (λ a, if gone (Obj.get a m) then Obj.set m new a else a) st, e)) →
  ∀ members st,
    let r := forEach members body st in
    (∃ u, r.1.1 = Done u) ∧
    userActiveFiles r.1.2 = reassigned members new gone (userActiveFiles st) ∧
    roomFiles r.1.2 = roomFiles st.
Proof.
  intros Hbody. induction members as [|m ms IH]; intros st; simpl forEach.
  { split_and!; [by eexists|done..]. }
  cbv zeta. destruct (Hbody m st) as [e He].
  destruct (IH (upd_userActiveFiles
                  (λ a, if gone (Obj.get a m) then Obj.set m new a else a) st))
    as ([u Hu] & Ha & Hf).
  unfold bind. rewrite He.
  match goal with |- context [forEach ms body ?s] =>
    destruct (forEach ms body s) as [[o s'] e'] end.
  simpl in *. split_and!; [by eexists|done|done].
Qed.

Lemma reassign_loop (roomCode new : string) (gone : option string → bool)
    (members : list string) : ∀ st,
  let r :=
    forEach members (λ userId,
      bind (gets (λ st, active_file st userId)) (λ cur,
        if gone cur then
          bind (modify (upd_userActiveFiles (Obj.set userId new))) (λ _,
          bind (gets (λ st, room_node st roomCode new)) (λ node,
          bind (emit (ToChannel userId)
                  (FileContentUpdate new (default "" (node ≫= node_content)))) (λ _,
            emit (ToChannel userId) (ActiveFileChanged new))))
        else ret ())) st in
  (∃ u, r.1.1 = Done u) ∧
  userActiveFiles r.1.2 = reassigned members new gone (userActiveFiles st) ∧
  roomFiles r.1.2 = roomFiles st.
Proof.
  apply reassign_loop_gen. intros m st.
  rewrite bind_gets. unfold active_file.
  destruct (gone (Obj.get (userActiveFiles st) m)) eqn:Hg.
  - rewrite bind_modify, bind_gets. unfold emit, bind, effect. simpl.
    eexists. f_equal. f_equal. unfold upd_userActiveFiles. simpl. by rewrite Hg.
  - exists []. unfold ret. f_equal. f_equal. destruct st. unfold upd_userActiveFiles.
    simpl in *. by rewrite Hg.
Qed.

Lemma reassign_active_spec (roomCode new : string) (gone : option string → bool)
    (members : list string) st :
  Obj.get (rooms st) roomCode = Some members →
  ∃ st' effs,
    reassign_active roomCode new gone st = (Done (), st', effs) ∧
    userActiveFiles st' = reassigned members new gone (userActiveFiles st) ∧
    roomFiles st' = roomFiles st.
Proof.
  intros Hm. unfold reassign_active, mbind, M_bind, mret, M_ret. cbv beta.
  rewrite (bind_room_members _ _ _ _ Hm).
  match goal with
  | |- ∃ st' effs, ?run = _ ∧ _ =>
      assert ((∃ u, run.1.1 = Done u) ∧
              userActiveFiles run.1.2
              = reassigned members new gone (userActiveFiles st) ∧
              roomFiles run.1.2 = roomFiles st) as Hloop
        by exact (reassign_loop roomCode new gone members st);
      destruct run as [[o s'] e']
  end.
  simpl in Hloop. destruct Hloop as ([[] ->] & Ha & Hf).
  exists s', e'. by split_and!.
Qed.

Lemma delete_loop_frame roomCode items :
  respects (same (λ st, (userActiveFiles st, rooms st))) any_effect
    (forEach items (λ item, upd_room_files roomCode (Obj.delete item))).
Proof. respects_go. Qed.

(** What delete-item does when it is not rejected, up to the point where
    the tree has its final value. *)
Lemma on_delete_item_tree st sid roomCode itemPath n :
  room_node st roomCode itemPath = Some n →
  (is_file n = true → 1 < length (file_keys (room_files st roomCode))) →
  ∃ st2 (rest : M ()),
    (on_delete_item sid roomCode itemPath st).1.2 = (rest st2).1.2 ∧
    Obj.get (roomFiles st2) roomCode
    = Some (delete_all (items_to_delete n itemPath (room_files st roomCode))
              (room_files st roomCode)) ∧
    userActiveFiles st2 = userActiveFiles st ∧ rooms st2 = rooms st ∧
    rest =
      bind (gets (λ st, active_file st sid)) (λ own,
      bind (if is_file n
               || among (items_to_delete n itemPath (room_files st roomCode)) own
            then
              bind (gets (λ st, room_files st roomCode)) (λ files,
                match file_keys files with
                | newActiveFile :: _ =>
                    reassign_active roomCode newActiveFile
                      (among (items_to_delete n itemPath (room_files st roomCode)))
                | [] => ret ()
                end)
            else ret ()) (λ _,
      bind (gets (λ st, room_files st roomCode)) (λ files,
      bind (emit (ToChannel roomCode) (FilesUpdate files)) (λ _,
        emit (ToChannel roomCode) (ItemDeleted itemPath (node_type n)))))).
Proof.
  intros Hnode Hcount.
  unfold on_delete_item, mbind, M_bind, mret, M_ret. cbv beta.
  rewrite bind_gets, Hnode. cbv beta iota zeta. rewrite bind_gets.
  assert (is_file n && (length (file_keys (room_files st roomCode)) <=? 1)%nat = false)
    as ->.
  { destruct (is_file n); [|done]. simpl. apply Nat.leb_gt. by apply Hcount. }
  cbv iota. unfold getWorkingDirectory. rewrite bind_gets.
  fold (items_to_delete n itemPath (room_files st roomCode)).
  set (items := items_to_delete n itemPath (room_files st roomCode)).
  assert (∃ d, (match Obj.get (sharedWorkingDirectories (tm st)) roomCode with
                | Some (String _ _ as workDir0) => delete_from_workdir workDir0 items
                | _ => ret ()
                end) st = (Done (), upd_disk (λ _, d) st, [])) as [d Hd].
  { destruct (Obj.get _ roomCode) as [[|]|];
      [exists (disk st); by rewrite upd_disk_id
      |apply delete_from_workdir_spec
      |exists (disk st); by rewrite upd_disk_id]. }
  erewrite bind_Done_state by exact Hd.
  assert (∃ files, Obj.get (roomFiles st) roomCode = Some files ∧
                   room_files st roomCode = files) as (files & Hfiles & Hrf).
  { unfold room_node, room_files in *.
    destruct (Obj.get (roomFiles st) roomCode); [eauto|done]. }
  destruct (delete_loop_spec roomCode items (upd_disk (λ _, d) st) files Hfiles)
    as (st2 & Hrun2 & Hget2).
  pose proof (same_final _ _ (upd_disk (λ _, d) st) (delete_loop_frame roomCode items))
    as Hframe.
  rewrite Hrun2 in Hframe. cbv beta in Hframe. simpl in Hframe.
  apply pair_equal_spec in Hframe as [Hact Hrooms].
  erewrite bind_Done_state by exact Hrun2.
  eexists st2, _. split_and!; [reflexivity|by rewrite Hrf|done|done|reflexivity].
Qed.

(** A delete-item that is not rejected removes from the tree the node at
    the path and, for a folder, every node below it; every other path maps
    to what it mapped to. *)
Theorem delete_item_removes st sid roomCode itemPath n :
  room_node st roomCode itemPath = Some n →
  (is_file n = true → 1 < length (file_keys (room_files st roomCode))) →
  ∀ k, room_node (step st (FromClient sid (DeleteItem roomCode itemPath))).1 roomCode k
       = if (if is_folder n then at_or_under itemPath k else bool_decide (k = itemPath))
         then None
         else room_node st roomCode k.
Proof.
  intros Hnode Hcount k. rewrite step_state. unfold dispatch, on_client.
  destruct (on_delete_item_tree st sid roomCode itemPath n Hnode Hcount)
    as (st2 & rest & -> & Hfiles & _ & _ & ->).
  rewrite room_node_after by respects_go.
  unfold room_node at 1. rewrite Hfiles.
  rewrite room_node_files in Hnode.
  by rewrite (get_delete_items _ _ _ _ Hnode), room_node_files.
Qed.

(** The active files after a delete-item that is not rejected, in a room
    with a member list.  When the deleted node is a file, or when the
    requester's own active file is among the deleted paths, every member
    whose active file is among the deleted paths gets the first file left
    in the tree as its active file; nobody else's active file changes.  In
    the other cases (a folder deleted while the requester looks at a file
    outside it, or no file left) no active file changes, even one that is
    among the deleted paths.  The keys of the tree are
    enumerated in insertion order. *)
Theorem delete_item_moves_active_files st sid roomCode itemPath n members :
  insertion_ordered (room_files st roomCode) = true →
  room_node st roomCode itemPath = Some n →
  (is_file n = true → 1 < length (file_keys (room_files st roomCode))) →
  Obj.get (rooms st) roomCode = Some members →
  let st' := (step st (FromClient sid (DeleteItem roomCode itemPath))).1 in
  let deleted := among (items_to_delete n itemPath (room_files st roomCode)) in
  match file_keys (room_files st' roomCode) with
  | newActiveFile :: _ =>
      if is_file n || deleted (active_file st sid) then
        ∀ u, active_file st' u
             = if bool_decide (u ∈ members) && deleted (active_file st u)
               then Some newActiveFile else active_file st u
      else userActiveFiles st' = userActiveFiles st
  | [] => userActiveFiles st' = userActiveFiles st
  end.
Proof.
  intros _ Hnode Hcount Hmembers st' deleted.
  assert (room_files st' roomCode
          = delete_all (items_to_delete n itemPath (room_files st roomCode))
              (room_files st roomCode)) as Hfiles'.
  { subst st'. rewrite step_state. unfold dispatch, on_client.
    destruct (on_delete_item_tree st sid roomCode itemPath n Hnode Hcount)
      as (st2 & rest & -> & Hfiles & _ & _ & ->).
    unfold room_files at 1.
    match goal with |- context [(?m st2).1.2] =>
      rewrite (same_final roomFiles m st2) by respects_go end.
    by rewrite Hfiles. }
  rewrite Hfiles'. subst st'. rewrite step_state. unfold dispatch, on_client.
  destruct (on_delete_item_tree st sid roomCode itemPath n Hnode Hcount)
    as (st2 & rest & -> & Hfiles & Hact & Hrooms & ->).
  rewrite bind_gets.
  assert (active_file st2 sid = active_file st sid) as ->
    by (unfold active_file; by rewrite Hact).
  fold deleted.
  set (remaining := delete_all _ _) in *.
  assert (room_files st2 roomCode = remaining) as Hrf2.
  { unfold room_files. by rewrite Hfiles. }
  destruct (is_file n || deleted (active_file st sid)) eqn:Hcond.
  - rewrite bind_assoc, bind_gets, Hrf2.
    destruct (file_keys remaining) as [|new rest] eqn:Hkeys.
    + rewrite bind_ret, bind_gets. unfold emit.
      rewrite !state_of_effect. simpl. done.
    + rewrite <- Hrooms in Hmembers.
      destruct (reassign_active_spec roomCode new deleted members st2 Hmembers)
        as (st3 & effs & Hrun & Hact3 & Hrf3).
      erewrite bind_Done_state by exact Hrun.
      rewrite bind_gets. unfold emit. rewrite !state_of_effect. simpl.
      intros u. unfold active_file. rewrite Hact3, Hact.
      apply get_reassigned.
      assert (new ∈ file_keys remaining) as Hin by (rewrite Hkeys; by left).
      unfold file_keys in Hin. apply list_elem_of_In, filter_In in Hin as [Hin _].
      apply list_elem_of_In, keys_get_Some in Hin as [v Hv].
      unfold remaining in Hv. rewrite get_delete_all in Hv.
      unfold deleted, among, Js.includes.
      destruct (bool_decide (new ∈ _)); done.
  - rewrite bind_ret, bind_gets. unfold emit. rewrite !state_of_effect. simpl.
    by destruct (file_keys remaining).
Qed.

End Deleting.

(** ** The watcher's syncs and the disk write *)

Lemma app_empty_r s : s +:+ "" = s.
Proof. induction s as [|a s IH]; [done|]. rewrite app_cons. by rewrite IH. Qed.

Lemma rev_app_rev_app a : ∀ b c,
  String.rev_app (String.rev_app a b) c = String.rev_app b (a +:+ c).
Proof.
  induction a as [|x a IH]; intros b c; [done|].
  simpl String.rev_app at 2. rewrite IH. by rewrite app_cons.
Qed.

Lemma rev_involutive s : String.rev (String.rev s) = s.
Proof. unfold String.rev. rewrite rev_app_rev_app. simpl. apply app_empty_r. Qed.

Lemma strip_no_trailing_slash p :
  Js.endsWith p "/" = false → Path.strip_trailing_slashes p = p.
Proof.
  unfold Js.endsWith, Path.strip_trailing_slashes. intros Hp.
  change (String.rev "/") with "/" in Hp.
  destruct (String.rev p) as [|b t] eqn:Hrev.
  - by rewrite <- Hrev, rev_involutive.
  - cbn -[ascii_dec] in Hp. destruct (ascii_dec "/" b) as [<-|Hne].
    + by destruct t.
    + rewrite <- (rev_involutive p), Hrev. f_equal.
      destruct b as [[] [] [] [] [] [] [] []]; done.
Qed.

Lemma write_then_read d p c d' :
  Fs.writeFileSync d p c = Some d' → Fs.readFileSync d' p = Some c.
Proof.
  unfold Fs.writeFileSync, Fs.readFileSync.
  destruct (Js.endsWith p "/") eqn:Hend; [done|].
  destruct (Fs.is_dir d (Path.dirname p)); [|done].
  unfold Fs.lookup. rewrite (strip_no_trailing_slash _ Hend), Hend.
  destruct (bool_decide (p = "") || bool_decide (p = Fs.tmpdir)); [done|].
  destruct (d !! p) as [[c0|]|] eqn:Hd; intros [= <-];
    by rewrite lookup_insert_eq.
Qed.

Lemma get_delete_under (files : Files) p k :
  Obj.get (delete_all (List.filter (at_or_under p) (Obj.keys files)) files) k
  = if at_or_under p k then None else Obj.get files k.
Proof.
  rewrite get_delete_all.
  destruct (at_or_under p k) eqn:Hu.
  - destruct (Obj.get files k) eqn:Hk.
    + rewrite bool_decide_eq_true_2; [done|].
      apply list_elem_of_In, filter_In. split; [|done].
      apply list_elem_of_In. by eapply get_Some_keys.
    + by destruct (bool_decide _).
  - rewrite bool_decide_eq_false_2; [done|].
    intros [_ Hu']%list_elem_of_In%filter_In. congruence.
Qed.

Section Watching.
Context `{Platform}.

(** When the watcher of a room reports that a directory is gone, the
    node at that path and every node below it leave the tree, whatever
    their type, and every other path maps to what it mapped to.  The
    active files are not looked at: a user whose active file was below the
    directory keeps it as active file. *)
Theorem unlink_dir_removes_subtree st roomCode relativePath :
  roomCode ∈ fileWatchers (tm st) →
  Js.truthy relativePath = true → relativePath ≠ "." →
  let res := step st (Watcher roomCode (WUnlinkDir relativePath)) in
  (∀ k, room_node res.1 roomCode k
        = if at_or_under relativePath k then None else room_node st roomCode k) ∧
  userActiveFiles res.1 = userActiveFiles st ∧
  (is_Some (Obj.get (roomFiles st) roomCode) →
   res.2 = [Emit (ToChannel roomCode) (FilesUpdate (room_files res.1 roomCode));
            Emit (ToChannel roomCode) (ItemDeleted relativePath "folder")]).
Proof.
  intros Hw Htruthy Hdot res. subst res.
  unfold step, dispatch, on_watcher, mbind, M_bind, mret, M_ret. cbv beta.
  rewrite bind_gets, bool_decide_eq_true_2 by done. cbv beta iota zeta.
  rewrite Htruthy, bool_decide_eq_false_2 by done. cbn [andb negb].
  unfold removeFolderFromRoomFiles, mbind, M_bind, mret, M_ret. cbv beta.
  rewrite bind_gets.
  destruct (Obj.get (roomFiles st) roomCode) as [files|] eqn:Hfiles.
  - destruct (delete_loop_spec roomCode
                (List.filter (at_or_under relativePath) (Obj.keys files)) st files Hfiles)
      as (st2 & Hrun & Hget).
    pose proof (same_final _ _ st (delete_loop_frame roomCode
                  (List.filter (at_or_under relativePath) (Obj.keys files)))) as Hframe.
    rewrite Hrun in Hframe. cbv beta in Hframe. simpl in Hframe.
    apply pair_equal_spec in Hframe as [Hact _].
    erewrite bind_Done by exact Hrun. rewrite bind_gets. unfold emit, bind, effect.
    simpl. split_and!; [|done|done].
    intros k. unfold room_node. rewrite Hget, Hfiles. apply get_delete_under.
  - simpl. split_and!; [|done|by intros [? ?]].
    intros k. unfold room_node. rewrite Hfiles. by destruct (at_or_under _ _).
Qed.

Lemma sync_file_run st roomCode fileName filePath :
  sync_key "terminal" roomCode fileName ∉ fileSyncInProgress (tm st) →
  let key := sync_key "terminal" roomCode fileName in
  let st0 := upd_tm (upd_fileSyncInProgress (λ s, {[key]} ∪ s)) st in
  let ensured := upd_roomFiles (λ rf, match Obj.get rf roomCode with
                                      | Some _ => rf
                                      | None => Obj.set roomCode [] rf
                                      end) st0 in
  let current := default "" (room_node st roomCode fileName ≫= node_content) in
  syncFileFromTerminalToRoom roomCode fileName filePath st
  = match Fs.readFileSync (disk st) filePath with
    | None => (Done (), upd_timers (λ l, l ++ [TClearSync key]) st0, [])
    | Some content =>
        if bool_decide (current = content) then
          (Done (), upd_timers (λ l, l ++ [TClearSync key]) ensured, [])
        else
          let st2 := upd_roomFiles (λ rf,
                       match Obj.get rf roomCode with
                       | Some files =>
                           Obj.set roomCode
                             (Obj.set fileName
                                (FileN content (synced_extension fileName) false)
                                files) rf
                       | None => rf
                       end) ensured in
          (Done (), upd_timers (λ l, l ++ [TClearSync key]) st2,
           [Emit (ToChannel roomCode) (FilesUpdate (room_files st2 roomCode));
            Emit (ToChannel roomCode) (FileSynced fileName content)])
    end.
Proof.
  intros Htok key st0 ensured current.
  unfold syncFileFromTerminalToRoom, mbind, M_bind, mret, M_ret. cbv beta zeta.
  fold key. fold (synced_extension fileName).
  rewrite bind_gets, bool_decide_eq_false_2 by done. cbv iota.
  rewrite bind_modify. fold st0.
  unfold try_finally, try_catch, setTimeout, modify.
  assert (disk st0 = disk st) as Hdisk by done.
  destruct (Fs.readFileSync (disk st) filePath) as [content|] eqn:Hread.
  - erewrite bind_Done by (unfold fs_read; rewrite Hdisk, Hread; reflexivity).
    unfold ensure_room_files. rewrite bind_modify. fold ensured.
    rewrite bind_gets.
    assert (room_node ensured roomCode fileName = room_node st roomCode fileName)
      as -> by apply (room_node_ensure st0).
    change (default "" (option_bind _ _ node_content
                          (room_node st roomCode fileName))) with current.
    destruct (bool_decide (current = content)); [done|].
    unfold upd_room_files. rewrite bind_modify, bind_gets. done.
  - erewrite bind_Raise by (unfold fs_read; rewrite Hdisk, Hread; reflexivity).
    done.
Qed.

(** What the sync from the shell does with a file the watcher reports
    as added or changed, when no terminal token is held for it.  If the
    file cannot be read, or its content is the content the tree already has
    at that path (the empty content when the tree has no file there), the
    tree is left alone and nothing is sent: in particular an empty new file
    is not added, and a write the server made for an editor change is not
    echoed.  Otherwise the path gets a file node with the content read, an
    extension derived from the name and the expansion flag off, and the room
    is told.  The room code and the path are not names inherited from
    [Object.prototype]. *)
Theorem terminal_sync_outcome st roomCode relativePath e :
  Js.inherited roomCode = false → Js.inherited relativePath = false →
  e = WAdd relativePath ∨ e = WChange relativePath →
  roomCode ∈ fileWatchers (tm st) →
  sync_key "terminal" roomCode relativePath ∉ fileSyncInProgress (tm st) →
  let res := step st (Watcher roomCode e) in
  let current := default "" (room_node st roomCode relativePath ≫= node_content) in
  match Fs.readFileSync (disk st) (watched_path roomCode relativePath) with
  | Some content =>
      if bool_decide (current = content) then
        res.2 = [] ∧ ∀ k, room_node res.1 roomCode k = room_node st roomCode k
      else
        (∀ k, room_node res.1 roomCode k
              = if decide (k = relativePath)
                then Some (FileN content (synced_extension relativePath) false)
                else room_node st roomCode k) ∧
        res.2 = [Emit (ToChannel roomCode) (FilesUpdate (room_files res.1 roomCode));
                 Emit (ToChannel roomCode) (FileSynced relativePath content)]
  | None =>
      res.2 = [] ∧ ∀ k, room_node res.1 roomCode k = room_node st roomCode k
  end.
Proof.
  intros _ _ He Hw Htok res current.
  assert (res = step st (Watcher roomCode (WAdd relativePath))) as ->.
  { subst res. by destruct He as [-> | ->]. }
  clear He.
  unfold step, dispatch, on_watcher, mbind, M_bind, mret, M_ret. cbv beta.
  rewrite bind_gets, bool_decide_eq_true_2 by done. cbv beta iota zeta.
  fold (watched_path roomCode relativePath).
  rewrite (sync_file_run st roomCode relativePath _ Htok). cbv zeta. fold current.
  destruct (Fs.readFileSync (disk st) (watched_path roomCode relativePath))
    as [content|]; [|by split].
  destruct (bool_decide (current = content)).
  - cbn [fst snd]. split; [done|]. intros k.
    apply (room_node_ensure (upd_tm _ st)).
  - cbn [fst snd]. split; [|done]. intros k.
    match goal with |- room_node (upd_timers _ ?s) _ _ = _ =>
      change (room_node s roomCode k = if decide (k = relativePath)
                then Some (FileN content (synced_extension relativePath) false)
                else room_node st roomCode k) end.
    rewrite room_node_upd by apply is_Some_ensure.
    rewrite get_set, <- room_node_files.
    rewrite (room_node_ensure (upd_tm _ st)).
    by destruct (decide (relativePath = k)), (decide (k = relativePath)).
Qed.

(** The editor-to-disk write, when no editor token is held for the path
    and the room has a working directory: if it reports success, the file
    of that name in the working directory holds the content. *)
Theorem writeFileToWorkingDir_writes st roomCode fileName content workDir :
  sync_key "editor" roomCode fileName ∉ fileSyncInProgress (tm st) →
  Obj.get (sharedWorkingDirectories (tm st)) roomCode = Some workDir →
  workDir ≠ "" →
  let res := writeFileToWorkingDir roomCode fileName content st in
  res.1.1 = Done true →
  Fs.readFileSync (disk res.1.2) (Path.join workDir fileName) = Some content.
Proof.
  intros Htok Hwd Hne res. subst res.
  unfold writeFileToWorkingDir. cbv zeta.
  unfold mbind, M_bind, mret, M_ret. cbv beta.
  rewrite bind_gets, bool_decide_eq_false_2 by done. cbv iota.
  rewrite bind_modify, bind_gets.
  cbn [sharedWorkingDirectories tm upd_tm upd_fileSyncInProgress].
  rewrite Hwd. destruct workDir as [|c w]; [done|]. cbv beta iota.
  unfold try_finally, setTimeout, modify, write_if_changed, try_catch, existsSync,
    fs_read, fs_write.
  unfold mbind, M_bind, mret, M_ret, bind, gets, ret. cbn [disk upd_tm upd_disk].
  set (filePath := Path.join (String c w) fileName).
  destruct (Fs.existsSync (disk st) (Path.dirname filePath)); cbn [disk upd_tm upd_disk].
  - destruct (Fs.existsSync (disk st) filePath) eqn:Hex; cbn [disk upd_tm upd_disk].
    + destruct (Fs.readFileSync (disk st) filePath) as [cur|] eqn:Hread;
        cbn [disk upd_tm upd_disk]; [|done].
      destruct (bool_decide (cur = content)) eqn:Hcur; cbn [negb disk upd_tm upd_disk].
      * intros _. apply bool_decide_eq_true in Hcur. by subst.
      * destruct (Fs.writeFileSync (disk st) filePath content) as [d'|] eqn:Hwrite;
          cbn [disk upd_tm upd_disk upd_timers]; [|done].
        intros _. by eapply write_then_read.
    + destruct (Fs.writeFileSync (disk st) filePath content) as [d'|] eqn:Hwrite;
        cbn [disk upd_tm upd_disk upd_timers]; [|done].
      intros _. by eapply write_then_read.
  - destruct (Fs.mkdirSync (disk st) (Path.dirname filePath)) as [d1|] eqn:Hmk;
      cbn [disk upd_tm upd_disk]; [|done].
    destruct (Fs.existsSync d1 filePath) eqn:Hex; cbn [disk upd_tm upd_disk].
    + destruct (Fs.readFileSync d1 filePath) as [cur|] eqn:Hread;
        cbn [disk upd_tm upd_disk]; [|done].
      destruct (bool_decide (cur = content)) eqn:Hcur; cbn [negb disk upd_tm upd_disk].
      * intros _. apply bool_decide_eq_true in Hcur. by subst.
      * destruct (Fs.writeFileSync d1 filePath content) as [d'|] eqn:Hwrite;
          cbn [disk upd_tm upd_disk upd_timers]; [|done].
        intros _. by eapply write_then_read.
    + destruct (Fs.writeFileSync d1 filePath content) as [d'|] eqn:Hwrite;
        cbn [disk upd_tm upd_disk upd_timers]; [|done].
      intros _. by eapply write_then_read.
Qed.

End Watching.

(** ** Exceptions that escape a handler *)

Section ReturnsIn.
Context (S : State → Prop).




End ReturnsIn.



Section Throwing.
Context `{Platform}.








End Throwing.

(** ** Creating and joining rooms *)

Section Rooms.
Context `{Platform}.

Lemma create_room_state st sid username password code :
  Obj.get (db st) code = None →
  let st' := (step st (FromClient sid (CreateRoom username password code))).1 in
  db st' = Obj.set code (bcrypt_hash password) (db st) ∧
  rooms st' = Obj.set code [sid] (rooms st) ∧
  roomFiles st' = Obj.set code getDefaultFiles (roomFiles st) ∧
  userActiveFiles st' = Obj.set sid "main.js" (userActiveFiles st).
Proof.
  intros Hdb st'. subst st'. rewrite step_state.
  unfold dispatch, on_client, on_create_room.
  rewrite try_catch_effect_state by done.
  unfold mbind, M_bind, mret, M_ret. cbv beta zeta.
  rewrite bind_gets. unfold Obj.has. rewrite Hdb. cbv iota.
  rewrite !bind_modify.
  unfold set_active, socket_join, socket_identify, emit.
  rewrite !bind_modify.
  match goal with
  | |- context [(bind ?m ?k ?s).1.2] =>
      assert (respects (same (λ st, (rooms st, roomFiles st, userActiveFiles st, db st)))
                any_effect (bind m k)) as Hframe by respects_go;
      pose proof (same_final _ (bind m k) s Hframe) as Hs
  end.
  cbv beta in Hs.
  apply pair_equal_spec in Hs as [[[Hr Hf]%pair_equal_spec Ha]%pair_equal_spec Hd].
  by rewrite Hr, Hf, Ha, Hd.
Qed.

Lemma join_room_state st sid username roomCode password hash members files :
  Obj.get (db st) roomCode = Some hash →
  bcrypt_compare password hash = true →
  Obj.get (rooms st) roomCode = Some members →
  sid ∉ members →
  Obj.get (roomFiles st) roomCode = Some files →
  let st' := (step st (FromClient sid (JoinRoom username roomCode password))).1 in
  rooms st' = Obj.set roomCode (members ++ [sid]) (rooms st) ∧
  roomFiles st' = roomFiles st ∧
  userActiveFiles st'
  = match head (file_keys files) with
    | Some f => Obj.set sid f (userActiveFiles st)
    | None => Obj.delete sid (userActiveFiles st)
    end ∧
  db st' = db st.
Proof.
  intros Hdb Hpw Hr Hsid Hf st'. subst st'. rewrite step_state.
  unfold dispatch, on_client, on_join_room.
  rewrite try_catch_effect_state by done.
  unfold mbind, M_bind, mret, M_ret. cbv beta.
  rewrite bind_gets, Hdb, Hpw. cbv beta iota. change (negb true) with false. cbv iota.
  rewrite bind_modify, bind_gets.
  unfold Obj.has. cbn [rooms upd_userSession]. rewrite Hr. cbv iota.
  rewrite bind_ret.
  erewrite bind_room_members by exact Hr.
  unfold Js.includes. rewrite bool_decide_eq_false_2 by done.
  rewrite bind_modify.
  unfold socket_join, socket_identify. rewrite !bind_modify.
  erewrite bind_Done_state
    by (unfold room_files_strict;
        cbn [roomFiles upd_sockets upd_rooms upd_userSession];
        rewrite Hf; reflexivity).
  cbv beta iota zeta. unfold set_active. rewrite bind_modify.
  match goal with
  | |- context [(bind ?m ?k ?s).1.2] =>
      assert (respects (same (λ st, (rooms st, roomFiles st, userActiveFiles st, db st)))
                any_effect (bind m k)) as Hframe by respects_go;
      pose proof (same_final _ (bind m k) s Hframe) as Hs
  end.
  cbv beta in Hs.
  apply pair_equal_spec in Hs as [[[Hr' Hf']%pair_equal_spec Ha]%pair_equal_spec Hd].
  simpl. rewrite Hr', Hf', Ha, Hd. by destruct (head (file_keys files)).
Qed.

(** A create-room request whose code is not taken registers the hash of
    the password under the code and creates the room in memory: the
    creator is its only member, its tree is the default one and the
    creator's active file is main.js.  This holds also when the shell of
    the creator cannot be started.  The code is not a name inherited from
    [Object.prototype]. *)
Theorem create_room_fresh st sid username password code :
  Js.inherited code = false →
  Obj.get (db st) code = None →
  let st' := (step st (FromClient sid (CreateRoom username password code))).1 in
  Obj.get (db st') code = Some (bcrypt_hash password) ∧
  Obj.get (rooms st') code = Some [sid] ∧
  Obj.get (roomFiles st') code = Some getDefaultFiles ∧
  active_file st' sid = Some "main.js".
Proof.
  intros _ Hdb st'. subst st'. rewrite step_state.
  unfold dispatch, on_client, on_create_room.
  rewrite try_catch_effect_state by done.
  unfold mbind, M_bind, mret, M_ret. cbv beta zeta.
  rewrite bind_gets. unfold Obj.has. rewrite Hdb. cbv iota.
  rewrite !bind_modify.
  unfold set_active, socket_join, socket_identify, emit.
  rewrite !bind_modify.
  match goal with
  | |- context [(bind ?m ?k ?s).1.2] =>
      assert (respects (same (λ st, (rooms st, roomFiles st, userActiveFiles st, db st)))
                any_effect (bind m k)) as Hframe by respects_go;
      pose proof (same_final _ (bind m k) s Hframe) as Hs
  end.
  cbv beta in Hs.
  apply pair_equal_spec in Hs as [[[Hr Hf]%pair_equal_spec Ha]%pair_equal_spec Hd].
  unfold active_file. rewrite Hr, Hf, Ha, Hd. simpl.
  by rewrite !get_set_eq.
Qed.

(** A create-room request whose code is taken is answered with the
    failure and changes nothing: the room that has the code keeps its
    password, its members and its tree. *)
Theorem create_room_taken_code st sid username password code hash :
  Obj.get (db st) code = Some hash →
  step st (FromClient sid (CreateRoom username password code))
  = (st, [Callback sid (ReplyFailure "Failed to create room")]).
Proof.
  intros Hdb. unfold step, dispatch, on_client, on_create_room, try_catch.
  unfold mbind, M_bind, mret, M_ret. cbv beta zeta.
  rewrite bind_gets. unfold Obj.has. rewrite Hdb. cbv iota.
  unfold bind at 1. unfold bind at 1. done.
Qed.

(** A join, with the right password, of a room that is in memory by a
    socket that is not among its members appends the socket to the
    members, leaves the tree and the registered rooms alone and makes the
    first file of the tree the active file of the joining user, or no file
    when the tree has none.  The other users keep their active files.
    This holds also when the reply is the failure of the shell.  The keys
    of the tree are enumerated in insertion order. *)
Theorem join_room_adds_member st sid username roomCode password hash members files :
  insertion_ordered files = true →
  Obj.get (db st) roomCode = Some hash →
  bcrypt_compare password hash = true →
  Obj.get (rooms st) roomCode = Some members →
  sid ∉ members →
  Obj.get (roomFiles st) roomCode = Some files →
  let st' := (step st (FromClient sid (JoinRoom username roomCode password))).1 in
  Obj.get (rooms st') roomCode = Some (members ++ [sid]) ∧
  roomFiles st' = roomFiles st ∧ db st' = db st ∧
  active_file st' sid = head (file_keys files) ∧
  ∀ u, u ≠ sid → active_file st' u = active_file st u.
Proof.
  intros _ Hdb Hpw Hr Hsid Hf st'.
  destruct (join_room_state st sid username roomCode password hash members files
              Hdb Hpw Hr Hsid Hf) as (Hr' & Hf' & Ha & Hd).
  fold st' in Hr', Hf', Ha, Hd.
  unfold active_file. rewrite Hr', Hf', Ha, Hd, get_set_eq.
  split_and!; [done..| |].
  - destruct (head (file_keys files)); [apply get_set_eq|apply get_delete_eq].
  - intros u Hu. destruct (head (file_keys files));
      [by apply get_set_ne|by apply get_delete_ne].
Qed.

(** A room that has just been created can be joined with the password it
    was created with, when the platform's [compare] accepts a password
    against its own hash: the room then has the creator and the joining
    user as its members, in this order, the default tree, and main.js is
    the active file of both.  The code is not a name inherited from
    [Object.prototype]. *)
Theorem create_room_then_join st creator joiner u1 u2 password code :
  Js.inherited code = false →
  Obj.get (db st) code = None →
  bcrypt_compare password (bcrypt_hash password) = true →
  joiner ≠ creator →
  let st1 := (step st (FromClient creator (CreateRoom u1 password code))).1 in
  let st2 := (step st1 (FromClient joiner (JoinRoom u2 code password))).1 in
  Obj.get (rooms st2) code = Some [creator; joiner] ∧
  Obj.get (roomFiles st2) code = Some getDefaultFiles ∧
  active_file st2 creator = Some "main.js" ∧
  active_file st2 joiner = Some "main.js".
Proof.
  intros _ Hdb Hpw Hne st1 st2.
  destruct (create_room_state st creator u1 password code Hdb) as (Hd1 & Hr1 & Hf1 & Ha1).
  fold st1 in Hd1, Hr1, Hf1, Ha1.
  destruct (join_room_state st1 joiner u2 code password (bcrypt_hash password)
              [creator] getDefaultFiles) as (Hr2 & Hf2 & Ha2 & _).
  - by rewrite Hd1, get_set_eq.
  - done.
  - by rewrite Hr1, get_set_eq.
  - by intros ->%list_elem_of_singleton.
  - by rewrite Hf1, get_set_eq.
  - fold st2 in Hr2, Hf2, Ha2. unfold active_file.
    rewrite Hr2, Hf2, Ha2, Hf1, Ha1. simpl.
    rewrite !get_set_eq, get_set_ne by done. by rewrite get_set_eq.
Qed.

End Rooms.

(** ** The watcher's removal of a file *)

Section Unlink.
Context `{Platform}.

(** When the watcher of a room reports that a file is gone, the node at
    that path leaves the tree, whatever its type and with no guard for the
    last file, and every other path maps to what it mapped to.  When a file
    is left, every member whose active file was the removed path gets the
    first remaining file as active file; the others, and users that are not
    members, keep theirs.  The keys of the tree are enumerated in insertion
    order. *)
Theorem unlink_removes_node st roomCode relativePath n members :
  insertion_ordered (room_files st roomCode) = true →
  roomCode ∈ fileWatchers (tm st) →
  room_node st roomCode relativePath = Some n →
  Obj.get (rooms st) roomCode = Some members →
  let st' := (step st (Watcher roomCode (WUnlink relativePath))).1 in
  (∀ k, room_node st' roomCode k
        = if decide (relativePath = k) then None else room_node st roomCode k) ∧
  match file_keys (room_files st' roomCode) with
  | newActiveFile :: _ =>
      ∀ u, active_file st' u
           = if bool_decide (u ∈ members)
                && bool_decide (active_file st u = Some relativePath)
             then Some newActiveFile else active_file st u
  | [] => userActiveFiles st' = userActiveFiles st
  end.
Proof.
  intros _ Hw Hnode Hmembers st'.
  assert (∃ files, Obj.get (roomFiles st) roomCode = Some files) as [files Hfiles].
  { unfold room_node in Hnode. destruct (Obj.get (roomFiles st) roomCode); [eauto|done]. }
  set (st1 := upd_roomFiles (Obj.set roomCode (Obj.delete relativePath files)) st).
  assert (∃ rest : M (),
            st' = (rest st1).1.2 ∧
            rest = bind (match file_keys (Obj.delete relativePath files) with
                         | new :: _ =>
                             reassign_active roomCode new
                               (λ cur, bool_decide (cur = Some relativePath))
                         | [] => ret ()
                         end)
                     (λ _, bind (gets (λ st, room_files st roomCode)) (λ files,
                           bind (emit (ToChannel roomCode) (FilesUpdate files)) (λ _,
                             emit (ToChannel roomCode) (ItemDeleted relativePath "file")))))
    as (rest & -> & Hrest).
  { eexists. split; [|reflexivity]. subst st'. rewrite step_state.
    unfold dispatch, on_watcher, mbind, M_bind, mret, M_ret. cbv beta.
    rewrite bind_gets, bool_decide_eq_true_2 by done. cbv beta iota zeta.
    unfold removeFileFromRoomFiles, mbind, M_bind, mret, M_ret.
    rewrite bind_gets, Hnode. cbv iota.
    unfold upd_room_files. rewrite bind_modify, bind_gets.
    assert (upd_roomFiles
              (λ rf, match Obj.get rf roomCode with
                     | Some files0 => Obj.set roomCode (Obj.delete relativePath files0) rf
                     | None => rf
                     end) st = st1) as ->.
    { unfold st1. destruct st. unfold upd_roomFiles. simpl in *. by rewrite Hfiles. }
    assert (room_files st1 roomCode = Obj.delete relativePath files) as ->.
    { unfold room_files, st1. simpl. by rewrite get_set_eq. }
    done. }
  assert (Obj.get (roomFiles st1) roomCode = Some (Obj.delete relativePath files)) as Hf1.
  { unfold st1. simpl. by rewrite get_set_eq. }
  assert (roomFiles (rest st1).1.2 = roomFiles st1) as Hf'.
  { apply (same_final roomFiles). subst rest. respects_go. }
  split.
  - intros k. unfold room_node at 1. rewrite Hf', Hf1, get_delete.
    unfold room_node. by rewrite Hfiles.
  - unfold room_files at 1. rewrite Hf', Hf1. cbn [default from_option id].
    subst rest.
    destruct (file_keys (Obj.delete relativePath files)) as [|new others] eqn:Hkeys.
    + rewrite bind_ret, bind_gets. unfold emit. rewrite !state_of_effect. by unfold effect.
    + assert (Obj.get (rooms st1) roomCode = Some members) as Hm1 by done.
      destruct (reassign_active_spec roomCode new
                  (λ cur, bool_decide (cur = Some relativePath)) members st1 Hm1)
        as (st2 & effs & Hrun & Hact & _).
      erewrite bind_Done_state by exact Hrun.
      rewrite bind_gets. unfold emit. rewrite !state_of_effect.
      intros u. unfold active_file. unfold effect. cbn [fst snd]. rewrite Hact.
      change (userActiveFiles st1) with (userActiveFiles st).
      apply get_reassigned.
      apply bool_decide_eq_false. intros [= Heq]. subst new.
      assert (relativePath ∈ file_keys (Obj.delete relativePath files)) as Hin
        by (rewrite Hkeys; by left).
      unfold file_keys in Hin. apply list_elem_of_In, filter_In in Hin as [Hin _].
      apply list_elem_of_In, keys_get_Some in Hin as [v Hv].
      by rewrite get_delete_eq in Hv.
Qed.

End Unlink.

(** ** Keys of a tree *)

Lemma room_node_Some_keys st roomCode k :
  is_Some (room_node st roomCode k) → k ∈ Obj.keys (room_files st roomCode).
Proof.
  unfold room_node, room_files. intros [n Hn].
  destruct (Obj.get (roomFiles st) roomCode) as [files|]; [|done].
  by eapply get_Some_keys.
Qed.

(** * Concrete runs *)

Ltac by_compute :=
  match goal with |- ?P => apply (bool_decide_unpack P) end; vm_compute; exact I.

Ltac in_effects :=
  apply list_elem_of_In; vm_compute; repeat first [left; reflexivity | right].

(** C1, as stated, fails, for either operation.  While the terminal token
    of (ABC123, main.js) is active, the editor-to-disk write of the same
    file is performed and replaces what the shell wrote.  And while the
    editor token of (ABC123, main.js) is active, the terminal-to-tree sync
    of the same file is performed and replaces what the editor wrote. *)
Lemma opposite_token_does_not_gate :
  (bool_decide (sync_key "terminal" "ABC123" "main.js"
                ∈ fileSyncInProgress (tm shell_then_editor)) = true ∧
   disk shell_then_editor !! main_js = Some (DFile "from the shell") ∧
   disk (@step demo shell_then_editor RunImmediate).1 !! main_js
   = Some (DFile "from the editor")) ∧
  (let st := (@step demo alice_edited
                (shell_writes alice_edited main_js "from the shell")).1 in
   bool_decide (sync_key "editor" "ABC123" "main.js"
                ∈ fileSyncInProgress (tm st)) = true ∧
   room_node st "ABC123" "main.js" = Some (FileN "x=1" "js" false) ∧
   room_node (@step demo st (Watcher "ABC123" (WChange "main.js"))).1
     "ABC123" "main.js"
   = Some (FileN "from the shell" "js" false)).
Proof. vm_compute. done. Qed.

Lemma token_gates_own_origin_only_witness :
  writeFileToWorkingDir "ABC123" "main.js" "x=2" alice_edited
  = (Done true, alice_edited, []) ∧
  syncFileFromTerminalToRoom "ABC123" "main.js" main_js shell_then_editor
  = (Done (), shell_then_editor, []) ∧
  blind_to (sync_key "terminal" "ABC123" "main.js")
    (writeFileToWorkingDir "ABC123" "main.js" "x=2") ∧
  blind_to (sync_key "editor" "ABC123" "main.js")
    (syncFileFromTerminalToRoom "ABC123" "main.js" main_js).
Proof.
  destruct (@token_gates_own_origin_only alice_edited "ABC123" "main.js" "x=2" main_js)
    as (Heditor & _ & Hwrite & Hsync).
  destruct (@token_gates_own_origin_only shell_then_editor "ABC123" "main.js" "" main_js)
    as (_ & Hterminal & _ & _).
  split_and!; [apply Heditor; by_compute|apply Hterminal; by_compute|done|done].
Defined.

Lemma terminal_output_reaches_owner_only_witness :
  ∃ A, terminal_owner alice_and_bob (PtyData "ABC123" "alice" "$ ls") = Some A ∧
       ToChannel "alice" = ToChannel A ∧
       ∀ B, B ≠ A → channel_private alice_and_bob A →
            B ∉ recipients alice_and_bob (ToChannel "alice").
Proof.
  apply (@terminal_output_reaches_owner_only demo alice_and_bob
           (PtyData "ABC123" "alice" "$ ls") alice_and_bob
           [Emit (ToChannel "alice") (TerminalOutput "$ ls")]
           (ToChannel "alice") "$ ls").
  - reflexivity.
  - apply list_elem_of_singleton. reflexivity.
Defined.

(** C3, as stated, fails: Alice is alone in ABC123; the file main.js, once
    written to the working directory, is removed there from her shell; the
    watcher reports it and the room, still with its member, has no file
    node left. *)
Lemma watcher_removes_last_file :
  let st := (@run demo alice_alone
               [TimerFire 0; Watcher "ABC123" (WAdd "main.js");
                shell_removes alice_alone main_js;
                Watcher "ABC123" (WUnlink "main.js")]).1 in
  Obj.get (rooms st) "ABC123" = Some ["alice"] ∧
  file_keys (room_files st "ABC123") = [].
Proof. vm_compute. done. Qed.

Lemma delete_file_keeps_a_file_witness :
  has_file
    (room_files
       (@step demo two_rooms (FromClient "alice" (DeleteItem "XYZ789" "b/y"))).1
       "XYZ789").
Proof.
  apply (@delete_file_keeps_a_file demo two_rooms "alice" "XYZ789" "b/y"
           ("// New file" +:+ Js.LF) "y" false).
  - unfold Obj.wf. by_compute.
  - vm_compute. reflexivity.
Defined.



Lemma join_room_failure_witness :
  @step demo alice_alone (FromClient "bob" (JoinRoom "bob" "ABC123" "wrong"))
  = (alice_alone, [Callback "bob" (ReplyFailure "Invalid password. Please try again.")]) ∧
  @step demo alice_alone (FromClient "bob" (JoinRoom "bob" "NOROOM" "p"))
  = (alice_alone,
     [Callback "bob" (ReplyFailure "Room not found. Please check the room code.")]).
Proof.
  split.
  - apply (@join_room_failure demo alice_alone "bob" "bob" "ABC123" "wrong").
    right. exists "$2b$10$p". split_and!; reflexivity.
  - apply (@join_room_failure demo alice_alone "bob" "bob" "NOROOM" "p").
    left. split; reflexivity.
Defined.

Lemma delete_last_file_rejected_witness :
  @step demo two_rooms (FromClient "alice" (DeleteItem "ABC123" "main.js"))
  = (two_rooms, [Emit (ToSocket "alice") (FileError "Cannot delete the last file")]) ∧
  ∀ u, u ∈ recipients two_rooms (ToSocket "alice") → u = "alice".
Proof.
  apply (@delete_last_file_rejected demo two_rooms "alice" "ABC123" "main.js"
           "// start typing..." "js" false); reflexivity.
Defined.



(** C8, as stated, fails: renamed to notes., whose leaf ends with its
    only dot, main.js gets the extension txt and not the empty one; renamed
    to v1.0/readme, whose leaf has no dot, it gets 0/readme. *)
Lemma rename_extension_not_of_leaf :
  (room_node
     (@step demo alice_and_bob
        (FromClient "alice" (RenameItem "ABC123" "main.js" "notes."))).1
     "ABC123" "notes."
   = Some (FileN "// start typing..." "txt" false) ∧
   spec_extension "notes." = "") ∧
  (room_node
     (@step demo alice_and_bob
        (FromClient "alice" (RenameItem "ABC123" "main.js" "v1.0/readme"))).1
     "ABC123" "v1.0/readme"
   = Some (FileN "// start typing..." "0/readme" false) ∧
   spec_extension "v1.0/readme" = "").
Proof. vm_compute. done. Qed.

Lemma rename_file_extension_witness :
  room_node
    (@step demo alice_and_bob
       (FromClient "alice" (RenameItem "ABC123" "main.js" "src.d/app.test.ts"))).1
    "ABC123" "src.d/app.test.ts"
  = Some (FileN "// start typing..."
            (Js.or_else (spec_extension "src.d/app.test.ts") "txt") false).
Proof.
  eapply (@rename_file_extension demo alice_and_bob "alice" "ABC123" "main.js"
            "src.d/app.test.ts" _ _ "file" "// start typing..." "js" false).
  - vm_compute. reflexivity.
  - in_effects.
  - vm_compute. reflexivity.
  - vm_compute. reflexivity.
Defined.

(** Renaming a folder also merges a node keyed [a/] into it: the round trip
    of C9 needs the tree to have none. *)
Lemma rename_round_trip_merges_slash_key :
  let st := (@run demo two_rooms
               [FromClient "alice" (CreateFile "XYZ789" "" "a")]).1 in
  let st2 := (@run demo st
                [FromClient "alice" (RenameItem "XYZ789" "a" "docs");
                 FromClient "alice" (RenameItem "XYZ789" "docs" "a")]).1 in
  room_node st "XYZ789" "a" = Some (FolderN false) ∧
  room_node st "XYZ789" "a/" = Some (FileN "Hello, World!" "txt" false) ∧
  room_node st2 "XYZ789" "a" = Some (FileN "Hello, World!" "a" false) ∧
  room_node st2 "XYZ789" "a/" = None.
Proof. vm_compute. done. Qed.

(** C9, as stated, fails: the tree of XYZ789 has the folder a, no node at b
    and the file b/y; renaming a to b and back succeeds twice and leaves the
    file at a/y. *)
Lemma rename_round_trip_captures_orphan :
  let r1 := @step demo two_rooms (FromClient "alice" (RenameItem "XYZ789" "a" "b")) in
  let r2 := @step demo r1.1 (FromClient "alice" (RenameItem "XYZ789" "b" "a")) in
  room_node two_rooms "XYZ789" "a" = Some (FolderN false) ∧
  room_node two_rooms "XYZ789" "b" = None ∧
  List.existsb is_file_error (r1.2 ++ r2.2) = false ∧
  room_node two_rooms "XYZ789" "b/y" = Some (FileN ("// New file" +:+ Js.LF) "y" false) ∧
  room_node r2.1 "XYZ789" "b/y" = None ∧
  room_node r2.1 "XYZ789" "a/y" = Some (FileN ("// New file" +:+ Js.LF) "y" false).
Proof. vm_compute. done. Qed.

Lemma rename_round_trip_witness :
  let st2 := (@run demo two_rooms
                [FromClient "alice" (RenameItem "XYZ789" "a" "docs");
                 FromClient "alice" (RenameItem "XYZ789" "docs" "a")]).1 in
  room_node st2 "XYZ789" "a" = Some (FolderN false) ∧
  room_node st2 "XYZ789" "docs" = None ∧
  room_node st2 "XYZ789" "b/y" = room_node two_rooms "XYZ789" "b/y" ∧
  room_node st2 "XYZ789" "main.js" = room_node two_rooms "XYZ789" "main.js".
Proof.
  intros st2.
  assert (∀ k, room_node st2 "XYZ789" k
               = if decide (k = "a")
                 then Some (with_extension (rename_extension "a") (FolderN false))
                 else room_node two_rooms "XYZ789" k) as Hk.
  { eapply (@rename_round_trip demo two_rooms "alice" "alice" "XYZ789" "a" "docs"
              (FolderN false) _ _ _ _ "folder" "folder").
    - vm_compute. reflexivity.
    - vm_compute. reflexivity.
    - in_effects.
    - in_effects.
    - vm_compute. reflexivity.
    - intros _. split.
      + intros k [n Hn]. rewrite room_node_files in Hn.
        apply get_Some_keys, list_elem_of_In in Hn. vm_compute in Hn.
        destruct Hn as [<-|[<-|[<-|[]]]]; vm_compute; reflexivity.
      + vm_compute. reflexivity. }
  split_and!; rewrite Hk; vm_compute; reflexivity.
Defined.

Lemma get_files_inherited_name_witness :
  @step demo boot (FromClient "mallory" (GetFiles "constructor"))
  = (boot, [Callback "mallory" (ReplyInherited "constructor")]) ∧
  @step demo boot (FromClient "mallory" (GetFileContent "constructor" "main.js"))
  = (boot, [Callback "mallory" (ReplyContent "")]).
Proof. apply (@get_files_inherited_name demo boot "mallory"). reflexivity. Defined.

Lemma pty_effects_belong_to_event_witness :
  pty_allowed alice_and_bob (FromClient "alice" (TerminalInput "ABC123" "ls"))
    (PtyWrite "alice" "ls").
Proof. apply (@pty_effects_belong_to_event demo). in_effects. Defined.



Lemma last_member_leaving_removes_room_witness :
  room_removed "ABC123" (@step demo alice_alone (Disconnect "alice")).1 ∧
  db (@step demo alice_alone (Disconnect "alice")).1 = db alice_alone.
Proof.
  apply (@last_member_leaving_removes_room demo alice_alone "alice" "ABC123").
  reflexivity.
Defined.

Lemma join_room_not_in_memory_witness :
  let st' := (@step demo bob_left (FromClient "alice" (JoinRoom "alice" "XYZ789" "q"))).1 in
  Obj.get (roomFiles st') "XYZ789" = Some getDefaultFiles ∧
  Obj.get (rooms st') "XYZ789" = Some ["alice"].
Proof.
  apply (@join_room_not_in_memory demo bob_left "alice" "alice" "XYZ789" "q" "$2b$10$q");
    reflexivity.
Defined.

Lemma members_listed_once_witness : NoDup ["alice"; "bob"].
Proof.
  apply (@members_listed_once demo
           [Connect "alice"; FromClient "alice" (CreateRoom "alice" "p" "ABC123");
            Connect "bob"; FromClient "bob" (JoinRoom "bob" "ABC123" "p")]
           "ABC123").
  reflexivity.
Defined.

Lemma held_tokens_have_timers_witness :
  let inputs :=
    [Connect "alice"; FromClient "alice" (CreateRoom "alice" "p" "ABC123");
     shell_writes alice_alone main_js "from the shell";
     Watcher "ABC123" (WAdd "main.js")] in
  TClearSync "terminal-ABC123-main.js" ∈ timers (@run demo boot inputs).1.
Proof.
  apply (@held_tokens_have_timers demo). by_compute.
Defined.

Lemma workdir_of_room_witness :
  "/tmp/compiler_ABC123" = Path.join Fs.tmpdir ("compiler_" +:+ "ABC123") ∧
  "/tmp/compiler_ABC123" ≠ "".
Proof.
  apply (@workdir_of_room demo
           [Connect "alice"; FromClient "alice" (CreateRoom "alice" "p" "ABC123")]
           "ABC123").
  reflexivity.
Defined.

Lemma toggle_folder_twice_witness :
  let first := @step demo two_rooms (FromClient "alice" (ToggleFolder "XYZ789" "a")) in
  let second := @step demo first.1 (FromClient "alice" (ToggleFolder "XYZ789" "a")) in
  room_node first.1 "XYZ789" "a" = Some (FolderN (negb false)) ∧
  second.1 = two_rooms ∧
  second.2 = [Emit (ToChannel "XYZ789") (FilesUpdate (room_files two_rooms "XYZ789"));
              Emit (ToChannel "XYZ789") (FolderToggled "a" false)].
Proof.
  apply (@toggle_folder_twice demo two_rooms "alice" "alice" "XYZ789" "a" false).
  reflexivity.
Defined.

Lemma create_file_stores_template_witness :
  let fullPath := child_path "docs" "notes.md" in
  let extension := Js.or_else (Js.pop (Js.split "." "notes.md")) "txt" in
  let st1 := (@step demo alice_and_bob
                (FromClient "alice" (CreateFile "ABC123" "notes.md" "docs"))).1 in
  (∀ k, room_node st1 "ABC123" k
        = if decide (k = fullPath)
          then Some (FileN (getDefaultContent extension) extension false)
          else room_node alice_and_bob "ABC123" k) ∧
  (contains "." "notes.md" = false → extension = Js.or_else "notes.md" "txt") ∧
  @step demo st1 (FromClient "bob" (GetFileContent "ABC123" fullPath))
  = (st1, [Callback "bob" (ReplyContent (getDefaultContent extension))]) ∧
  @step demo st1 (FromClient "bob" (CreateFile "ABC123" "notes.md" "docs"))
  = (st1, [Emit (ToSocket "bob") (FileError "File already exists")]).
Proof.
  apply (@create_file_stores_template demo alice_and_bob "alice" "bob" "ABC123"
           "notes.md" "docs"); reflexivity.
Defined.

Lemma code_change_then_read_witness :
  let first := @step demo alice_and_bob
                 (FromClient "alice" (CodeChange "ABC123" "x=1" "main.js")) in
  (∀ k, room_node first.1 "ABC123" k
        = if decide (k = "main.js") then Some (FileN "x=1" "js" false)
          else room_node alice_and_bob "ABC123" k) ∧
  first.2 = [Emit (ToChannelExcept "ABC123" "alice") (CodeUpdate "x=1" "main.js" "alice")] ∧
  disk first.1 = disk alice_and_bob ∧
  immediates first.1 = immediates alice_and_bob ++ [("ABC123", "main.js", "x=1")] ∧
  @step demo first.1 (FromClient "bob" (GetFileContent "ABC123" "main.js"))
  = (first.1, [Callback "bob" (ReplyContent "x=1")]).
Proof.
  apply (@code_change_then_read demo alice_and_bob "alice" "bob" "ABC123" "x=1"
           "main.js" "// start typing..." "js" false); reflexivity.
Defined.

Lemma switch_then_code_change_witness :
  let st1 := (@step demo two_files (FromClient "bob" (SwitchFile "ABC123" "b.js"))).1 in
  active_file st1 "bob" = Some "b.js" ∧
  (∀ u, u ≠ "bob" → active_file st1 u = active_file two_files u) ∧
  roomFiles st1 = roomFiles two_files ∧
  @step demo st1 (FromClient "bob" (CodeChange "ABC123" "x=1" ""))
  = @step demo st1 (FromClient "bob" (CodeChange "ABC123" "x=1" "b.js")).
Proof.
  apply (@switch_then_code_change demo two_files "bob" "ABC123" "b.js"
           ("// JavaScript file" +:+ Js.LF +:+ "console.log(" +:+ Js.DQ +:+
            "Hello, World!" +:+ Js.DQ +:+ ");") "js" false "x=1"); reflexivity.
Defined.


Lemma folder_subtree_follows_witness :
  let res := @step demo two_rooms (FromClient "alice" (RenameItem "XYZ789" "a" "c")) in
  (∀ i, at_or_under "a" i = true → is_Some (room_node two_rooms "XYZ789" i) →
        room_node res.1 "XYZ789" (rekeyed "a" "c" i) = room_node two_rooms "XYZ789" i ∧
        room_node res.1 "XYZ789" i = None) ∧
  (∀ k, at_or_under "a" k = false → at_or_under "c" k = false →
        room_node res.1 "XYZ789" k = room_node two_rooms "XYZ789" k).
Proof.
  apply (@folder_subtree_follows demo two_rooms "alice" "XYZ789" "a" "c"
           (@step demo two_rooms (FromClient "alice" (RenameItem "XYZ789" "a" "c"))).1
           (@step demo two_rooms (FromClient "alice" (RenameItem "XYZ789" "a" "c"))).2
           "folder" (RenameItem "XYZ789" "a" "c")).
  - reflexivity.
  - left. split_and!; [reflexivity|by exists false|in_effects].
  - apply surjective_pairing.
  - intros k Hk%room_node_Some_keys%list_elem_of_In.
    vm_compute in Hk. destruct Hk as [<-|[<-|[<-|[]]]]; reflexivity.
  - reflexivity.
Defined.

Lemma delete_item_removes_witness :
  room_node (@step demo two_files (FromClient "bob" (DeleteItem "ABC123" "src"))).1
    "ABC123" "src/x.js" = None.
Proof.
  apply (@delete_item_removes demo two_files "bob" "ABC123" "src" (FolderN false)
           eq_refl (λ H, False_ind _ (Bool.diff_false_true H)) "src/x.js").
Defined.

Lemma delete_item_moves_active_files_witness :
  let n := FileN "// start typing..." "js" false in
  let st' := (@step demo two_files (FromClient "bob" (DeleteItem "ABC123" "main.js"))).1 in
  let deleted := among (items_to_delete n "main.js" (room_files two_files "ABC123")) in
  match file_keys (room_files st' "ABC123") with
  | newActiveFile :: _ =>
      if is_file n || deleted (active_file two_files "bob") then
        ∀ u, active_file st' u
             = if bool_decide (u ∈ ["alice"; "bob"]) && deleted (active_file two_files u)
               then Some newActiveFile else active_file two_files u
      else userActiveFiles st' = userActiveFiles two_files
  | [] => userActiveFiles st' = userActiveFiles two_files
  end.
Proof.
  apply (@delete_item_moves_active_files demo two_files "bob" "ABC123" "main.js"
           (FileN "// start typing..." "js" false) ["alice"; "bob"]).
  - reflexivity.
  - reflexivity.
  - intros _. by_compute.
  - reflexivity.
Defined.

Lemma unlink_dir_removes_subtree_witness :
  let res := @step demo two_files (Watcher "ABC123" (WUnlinkDir "src")) in
  (∀ k, room_node res.1 "ABC123" k
        = if at_or_under "src" k then None else room_node two_files "ABC123" k) ∧
  userActiveFiles res.1 = userActiveFiles two_files ∧
  (is_Some (Obj.get (roomFiles two_files) "ABC123") →
   res.2 = [Emit (ToChannel "ABC123") (FilesUpdate (room_files res.1 "ABC123"));
            Emit (ToChannel "ABC123") (ItemDeleted "src" "folder")]).
Proof.
  apply (@unlink_dir_removes_subtree demo two_files "ABC123" "src").
  - by_compute.
  - reflexivity.
  - discriminate.
Defined.

Lemma terminal_sync_outcome_witness :
  let res := @step demo shell_wrote (Watcher "ABC123" (WAdd "main.js")) in
  (∀ k, room_node res.1 "ABC123" k
        = if decide (k = "main.js")
          then Some (FileN "from the shell" (synced_extension "main.js") false)
          else room_node shell_wrote "ABC123" k) ∧
  res.2 = [Emit (ToChannel "ABC123") (FilesUpdate (room_files res.1 "ABC123"));
           Emit (ToChannel "ABC123") (FileSynced "main.js" "from the shell")].
Proof.
  apply (@terminal_sync_outcome demo shell_wrote "ABC123" "main.js" (WAdd "main.js")).
  - reflexivity.
  - reflexivity.
  - by left.
  - by_compute.
  - by_compute.
Defined.

Lemma writeFileToWorkingDir_writes_witness :
  Fs.readFileSync
    (disk (writeFileToWorkingDir "ABC123" "main.js" "x=1" alice_and_bob).1.2)
    (Path.join "/tmp/compiler_ABC123" "main.js")
  = Some "x=1".
Proof.
  apply (@writeFileToWorkingDir_writes alice_and_bob "ABC123" "main.js" "x=1"
           "/tmp/compiler_ABC123").
  - by_compute.
  - reflexivity.
  - discriminate.
  - reflexivity.
Defined.


Lemma create_room_fresh_witness :
  let st' := (@step demo boot (FromClient "alice" (CreateRoom "alice" "p" "ABC123"))).1 in
  Obj.get (db st') "ABC123" = Some (@bcrypt_hash demo "p") ∧
  Obj.get (rooms st') "ABC123" = Some ["alice"] ∧
  Obj.get (roomFiles st') "ABC123" = Some getDefaultFiles ∧
  active_file st' "alice" = Some "main.js".
Proof.
  apply (@create_room_fresh demo boot "alice" "alice" "p" "ABC123"); reflexivity.
Defined.

Lemma create_room_taken_code_witness :
  @step demo alice_alone (FromClient "bob" (CreateRoom "bob" "q" "ABC123"))
  = (alice_alone, [Callback "bob" (ReplyFailure "Failed to create room")]).
Proof.
  apply (@create_room_taken_code demo alice_alone "bob" "bob" "q" "ABC123" "$2b$10$p").
  reflexivity.
Defined.

Lemma join_room_adds_member_witness :
  let st' := (@step demo alice_alone (FromClient "bob" (JoinRoom "bob" "ABC123" "p"))).1 in
  Obj.get (rooms st') "ABC123" = Some (["alice"] ++ ["bob"]) ∧
  roomFiles st' = roomFiles alice_alone ∧ db st' = db alice_alone ∧
  active_file st' "bob" = head (file_keys getDefaultFiles) ∧
  ∀ u, u ≠ "bob" → active_file st' u = active_file alice_alone u.
Proof.
  apply (@join_room_adds_member demo alice_alone "bob" "bob" "ABC123" "p" "$2b$10$p"
           ["alice"] getDefaultFiles).
  - reflexivity.
  - reflexivity.
  - reflexivity.
  - reflexivity.
  - by_compute.
  - reflexivity.
Defined.

Lemma create_room_then_join_witness :
  let st1 := (@step demo boot (FromClient "alice" (CreateRoom "alice" "p" "ABC123"))).1 in
  let st2 := (@step demo st1 (FromClient "bob" (JoinRoom "bob" "ABC123" "p"))).1 in
  Obj.get (rooms st2) "ABC123" = Some ["alice"; "bob"] ∧
  Obj.get (roomFiles st2) "ABC123" = Some getDefaultFiles ∧
  active_file st2 "alice" = Some "main.js" ∧
  active_file st2 "bob" = Some "main.js".
Proof.
  apply (@create_room_then_join demo boot "alice" "bob" "alice" "bob" "p" "ABC123").
  - reflexivity.
  - reflexivity.
  - reflexivity.
  - discriminate.
Defined.

Lemma unlink_removes_node_witness :
  let st' := (@step demo two_files (Watcher "ABC123" (WUnlink "main.js"))).1 in
  (∀ k, room_node st' "ABC123" k
        = if decide ("main.js" = k) then None else room_node two_files "ABC123" k) ∧
  match file_keys (room_files st' "ABC123") with
  | newActiveFile :: _ =>
      ∀ u, active_file st' u
           = if bool_decide (u ∈ ["alice"; "bob"])
                && bool_decide (active_file two_files u = Some "main.js")
             then Some newActiveFile else active_file two_files u
  | [] => userActiveFiles st' = userActiveFiles two_files
  end.
Proof.
  apply (@unlink_removes_node demo two_files "ABC123" "main.js"
           (FileN "// start typing..." "js" false) ["alice"; "bob"]).
  - reflexivity.
  - by_compute.
  - reflexivity.
  - reflexivity.
Defined.

(** ** The string and path functions on examples *)

Example split_ex1 : Js.split "." "a.b/c" = ["a"; "b/c"]. Proof. reflexivity. Qed.
Example split_ex2 : Js.split "." "" = [""]. Proof. reflexivity. Qed.
Example extname_ex1 : Path.extname "src/main.test.js" = ".js". Proof. reflexivity. Qed.
Example extname_ex2 : Path.extname ".bashrc" = "". Proof. reflexivity. Qed.
Example extname_ex3 : Path.extname "v1.0/readme" = "". Proof. reflexivity. Qed.
Example extname_ex4 : Path.extname "a." = ".". Proof. reflexivity. Qed.
Example extname_ex5 : Path.extname "..a" = ".a". Proof. reflexivity. Qed.
Example dirname_ex1 : Path.dirname "/tmp/compiler_X/a/b.js" = "/tmp/compiler_X/a". Proof. reflexivity. Qed.
Example dirname_ex2 : Path.dirname "/x" = "/". Proof. reflexivity. Qed.
Example dirname_ex3 : Path.dirname "/a/b/" = "/a". Proof. reflexivity. Qed.
Example join_ex1 : Path.join "/tmp/compiler_X" "a/b.js" = "/tmp/compiler_X/a/b.js". Proof. reflexivity. Qed.
Example join_ex2 : Path.join "/tmp/compiler_X" "a/../../b" = "/tmp/b". Proof. reflexivity. Qed.
Example join_ex3 : Path.join "/tmp/w" "" = "/tmp/w". Proof. reflexivity. Qed.
Example basename_ex1 : Path.basename "src/Main.java" ".java" = "Main". Proof. reflexivity. Qed.
Example sort_ex1 : Js.sort ["a/x"; "a"; "a/a/x"] = ["a"; "a/a/x"; "a/x"]. Proof. vm_compute. reflexivity. Qed.
